(** * Migration tool core: parsers, scanner and migration engine

    A shallow embedding of the Python prototype under
    [legacy/python-prototype] (modules [core.solution_parser],
    [core.project_parser], [core.file_scanner], [core.migration_engine]
    and the data classes of [models], with the file calls of
    [utils.file_utils], the workspace search of [migrate_tests] and the
    plan of [ui.migration_planner]) together with the properties the
    design document states about them and further properties of the
    code.

    Conventions of the embedding.
    - A Python [str] is a [string]; a character is a code point of the
      Latin-1 block (0..255) and the classification tables below are
      Python's tables restricted to that block.
    - [Optional[T]] is [option T]; Python truthiness of an optional
      string is [truthy].
    - An [xml.etree.ElementTree.Element] is the inductive [Element].
    - A call that can raise returns a [Result]; the engine, which also
      changes files, runs in the state-and-exception monad [M] over a
      [World].
    - The file system maps canonical paths to files and directories;
      what the program takes from libraries and the operating system
      beyond that (the XML parser, the external tool, failures of the
      environment) is a parameter of the function or a field of the
      [Host]. *)

From Stdlib Require Import Ascii String Sorted.
From stdpp Require Import base strings list gmap.

Open Scope string_scope.
Set Warnings "-register-all".

(* ================================================================== *)
(** * Part I: the program *)
(* ================================================================== *)

(** ** Python strings *)

Module PyStr.

Definition in_range (lo hi n : nat) : bool := (lo <=? n)%nat && (n <=? hi)%nat.

(** [str.isspace] on one character, which is also what [\s] matches. *)
Definition isspace (c : ascii) : bool :=
  let n := nat_of_ascii c in
  in_range 9 13 n || in_range 28 32 n || (n =? 133)%nat || (n =? 160)%nat.

(** Upper-case cased characters ([c.isupper()] for a single character). *)
Definition isupper_char (c : ascii) : bool :=
  let n := nat_of_ascii c in
  in_range 65 90 n || in_range 192 214 n || in_range 216 222 n.

Definition islower_char (c : ascii) : bool :=
  let n := nat_of_ascii c in
  in_range 97 122 n || in_range 223 246 n || in_range 248 255 n
  || (n =? 170)%nat || (n =? 181)%nat || (n =? 186)%nat.

(** [c.isalnum() or c == '_'], which is what [\w] matches. *)
Definition isword (c : ascii) : bool :=
  let n := nat_of_ascii c in
  isupper_char c || islower_char c
  || in_range 48 57 n || (n =? 178)%nat || (n =? 179)%nat || (n =? 185)%nat
  || in_range 188 190 n || (n =? 95)%nat.

Definition lower_char (c : ascii) : ascii :=
  if isupper_char c then ascii_of_nat (nat_of_ascii c + 32) else c.

(** Upper-casing stays inside the block except for the three letters
    223, 181 and 255, whose upper-case forms lie outside it; they are
    left in place. *)
Definition upper_char (c : ascii) : ascii :=
  let n := nat_of_ascii c in
  if in_range 97 122 n || in_range 224 246 n || in_range 248 254 n
  then ascii_of_nat (n - 32) else c.

Fixpoint smap (f : ascii -> ascii) (s : string) : string :=
  match s with
  | EmptyString => EmptyString
  | String c s' => String (f c) (smap f s')
  end.

Definition lower (s : string) : string := smap lower_char s.
Definition upper (s : string) : string := smap upper_char s.

(** [s.isupper()]: some cased character, and no lower-case one. *)
Fixpoint any_char (p : ascii -> bool) (s : string) : bool :=
  match s with
  | EmptyString => false
  | String c s' => p c || any_char p s'
  end.

Definition isupper (s : string) : bool :=
  any_char isupper_char s && negb (any_char islower_char s).

(** [s.startswith(p)] *)
Fixpoint startswith (p s : string) : bool :=
  match p, s with
  | EmptyString, _ => true
  | String a p', String b s' => if Ascii.eqb a b then startswith p' s' else false
  | String _ _, EmptyString => false
  end.

(** [sub in s] *)
Fixpoint contains (sub s : string) : bool :=
  startswith sub s ||
  match s with
  | EmptyString => false
  | String _ s' => contains sub s'
  end.

(** [s[n:]] *)
Fixpoint drop (n : nat) (s : string) : string :=
  match n, s with
  | O, _ => s
  | S n', String _ s' => drop n' s'
  | S _, EmptyString => EmptyString
  end.

(** [s[:n]] *)
Fixpoint take (n : nat) (s : string) : string :=
  match n, s with
  | S n', String c s' => String c (take n' s')
  | _, _ => EmptyString
  end.

(** [s.endswith(p)] *)
Definition endswith (p s : string) : bool :=
  (String.length p <=? String.length s)%nat
  && String.eqb (drop (String.length s - String.length p) s) p.

(** [s.lstrip()], [s.rstrip()], [s.strip()] *)
Fixpoint lstrip (s : string) : string :=
  match s with
  | String c s' => if isspace c then lstrip s' else s
  | EmptyString => EmptyString
  end.

Fixpoint rstrip (s : string) : string :=
  match s with
  | EmptyString => EmptyString
  | String c s' =>
      match rstrip s' with
      | EmptyString => if isspace c then EmptyString else String c EmptyString
      | r => String c r
      end
  end.

Definition strip (s : string) : string := rstrip (lstrip s).

(** [s.count(c)] for a one-character needle. *)
Fixpoint count_char (c : ascii) (s : string) : nat :=
  match s with
  | EmptyString => 0
  | String d s' => (if Ascii.eqb c d then 1 else 0) + count_char c s'
  end.

(** [s.split(c)] for a one-character separator: never empty. *)
Fixpoint split (sep : ascii) (s : string) : list string :=
  match s with
  | EmptyString => [EmptyString]
  | String c s' =>
      if Ascii.eqb c sep then EmptyString :: split sep s'
      else match split sep s' with
           | [] => [String c EmptyString]
           | w :: ws => String c w :: ws
           end
  end.

(** [s.replace(old, new)]: every non-overlapping occurrence, scanning
    from the left.  [skip] counts the characters of an occurrence that
    are still to be dropped. *)
Fixpoint replace_from (old new : string) (skip : nat) (s : string) : string :=
  match s with
  | EmptyString => EmptyString
  | String c s' =>
      match skip with
      | S k => replace_from old new k s'
      | O =>
          if startswith old s
          then new +:+ replace_from old new (String.length old - 1) s'
          else String c (replace_from old new 0 s')
      end
  end.

(** With an empty [old], Python inserts [new] before every character
    and at the end. *)
Fixpoint intersperse (new s : string) : string :=
  match s with
  | EmptyString => new
  | String c s' => new +:+ String c (intersperse new s')
  end.

Definition replace (old new s : string) : string :=
  match old with
  | EmptyString => intersperse new s
  | _ => replace_from old new 0 s
  end.

(** Text files are opened with [newline=None].  On reading, a
    carriage return, with the line feed that may follow it, becomes one
    line feed; [after_cr] says that the character before was a
    carriage return. *)
Definition cr : ascii := ascii_of_nat 13.
Definition lf : ascii := ascii_of_nat 10.

Fixpoint decode_newlines (after_cr : bool) (s : string) : string :=
  match s with
  | EmptyString => EmptyString
  | String c s' =>
      if Ascii.eqb c cr then String lf (decode_newlines true s')
      else if Ascii.eqb c lf
      then (if after_cr then decode_newlines false s' else String lf (decode_newlines false s'))
      else String c (decode_newlines false s')
  end.

Definition universal_newlines (s : string) : string := decode_newlines false s.

(** On writing, a line feed becomes [os.linesep]: itself, or carriage
    return and line feed under Windows ([nt]). *)
Fixpoint encode_newlines (s : string) : string :=
  match s with
  | EmptyString => EmptyString
  | String c s' =>
      if Ascii.eqb c lf then String cr (String lf (encode_newlines s'))
      else String c (encode_newlines s')
  end.

Definition os_newlines (nt : bool) (s : string) : string :=
  if nt then encode_newlines s else s.

(** Truthiness of an [Optional[str]]. *)
Definition truthy (o : option string) : bool :=
  match o with
  | Some (String _ _) => true
  | _ => false
  end.

(** [a or b] on optional strings. *)
Definition py_or (a b : option string) : option string :=
  if truthy a then a else b.

End PyStr.

(** ** [models/solution.py] *)

Inductive ProjectType := CLASS_LIBRARY | CONSOLE | WPF | TEST | UNKNOWN.

(** Canonical file-system paths: the sequence of directory entries from
    the root of the file system, without [.] or [..] segments. *)
Definition Path := list string.

Record ProjectReference := mkProjectReference {
  pr_name : string;
  pr_path : Path
}.

Record PackageReference := mkPackageReference {
  pkg_name : string;
  pkg_version : option string
}.

Record Project := mkProject {
  name : string;
  path : Path;
  guid : option string;
  target_framework : option string;
  project_type : ProjectType;
  project_references : list ProjectReference;
  package_references : list PackageReference;
  source_files : list Path;
  root_namespace : option string;
  output_type : option string
}.

Record Solution := mkSolution {
  sln_name : string;
  sln_path : Path;
  projects : list Project
}.

(** ** Regular expressions

    The fragment of Python's [re] the program uses, with the matching
    order of the backtracking engine: alternatives are tried from the
    left, repetitions are greedy, and the first complete match wins.
    [Bol] is [^] under [re.MULTILINE].  Classes, literals, [\s], [\w]
    and [.]-free negated classes are all [Chr] with the predicate of the
    class. *)

Module Re.

Inductive regex :=
| Eps
| Chr (p : ascii -> bool)
| Bol
| Seq (a b : regex)
| Alt (a b : regex)
| Star (a : regex)
| Grp (i : nat) (a : regex).

Definition Plus (a : regex) : regex := Seq a (Star a).
Definition Opt (a : regex) : regex := Alt a Eps.
Definition seqs (l : list regex) : regex := fold_right Seq Eps l.
Definition alts (l : list regex) : regex :=
  match l with
  | [] => Eps
  | a :: l' => fold_left Alt l' a
  end.

Definition is_char (c : ascii) : ascii -> bool := Ascii.eqb c.
Definition not_char (c : ascii) : ascii -> bool := fun x => negb (Ascii.eqb c x).
Definition is_char_ci (c : ascii) : ascii -> bool :=
  fun x => Ascii.eqb (PyStr.lower_char c) (PyStr.lower_char x).

(** A literal, as written or as produced by [re.escape]. *)
Fixpoint Lit (s : string) : regex :=
  match s with
  | EmptyString => Eps
  | String c s' => Seq (Chr (is_char c)) (Lit s')
  end.

(** A literal under [re.IGNORECASE]. *)
Fixpoint LitCI (s : string) : regex :=
  match s with
  | EmptyString => Eps
  | String c s' => Seq (Chr (is_char_ci c)) (LitCI s')
  end.

Definition ws : regex := Chr PyStr.isspace.
Definition word : regex := Chr PyStr.isword.

(** A position in the subject: whether a line starts here, and the text
    still to be read. *)
Record Pos := mkPos { at_bol : bool; rest : string }.

Definition Caps := list (nat * string).
Definition Res := (Pos * Caps)%type.
Definition Cont := Pos -> Caps -> option Res.
Definition Matcher := Pos -> Caps -> Cont -> option Res.

Definition newline : ascii := ascii_of_nat 10.

Definition advance (c : ascii) (s' : string) : Pos := mkPos (Ascii.eqb c newline) s'.

Definition consumed (st st' : Pos) : string :=
  PyStr.take (String.length (rest st) - String.length (rest st')) (rest st).

(** Greedy repetition of [m]: one more round if it succeeds with the
    rest of the pattern, otherwise the rest of the pattern from here.
    A round has to consume text, as every repeated part of the
    program's patterns does; [fuel] bounds the rounds by the length of
    the subject. *)
Fixpoint star_loop (m : Matcher) (fuel : nat) : Matcher :=
  fun st cs k =>
    match fuel with
    | O => k st cs
    | S fuel' =>
        match m st cs (fun st' cs' =>
                if (String.length (rest st') <? String.length (rest st))%nat
                then star_loop m fuel' st' cs' k else None) with
        | Some r => Some r
        | None => k st cs
        end
    end.

Fixpoint rmatch (r : regex) : Matcher :=
  match r with
  | Eps => fun st cs k => k st cs
  | Chr p => fun st cs k =>
      match rest st with
      | String c s' => if p c then k (advance c s') cs else None
      | EmptyString => None
      end
  | Bol => fun st cs k => if at_bol st then k st cs else None
  | Seq a b => fun st cs k => rmatch a st cs (fun st' cs' => rmatch b st' cs' k)
  | Alt a b => fun st cs k =>
      match rmatch a st cs k with
      | Some x => Some x
      | None => rmatch b st cs k
      end
  | Star a => fun st cs k => star_loop (rmatch a) (S (String.length (rest st))) st cs k
  | Grp i a => fun st cs k =>
      rmatch a st cs (fun st' cs' => k st' ((i, consumed st st') :: cs'))
  end.

(** A match object: [m.start()], [m.group(0)] and the groups. *)
Record Match := mkMatch { m_start : nat; m_text : string; m_caps : Caps }.

Fixpoint lookup_group (cs : Caps) (i : nat) : option string :=
  match cs with
  | [] => None
  | (j, x) :: cs' => if (i =? j)%nat then Some x else lookup_group cs' i
  end.

(** [m.group(i)]; [None] when the group did not take part in the match. *)
Definition group (m : Match) (i : nat) : option string := lookup_group (m_caps m) i.

Definition match_at (r : regex) (bol : bool) (idx : nat) (s : string) : option Match :=
  match rmatch r (mkPos bol s) [] (fun st cs => Some (st, cs)) with
  | Some (st', cs) => Some (mkMatch idx (consumed (mkPos bol s) st') cs)
  | None => None
  end.

(** [pattern.finditer(s)]: the non-overlapping matches from the left.
    [skip] counts the characters of the last match still to be passed. *)
Fixpoint finditer_from (r : regex) (bol : bool) (idx skip : nat) (s : string) : list Match :=
  match s with
  | EmptyString =>
      match skip with
      | O => match match_at r bol idx s with Some m => [m] | None => [] end
      | S _ => []
      end
  | String c s' =>
      match skip with
      | S k => finditer_from r (Ascii.eqb c newline) (S idx) k s'
      | O =>
          match match_at r bol idx s with
          | Some m =>
              m :: finditer_from r (Ascii.eqb c newline) (S idx) (String.length (m_text m) - 1) s'
          | None => finditer_from r (Ascii.eqb c newline) (S idx) 0 s'
          end
      end
  end.

Definition finditer (r : regex) (s : string) : list Match := finditer_from r true 0 0 s.

(** Whether a line starts after the text [s], read from a position
    where [b] says so. *)
Fixpoint bol_after (b : bool) (s : string) : bool :=
  match s with
  | EmptyString => b
  | String c s' => bol_after (Ascii.eqb c newline) s'
  end.

(** [no_group i r]: the pattern has no group [i].  [keeps i m]: the
    matcher hands group [i] on as it found it. *)
Fixpoint no_group (i : nat) (r : regex) : bool :=
  match r with
  | Eps | Chr _ | Bol => true
  | Seq a b | Alt a b => no_group i a && no_group i b
  | Star a => no_group i a
  | Grp j a => negb (i =? j)%nat && no_group i a
  end.

Definition keeps (i : nat) (m : Matcher) : Prop :=
  forall st cs k res, m st cs k = Some res ->
    exists st' cs', k st' cs' = Some res /\ lookup_group cs' i = lookup_group cs i.

(** [pattern.search(s)] *)
Definition search (r : regex) (s : string) : option Match := head (finditer r s).

(** [re.sub(pattern, repl, s)], with the replacement given as the text
    to insert for a matched text. *)
Fixpoint sub_from (r : regex) (repl : string -> string) (bol : bool) (skip : nat) (s : string)
  : string :=
  match s with
  | EmptyString =>
      match skip with
      | O => match match_at r bol 0 s with Some m => repl (m_text m) | None => EmptyString end
      | S _ => EmptyString
      end
  | String c s' =>
      match skip with
      | S k => sub_from r repl (Ascii.eqb c newline) k s'
      | O =>
          match match_at r bol 0 s with
          | Some m =>
              match String.length (m_text m) with
              | O => repl (m_text m) +:+ String c (sub_from r repl (Ascii.eqb c newline) 0 s')
              | S k => repl (m_text m) +:+ sub_from r repl (Ascii.eqb c newline) k s'
              end
          | None => String c (sub_from r repl (Ascii.eqb c newline) 0 s')
          end
      end
  end.

Definition sub_with (r : regex) (repl : string -> string) (s : string) : string :=
  sub_from r repl true 0 s.

(** A replacement without backslash is inserted as it is. *)
Definition sub (r : regex) (repl : string) (s : string) : string :=
  sub_with r (fun _ => repl) s.

End Re.

(** ** Paths ([pathlib]) *)

Module PyPath.

Definition dot : ascii := ascii_of_nat 46.
Definition slash : ascii := ascii_of_nat 47.
Definition backslash : ascii := ascii_of_nat 92.

(** [p.parent] *)
Definition parent (p : Path) : Path := removelast p.

(** [p.name] *)
Definition path_name (p : Path) : string := List.last p EmptyString.

(** [name.rfind('.')] *)
Fixpoint rfind_dot (s : string) : option nat :=
  match s with
  | EmptyString => None
  | String c s' =>
      match rfind_dot s' with
      | Some i => Some (S i)
      | None => if Ascii.eqb c dot then Some 0 else None
      end
  end.

(** Where the suffix starts, if the name has one:
    [0 < i < len(name) - 1] for [i = name.rfind('.')]. *)
Definition suffix_start (nm : string) : option nat :=
  match rfind_dot nm with
  | Some i => if (0 <? i)%nat && (i <? String.length nm - 1)%nat then Some i else None
  | None => None
  end.

(** [p.suffix] and [p.stem] *)
Definition suffix (p : Path) : string :=
  match suffix_start (path_name p) with
  | Some i => PyStr.drop i (path_name p)
  | None => EmptyString
  end.

Definition stem (p : Path) : string :=
  match suffix_start (path_name p) with
  | Some i => PyStr.take i (path_name p)
  | None => path_name p
  end.

(** [p.with_suffix(ext)] *)
Definition with_suffix (p : Path) (ext : string) : Path :=
  (parent p ++ [stem p +:+ ext])%list.

(** The segments of a path written with [/]; empty segments and [.]
    are dropped, as [pathlib] does. *)
Definition segments (s : string) : list string :=
  List.filter (fun x => negb (String.eqb x EmptyString || String.eqb x "."))
              (PyStr.split slash s).

(** [..] steps back; the file system of the model has no links. *)
Fixpoint normalize_onto (acc : Path) (l : list string) : Path :=
  match l with
  | [] => acc
  | x :: l' =>
      if String.eqb x ".." then normalize_onto (removelast acc) l'
      else normalize_onto (acc ++ [x])%list l'
  end.

(** [p.resolve()]: the [..] segments are taken out of the text of the
    path. *)
Definition resolve (p : Path) : Path := normalize_onto [] p.

(** [dir / s]: an absolute [s] replaces [dir]. *)
Definition join_raw (dir : Path) (s : string) : Path :=
  if PyStr.startswith "/" s then segments s
  else (dir ++ segments s)%list.

(** [str(p)] for a path relative to the workspace. *)
Definition rel_str (p : Path) : string :=
  match p with
  | [] => "."
  | _ => String.concat "/" p
  end.

(** [str(p)] for a path from the root of the file system. *)
Definition abs_str (p : Path) : string := "/" +:+ String.concat "/" p.

End PyPath.

(** ** The file system and Python's exceptions *)

Inductive ExnClass :=
| FileNotFoundError | IsADirectoryError | NotADirectoryError | FileExistsError
| PermissionError | OSError | UnicodeDecodeError | ShutilError
| ValueError | ReError | JSONDecodeError | RecursionError.

Record Exn := mkExn { exn_class : ExnClass; exn_text : string }.

(** The outcome of a call: a value, or an exception leaving the call. *)
Inductive Result (A : Type) :=
| Ok (a : A)
| Raise (e : Exn).
Arguments Ok {A} a.
Arguments Raise {A} e.

Inductive Node :=
| File (content : string)
| Dir.

(** The operations that can fail for reasons of the environment
    (permissions, encoding, devices, names that are too long).
    [OpStat] is the look at a path that [Path.exists] consists of and
    that the opening of a file begins with. *)
Inductive IoOp :=
| OpStat (p : Path)
| OpRead (p : Path)
| OpWrite (p : Path)
| OpMkdir (p : Path)
| OpMove (src dst : Path).

Definition FS := Path -> option Node.

(** Whether something stands at a path. *)
Definition fs_exists (fs : FS) (p : Path) : bool :=
  match fs p with Some _ => true | None => false end.

(** [p.exists()]: [False] for a path that is not there, and the
    exception of the look at the path when the environment refuses it
    ([PermissionError] under a directory that cannot be searched,
    [OSError] for a name that is too long). *)
Definition fs_stat (fs : FS) (fault : IoOp -> option Exn) (p : Path) : Result bool :=
  match fault (OpStat p) with
  | Some e => Raise e
  | None => Ok (fs_exists fs p)
  end.

(** [open(p, 'rb').read()]: what the file holds.  A path that cannot
    be looked at cannot be opened. *)
Definition fs_read_bytes (fs : FS) (fault : IoOp -> option Exn) (p : Path) : Result string :=
  match fault (OpStat p) with
  | Some e => Raise e
  | None =>
      match fault (OpRead p) with
      | Some e => Raise e
      | None =>
          match fs p with
          | Some (File content) => Ok content
          | Some Dir => Raise (mkExn IsADirectoryError ("[Errno 21] Is a directory: " +:+ PyPath.abs_str p))
          | None => Raise (mkExn FileNotFoundError ("[Errno 2] No such file or directory: " +:+ PyPath.abs_str p))
          end
      end
  end.

(** [p.read_text()]: the decoded text of a regular file, with
    universal newlines. *)
Definition fs_read (fs : FS) (fault : IoOp -> option Exn) (p : Path) : Result string :=
  match fs_read_bytes fs fault p with
  | Ok raw => Ok (PyStr.universal_newlines raw)
  | Raise e => Raise e
  end.

(** ** [core/solution_parser.py] *)

Module SolutionParser.
Import Re.

Definition dquote : ascii := ascii_of_nat 34.

(** [[A-F0-9-]] under [re.IGNORECASE] *)
Definition hex_or_dash (c : ascii) : bool :=
  let n := nat_of_ascii c in
  PyStr.in_range 65 70 n || PyStr.in_range 97 102 n || PyStr.in_range 48 57 n
  || (n =? 45)%nat.

Definition quote : regex := Chr (is_char dquote).
Definition quoted_text : regex := Plus (Chr (not_char dquote)).
Definition braced_guid (i : nat) : regex :=
  seqs [Lit "{"; Grp i (Plus (Chr hex_or_dash)); Lit "}"].

(** [Project\("\{([A-F0-9-]+)\}"\)\s*=\s*"([^"]+)"\s*,\s*"([^"]+)"\s*,\s*"\{([A-F0-9-]+)\}"]
    with [re.IGNORECASE] *)
Definition PROJECT_PATTERN : regex :=
  seqs [ LitCI "Project("; quote; braced_guid 1; quote; Lit ")";
         Star ws; Lit "="; Star ws;
         quote; Grp 2 quoted_text; quote;
         Star ws; Lit ","; Star ws;
         quote; Grp 3 quoted_text; quote;
         Star ws; Lit ","; Star ws;
         quote; braced_guid 4; quote ].

Definition SOLUTION_FOLDER_GUID : string := "2150E333-8FDC-42A3-9474-1A3956D46DE8".

(** [Project(name=.., path=.., guid=..)]: the other fields take the
    defaults of the data class. *)
Definition new_project (n : string) (p : Path) (g : string) : Project :=
  mkProject n p (Some g) None UNKNOWN [] [] [] None None.

(** [full_path.exists()] for a path that may hold [..] segments: the
    file system follows the path segment by segment and steps back
    only from a directory. *)
Fixpoint follow (fs : FS) (here : Path) (l : list string) : option Path :=
  match l with
  | [] => Some here
  | x :: l' =>
      if String.eqb x ".."
      then match fs here with
           | Some Dir => follow fs (removelast here) l'
           | _ => None
           end
      else follow fs (here ++ [x])%list l'
  end.

Definition exists_raw (fs : FS) (p : Path) : bool :=
  match follow fs [] p with
  | Some q => fs_exists fs q
  | None => false
  end.

Definition stat_raw (fs : FS) (fault : IoOp -> option Exn) (p : Path) : Result bool :=
  match fault (OpStat p) with
  | Some e => Raise e
  | None => Ok (exists_raw fs p)
  end.

(** [solution_dir] is [self._solution_dir], set by [parse].  The joined
    path keeps its [..] segments for the existence check and loses
    them in [resolve].  [with_suffix] is reached by a path that is not
    there, which has a name: the path without one is the root
    directory. *)
Definition _resolve_project_path
    (fs : FS) (fault : IoOp -> option Exn) (solution_dir : option Path)
    (relative_path : string) : Result (option Path) :=
  match solution_dir with
  | None => Ok None
  | Some dir =>
      let normalized_path :=
        PyStr.replace (String PyPath.backslash EmptyString) "/" relative_path in
      let full_path := PyPath.join_raw dir normalized_path in
      match stat_raw fs fault full_path with
      | Raise e => Raise e
      | Ok true => Ok (Some (PyPath.resolve full_path))
      | Ok false =>
          if String.eqb (PyPath.suffix full_path) EmptyString then
            let csproj_path := PyPath.with_suffix full_path ".csproj" in
            match stat_raw fs fault csproj_path with
            | Raise e => Raise e
            | Ok true => Ok (Some (PyPath.resolve csproj_path))
            | Ok false => Ok None
            end
          else Ok None
      end
  end.

Definition group_or_empty (m : Match) (i : nat) : string :=
  match group m i with Some x => x | None => EmptyString end.

(** The body of the loop of [_parse_projects] for one match: [None]
    stands for [continue]. *)
Definition project_of_match (fs : FS) (fault : IoOp -> option Exn)
    (solution_dir : option Path) (m : Match) : Result (option Project) :=
  let type_guid := group_or_empty m 1 in
  let name := group_or_empty m 2 in
  let relative_path := group_or_empty m 3 in
  let project_guid := group_or_empty m 4 in
  if String.eqb (PyStr.upper type_guid) SOLUTION_FOLDER_GUID then Ok None
  else
    match _resolve_project_path fs fault solution_dir relative_path with
    | Raise e => Raise e
    | Ok None => Ok None
    | Ok (Some project_path) => Ok (Some (new_project name project_path project_guid))
    end.

(** The loop of [_parse_projects]: it ends at the first exception. *)
Fixpoint projects_of_matches (fs : FS) (fault : IoOp -> option Exn)
    (solution_dir : option Path) (ms : list Match) : Result (list Project) :=
  match ms with
  | [] => Ok []
  | m :: ms' =>
      match project_of_match fs fault solution_dir m with
      | Raise e => Raise e
      | Ok found =>
          match projects_of_matches fs fault solution_dir ms' with
          | Raise e => Raise e
          | Ok projects => Ok (match found with Some p => p :: projects | None => projects end)
          end
      end
  end.

Definition _parse_projects (fs : FS) (fault : IoOp -> option Exn)
    (solution_dir : option Path) (content : string) : Result (list Project) :=
  projects_of_matches fs fault solution_dir (finditer PROJECT_PATTERN content).

Definition parse (fs : FS) (fault : IoOp -> option Exn) (sln_path : Path) : Result Solution :=
  match fs_stat fs fault sln_path with
  | Raise e => Raise e
  | Ok false =>
      Raise (mkExn FileNotFoundError ("Solution file not found: " +:+ PyPath.abs_str sln_path))
  | Ok true =>
      if negb (String.eqb (PyStr.lower (PyPath.suffix sln_path)) ".sln")
      then Raise (mkExn ValueError ("Not a solution file: " +:+ PyPath.abs_str sln_path))
      else
        match fs_read fs fault sln_path with
        | Raise e => Raise e
        | Ok content =>
            match _parse_projects fs fault (Some (PyPath.parent sln_path)) content with
            | Raise e => Raise e
            | Ok projects => Ok (mkSolution (PyPath.stem sln_path) sln_path projects)
            end
        end
  end.

(** The entries of a solution in the words of the design.  An entry
    whose type identifier, upper-cased, is the reserved one is a
    solution folder.  The file of an entry is looked for at its path
    and, for a path without extension, at the path with the suffix of
    a project file.  The surviving projects are those of the entries,
    in the order of the text, that are no folders and whose file is
    found. *)
Definition is_solution_folder (m : Match) : bool :=
  String.eqb (PyStr.upper (group_or_empty m 1)) SOLUTION_FOLDER_GUID.

Definition located (fs : FS) (dir : Path) (relative_path : string) : option Path :=
  let full_path :=
    PyPath.join_raw dir (PyStr.replace (String PyPath.backslash EmptyString) "/" relative_path) in
  if exists_raw fs full_path then Some (PyPath.resolve full_path)
  else if String.eqb (PyPath.suffix full_path) EmptyString
            && exists_raw fs (PyPath.with_suffix full_path ".csproj")
  then Some (PyPath.resolve (PyPath.with_suffix full_path ".csproj"))
  else None.

Definition surviving_project (fs : FS) (dir : Path) (m : Match) : option Project :=
  if is_solution_folder m then None
  else
    match located fs dir (group_or_empty m 3) with
    | Some project_path =>
        Some (new_project (group_or_empty m 2) project_path (group_or_empty m 4))
    | None => None
    end.

Definition surviving_projects (fs : FS) (dir : Path) (content : string) : list Project :=
  omap (surviving_project fs dir) (finditer PROJECT_PATTERN content).

Definition get_project_paths (fs : FS) (fault : IoOp -> option Exn) (sln_path : Path)
  : Result (list (string * Path)) :=
  match parse fs fault sln_path with
  | Raise e => Raise e
  | Ok solution => Ok (map (fun p => (name p, path p)) (projects solution))
  end.

End SolutionParser.

(** ** [models/file_info.py] *)

Inductive MemberType := CLASS | INTERFACE | STRUCT | ENUM | RECORD | DELEGATE.

Inductive TestFramework := XUNIT | NUNIT | MSTEST | UNKNOWN_FRAMEWORK.

Record TestInfo := mkTestInfo {
  ti_name : string;
  class_name : string;
  framework : TestFramework;
  is_theory : bool;
  traits : list string;
  ti_line_number : nat
}.

Record ClassInfo := mkClassInfo {
  ci_name : string;
  ci_namespace : option string;
  member_type : MemberType;
  base_class : option string;
  interfaces : list string;
  is_public : bool;
  is_abstract : bool;
  is_static : bool;
  is_partial : bool;
  is_sealed : bool;
  ci_line_number : nat;
  tests : list TestInfo
}.

(** ** [core/file_scanner.py] *)

Module FileScanner.
Import Re.

Definition ch (s : string) : ascii :=
  match s with String c _ => c | EmptyString => Ascii.zero end.

Definition ACCESS : regex :=
  alts [Lit "public"; Lit "private"; Lit "protected"; Lit "internal"].

(** [^\s*(?:(?:public|private|protected|internal)\s+)?]
    [(?:(?:abstract|sealed|static|partial)\s+)*]
    [(class|interface|struct|enum|record)\s+(\w+)(?:<[^>]+>)?(?:\s*:\s*([^{]+))?]
    with [re.MULTILINE] *)
Definition TYPE_PATTERN : regex :=
  seqs [ Bol; Star ws;
         Opt (Seq ACCESS (Plus ws));
         Star (Seq (alts [Lit "abstract"; Lit "sealed"; Lit "static"; Lit "partial"]) (Plus ws));
         Grp 1 (alts [Lit "class"; Lit "interface"; Lit "struct"; Lit "enum"; Lit "record"]);
         Plus ws;
         Grp 2 (Plus word);
         Opt (seqs [Lit "<"; Plus (Chr (not_char (ch ">"))); Lit ">"]);
         Opt (seqs [Star ws; Lit ":"; Star ws; Grp 3 (Plus (Chr (not_char (ch "{"))))]) ].

(** [\[NAME(?:\([^)]*\))?\]] *)
Definition attribute_pattern (nm : string) : regex :=
  seqs [ Lit "["; Lit nm;
         Opt (seqs [Lit "("; Star (Chr (not_char (ch ")"))); Lit ")"]);
         Lit "]" ].

Definition XUNIT_FACT_PATTERN : regex := attribute_pattern "Fact".
Definition XUNIT_THEORY_PATTERN : regex := attribute_pattern "Theory".
Definition NUNIT_TEST_PATTERN : regex := attribute_pattern "Test".
Definition NUNIT_TESTCASE_PATTERN : regex := attribute_pattern "TestCase".
Definition MSTEST_PATTERN : regex := attribute_pattern "TestMethod".

(** [[\w<>[\],\s]] *)
Definition return_type_char (c : ascii) : bool :=
  PyStr.isword c || PyStr.isspace c
  || Ascii.eqb c (ch "<") || Ascii.eqb c (ch ">") || Ascii.eqb c (ch "[")
  || Ascii.eqb c (ch "]") || Ascii.eqb c (ch ",").

(** [^\s*(?:(?:public|private|protected|internal)\s+)?]
    [(?:(?:async|virtual|override|static|abstract)\s+)*]
    [(?:Task\s+|void\s+|[\w<>[\],\s]+\s+)(\w+)\s*\(] with [re.MULTILINE] *)
Definition METHOD_PATTERN : regex :=
  seqs [ Bol; Star ws;
         Opt (Seq ACCESS (Plus ws));
         Star (Seq (alts [Lit "async"; Lit "virtual"; Lit "override"; Lit "static"; Lit "abstract"])
                   (Plus ws));
         alts [ Seq (Lit "Task") (Plus ws); Seq (Lit "void") (Plus ws);
                Seq (Plus (Chr return_type_char)) (Plus ws) ];
         Grp 1 (Plus word); Star ws; Lit "(" ].

Definition quoted (i : nat) : regex :=
  seqs [ Chr (is_char (ascii_of_nat 34));
         Grp i (Plus (Chr (not_char (ascii_of_nat 34))));
         Chr (is_char (ascii_of_nat 34)) ].

(** [\[Trait\s*\(\s*"([^"]+)"\s*,\s*"([^"]+)"\s*\)\]] *)
Definition TRAIT_PATTERN : regex :=
  seqs [ Lit "[Trait"; Star ws; Lit "("; Star ws; quoted 1; Star ws; Lit ","; Star ws;
         quoted 2; Star ws; Lit ")]" ].

(** [<[^>]+>], removed from a base-type name before it is looked at. *)
Definition GENERIC_ARGS : regex :=
  seqs [Lit "<"; Plus (Chr (not_char (ch ">"))); Lit ">"].

Definition is_match (o : option Match) : bool :=
  match o with Some _ => true | None => false end.

Definition group_or_empty (m : Match) (i : nat) : string :=
  match group m i with Some x => x | None => EmptyString end.

(** The attributes a line adds to [current_attributes]. *)
Definition attributes_of_line (line : string) : list (string * string) :=
  ((if is_match (search XUNIT_FACT_PATTERN line) then [("xunit", "fact")] else [])
   ++ (if is_match (search XUNIT_THEORY_PATTERN line) then [("xunit", "theory")] else [])
   ++ (if is_match (search NUNIT_TEST_PATTERN line) then [("nunit", "test")] else [])
   ++ (if is_match (search NUNIT_TESTCASE_PATTERN line) then [("nunit", "testcase")] else [])
   ++ (if is_match (search MSTEST_PATTERN line) then [("mstest", "test")] else []))%list.

(** The loop over [current_attributes] that settles framework and kind. *)
Definition framework_of (attrs : list (string * string)) : TestFramework * bool :=
  fold_left
    (fun (acc : TestFramework * bool) (a : string * string) =>
       let '(fw, attr_type) := a in
       if String.eqb fw "xunit" then (XUNIT, String.eqb attr_type "theory")
       else if String.eqb fw "nunit" then (NUNIT, String.eqb attr_type "testcase")
       else if String.eqb fw "mstest" then (MSTEST, snd acc)
       else acc)
    attrs (UNKNOWN_FRAMEWORK, false).

(** The loop of [_extract_tests_for_class] from line [line_num] on. *)
Fixpoint scan_lines (class_nm : string) (class_line line_num : nat) (in_class : bool)
    (brace_count : Z) (current_attributes : list (string * string))
    (lines : list string) : list TestInfo :=
  match lines with
  | [] => []
  | line :: rest =>
      if (line_num =? class_line)%nat
      then scan_lines class_nm class_line (S line_num) true brace_count current_attributes rest
      else if negb in_class
      then scan_lines class_nm class_line (S line_num) in_class brace_count current_attributes rest
      else
        let brace_count :=
          (brace_count + Z.of_nat (PyStr.count_char (ch "{") line)
           - Z.of_nat (PyStr.count_char (ch "}") line))%Z in
        if (brace_count <? 0)%Z then []
        else
          let current_attributes := (current_attributes ++ attributes_of_line line)%list in
          let traits :=
            map (fun m => group_or_empty m 1 +:+ ":" +:+ group_or_empty m 2)
                (finditer TRAIT_PATTERN line) in
          match search METHOD_PATTERN line, current_attributes with
          | Some method_match, _ :: _ =>
              let '(fw, theory) := framework_of current_attributes in
              mkTestInfo (group_or_empty method_match 1) class_nm fw theory traits line_num
              :: scan_lines class_nm class_line (S line_num) in_class brace_count [] rest
          | _, _ =>
              scan_lines class_nm class_line (S line_num) in_class brace_count
                current_attributes rest
          end
  end.

Definition _extract_tests_for_class (content class_nm : string) (class_line : nat)
  : list TestInfo :=
  scan_lines class_nm class_line 1 false 0%Z [] (PyStr.split newline content).

(** [MemberType(s)]: the enumeration member with that value, or
    [ValueError]. *)
Definition member_type_of_value (s : string) : Result MemberType :=
  if String.eqb s "class" then Ok CLASS
  else if String.eqb s "interface" then Ok INTERFACE
  else if String.eqb s "struct" then Ok STRUCT
  else if String.eqb s "enum" then Ok ENUM
  else if String.eqb s "record" then Ok RECORD
  else if String.eqb s "delegate" then Ok DELEGATE
  else Raise (mkExn ValueError (s +:+ " is not a valid MemberType")).

Definition is_class (t : MemberType) : bool :=
  match t with CLASS => true | _ => false end.

(** The loop over the parts of the inheritance clause. *)
Definition classify_part (mt : MemberType) (acc : option string * list string) (part : string)
  : option string * list string :=
  let '(base, ifaces) := acc in
  let simple_name := PyStr.strip (sub GENERIC_ARGS EmptyString part) in
  if PyStr.startswith "I" simple_name && PyStr.isupper (PyStr.take 1 (PyStr.drop 1 simple_name))
  then (base, (ifaces ++ [part])%list)
  else
    match base with
    | None => if is_class mt then (Some part, ifaces) else acc
    | Some _ => acc
    end.

Definition parse_inheritance (mt : MemberType) (inheritance : option string)
  : option string * list string :=
  match inheritance with
  | Some (String c i) =>
      fold_left (classify_part mt)
                (map PyStr.strip (PyStr.split (ch ",") (String c i))) (None, [])
  | _ => (None, [])
  end.

(** The body of the loop of [_extract_classes] for one match. *)
Definition class_of_match (content : string) (namespace : option string) (m : Match)
  : Result ClassInfo :=
  let member_type_str := group_or_empty m 1 in
  let name := group_or_empty m 2 in
  let inheritance := group m 3 in
  match member_type_of_value (PyStr.lower member_type_str) with
  | Raise e => Raise e
  | Ok mt =>
      let '(base, ifaces) := parse_inheritance mt inheritance in
      let line_number := PyStr.count_char newline (PyStr.take (m_start m) content) + 1 in
      let match_text := m_text m in
      let is_abstract := PyStr.contains "abstract" match_text in
      let is_static := PyStr.contains "static" match_text in
      let is_partial := PyStr.contains "partial" match_text in
      let is_sealed := PyStr.contains "sealed" match_text in
      let tests := _extract_tests_for_class content name line_number in
      Ok (mkClassInfo name namespace mt base ifaces
            (PyStr.contains "public" match_text)
            is_abstract is_static is_partial is_sealed line_number tests)
  end.

(** A loop that stops at the first exception. *)
Fixpoint collect {A B : Type} (f : A -> Result B) (l : list A) : Result (list B) :=
  match l with
  | [] => Ok []
  | a :: l' =>
      match f a with
      | Raise e => Raise e
      | Ok b =>
          match collect f l' with
          | Raise e => Raise e
          | Ok bs => Ok (b :: bs)
          end
      end
  end.

Definition _extract_classes (content : string) (namespace : option string)
  : Result (list ClassInfo) :=
  collect (class_of_match content namespace) (finditer TYPE_PATTERN content).

(** The alternatives of group 1 of [TYPE_PATTERN]. *)
Definition KINDS : list string := ["class"; "interface"; "struct"; "enum"; "record"].

(** A declaration text that starts, after blanks, with an access
    modifier and white space: the optional first group of
    [TYPE_PATTERN]. *)
Definition has_access_modifier (decl : string) : bool :=
  is_match (match_at (seqs [Star ws; ACCESS; Plus ws]) true 0 decl).

End FileScanner.

(** ** [xml.etree.ElementTree] elements *)

Module ET.

Inductive Element :=
  mkElement (tag : string) (attrib : gmap string string)
            (text : option string) (children : list Element).

Definition tag (e : Element) : string := let 'mkElement t _ _ _ := e in t.
Definition attrib (e : Element) : gmap string string := let 'mkElement _ a _ _ := e in a.
Definition text (e : Element) : option string := let 'mkElement _ _ x _ := e in x.
Definition children (e : Element) : list Element := let 'mkElement _ _ _ cs := e in cs.

(** [elem.get(key)] *)
Definition get (e : Element) (key : string) : option string := attrib e !! key.

(** [elem.find(tag)] for a plain tag: the first direct child so named. *)
Definition find (e : Element) (t : string) : option Element :=
  List.find (fun c => String.eqb (tag c) t) (children e).

(** [elem.iter()]: the element and all its descendants, in document order. *)
Fixpoint iter_all (e : Element) : list Element :=
  match e with
  | mkElement _ _ _ cs => e :: flat_map iter_all cs
  end.

(** [elem.iter(tag)] *)
Definition iter (e : Element) (t : string) : list Element :=
  filter (fun x => tag x = t) (iter_all e).

(** [bool(elem)]: an element is truthy when it has children. *)
Definition elem_truthy (e : Element) : bool :=
  match children e with [] => false | _ => true end.

(** [a or b] on optional elements. *)
Definition elem_or (a b : option Element) : option Element :=
  match a with
  | Some e => if elem_truthy e then a else b
  | None => b
  end.

End ET.

(** ** [core/project_parser.py]: the part that works on the parsed tree *)

Module ProjectParser.
Import ET.

Definition MSBUILD_NS : string := "{http://schemas.microsoft.com/developer/msbuild/2003}".

Definition TEST_PACKAGES : gset string :=
  {[ "xunit"; "xunit.runner.visualstudio";
     "nunit"; "nunit3testadapter";
     "mstest.testframework"; "mstest.testadapter";
     "microsoft.net.test.sdk" ]}.

(** The body of one of the two loops of [_get_property]: the first
    property group whose first child named [name] has a non-empty
    text decides. *)
Fixpoint first_property (groups : list Element) (name : string) : option string :=
  match groups with
  | [] => None
  | prop_group :: rest =>
      match find prop_group name with
      | Some elem =>
          if PyStr.truthy (text elem)
          then option_map PyStr.strip (text elem)
          else first_property rest name
      | None => first_property rest name
      end
  end.

Definition _get_property (root : Element) (name : string) : option string :=
  match first_property (iter root "PropertyGroup") name with
  | Some v => Some v
  | None =>
      first_property (iter root (MSBUILD_NS +:+ "PropertyGroup")) (MSBUILD_NS +:+ name)
  end.

(** One iteration of the inner loop of [_parse_package_references]. *)
Definition package_of_element (elem : Element) : option PackageReference :=
  let name := get elem "Include" in
  let version := get elem "Version" in
  let version :=
    match version with
    | Some v => Some v
    | None =>
        let version_elem :=
          elem_or (find elem "Version") (find elem (MSBUILD_NS +:+ "Version")) in
        match version_elem with
        | Some ve => text ve
        | None => None
        end
    end in
  match name with
  | Some (String c n) => Some (mkPackageReference (String c n) version)
  | _ => None
  end.

Definition _parse_package_references (root : Element) : list PackageReference :=
  flat_map (fun t => omap package_of_element (iter root t))
           ["PackageReference"; MSBUILD_NS +:+ "PackageReference"].

Definition _determine_project_type
    (output_type : option string) (packages : list PackageReference) : ProjectType :=
  let package_names : gset string :=
    list_to_set (map (fun p => PyStr.lower (pkg_name p)) packages) in
  if decide (package_names ∩ TEST_PACKAGES ≠ ∅) then TEST
  else
    match output_type with
    | Some (String c o) =>
        let output_lower := PyStr.lower (String c o) in
        if String.eqb output_lower "exe" then CONSOLE
        else if String.eqb output_lower "winexe" then WPF
        else if String.eqb output_lower "library" then CLASS_LIBRARY
        else UNKNOWN
    | _ => UNKNOWN
    end.

(** [_has_sdk_import]: some element whose name ends in [Import] has a
    non-empty [Sdk] attribute. *)
Definition _has_sdk_import (root : Element) : bool :=
  existsb (fun elem => PyStr.endswith "Import" (tag elem) && PyStr.truthy (get elem "Sdk"))
          (iter_all root).

(** [project_dir] is [self._project_dir], set by [parse]. *)
Definition _resolve_reference_path
    (fs : FS) (fault : IoOp -> option Exn) (project_dir : option Path)
    (relative_path : string) : Result (option Path) :=
  match project_dir with
  | None => Ok None
  | Some dir =>
      let normalized_path :=
        PyStr.replace (String PyPath.backslash EmptyString) "/" relative_path in
      let full_path := PyPath.resolve (PyPath.join_raw dir normalized_path) in
      match fs_stat fs fault full_path with
      | Raise e => Raise e
      | Ok found => Ok (if found then Some full_path else None)
      end
  end.

(** The body of the loops of [_parse_project_references] for one
    element: [None] when nothing is appended. *)
Definition reference_of_element
    (fs : FS) (fault : IoOp -> option Exn) (project_dir : option Path)
    (elem : Element) : Result (option ProjectReference) :=
  match get elem "Include" with
  | Some (String c i) =>
      match _resolve_reference_path fs fault project_dir (String c i) with
      | Raise e => Raise e
      | Ok (Some ref_path) => Ok (Some (mkProjectReference (PyPath.stem ref_path) ref_path))
      | Ok None => Ok None
      end
  | _ => Ok None
  end.

(** The loops run over the elements in order and end at the first
    exception. *)
Fixpoint references_of_elements
    (fs : FS) (fault : IoOp -> option Exn) (project_dir : option Path)
    (elems : list Element) : Result (list ProjectReference) :=
  match elems with
  | [] => Ok []
  | elem :: elems' =>
      match reference_of_element fs fault project_dir elem with
      | Raise e => Raise e
      | Ok found =>
          match references_of_elements fs fault project_dir elems' with
          | Raise e => Raise e
          | Ok references =>
              Ok (match found with Some r => r :: references | None => references end)
          end
      end
  end.

Definition _parse_project_references
    (fs : FS) (fault : IoOp -> option Exn) (project_dir : option Path)
    (root : Element) : Result (list ProjectReference) :=
  references_of_elements fs fault project_dir
    (flat_map (iter root) ["ProjectReference"; MSBUILD_NS +:+ "ProjectReference"]).

(** [ET.parse(path)]: the file is read as it is, without the
    translation of line ends, and handed to the XML parser, [xml],
    which answers with the root element or with the text of an
    [ET.ParseError]. *)
Definition et_parse (fs : FS) (fault : IoOp -> option Exn)
    (xml : string -> Element + string) (p : Path) : Result (Element + string) :=
  match fs_read_bytes fs fault p with
  | Raise e => Raise e
  | Ok content => Ok (xml content)
  end.

Definition parse (fs : FS) (fault : IoOp -> option Exn)
    (xml : string -> Element + string) (csproj_path : Path) : Result Project :=
  match fs_stat fs fault csproj_path with
  | Raise e => Raise e
  | Ok false =>
      Raise (mkExn FileNotFoundError ("Project file not found: " +:+ PyPath.abs_str csproj_path))
  | Ok true =>
      if negb (String.eqb (PyStr.lower (PyPath.suffix csproj_path)) ".csproj")
      then Raise (mkExn ValueError ("Not a project file: " +:+ PyPath.abs_str csproj_path))
      else
        let project_dir := Some (PyPath.parent csproj_path) in
        match et_parse fs fault xml csproj_path with
        | Raise e => Raise e
        | Ok (inr err) =>
            Raise (mkExn ValueError
                     ("Invalid XML in " +:+ PyPath.abs_str csproj_path +:+ ": " +:+ err))
        | Ok (inl root) =>
            let is_sdk_style :=
              match get root "Sdk" with Some _ => true | None => false end
              || _has_sdk_import root in
            let target_framework :=
              PyStr.py_or (_get_property root "TargetFramework")
                          (_get_property root "TargetFrameworks") in
            let root_namespace := _get_property root "RootNamespace" in
            let output_type := _get_property root "OutputType" in
            match _parse_project_references fs fault project_dir root with
            | Raise e => Raise e
            | Ok project_references =>
                let package_references := _parse_package_references root in
                let project_type := _determine_project_type output_type package_references in
                Ok (mkProject (PyPath.stem csproj_path) csproj_path None target_framework
                      project_type project_references package_references []
                      (PyStr.py_or root_namespace (Some (PyPath.stem csproj_path)))
                      output_type)
            end
        end
  end.

(** The two dialects.  A legacy file carries the default namespace
    [MSBUILD_NS], so that the parser sees every element name with that
    prefix; [qualify] is the legacy rendering of an SDK-style tree
    with the same content.  [sdk_style_tags] says that no element name
    of a tree carries the prefix. *)
Fixpoint qualify (e : Element) : Element :=
  match e with
  | mkElement t a x cs => mkElement (MSBUILD_NS +:+ t) a x (map qualify cs)
  end.


(** The property lookup in the words of the design: of the texts
    found for a property, one per property group in document order
    (that of the group's first child of the name, if it has a text),
    the first that is not empty, trimmed. *)
Definition property_texts (root : Element) (name : string) : list string :=
  omap (fun prop_group =>
          match find prop_group name with
          | Some elem => text elem
          | None => None
          end)
       (iter root "PropertyGroup").

Definition first_nonempty_trimmed (texts : list string) : option string :=
  option_map PyStr.strip
    (List.find (fun x => negb (String.eqb x EmptyString)) texts).

Definition trimmed_property (root : Element) (name : string) : option string :=
  first_nonempty_trimmed (property_texts root name).


End ProjectParser.

(** ** [core/migration_engine.py]

    The engine acts on a world: the file system, a log of the calls
    made to it, and the host, which answers for everything the engine
    reaches outside its own code.  A path is canonical; [Path.exists]
    answers, or raises what the look at the path raised. *)

Module MigrationEngine.

Record MigrationResult := mkResult {
  success : bool;
  message : string;
  details : option string
}.

(** [subprocess.CompletedProcess] *)
Record Completed := mkCompleted { returncode : Z; stdout : string; stderr : string }.

(** Where an exception came from: a file operation, a text operation,
    or the call of the external tool. *)
Inductive Origin := FromFile | FromText | FromDelegate.

Inductive Event :=
| Stat (p : Path)
| Read (p : Path)
| Write (p : Path) (content : string)
| Mkdir (p : Path)
| Move (src dst : Path)
| Spawn (cmd : list string)
| Failed (o : Origin) (e : Exn).

Record Host := mkHost {
  (** failures of the environment: permissions, devices, encodings *)
  fault : IoOp -> option Exn;
  (** [subprocess.run(cmd, ..)]: the outcome and what the tool did to
      the files *)
  run_process : list string -> FS -> Result Completed * FS;
  (** [json.loads]: [None] when the text is a JSON document *)
  json_loads : string -> option Exn;
  (** [re]'s treatment of a replacement that holds a backslash: an
      error, or the text to insert for a matched text *)
  re_template : string -> Result (string -> string);
  (** [os.name == "nt"] *)
  os_is_nt : bool;
  (** what a [shutil.move] that the environment failed on its way has
      left of the source and target trees: it copies across file
      systems and deletes afterwards *)
  move_residue : Path -> Path -> FS -> FS
}.

Record World := mkWorld { fs : FS; log : list Event; host : Host }.

Definition emit (ev : Event) (w : World) : World :=
  mkWorld (fs w) (log w ++ [ev])%list (host w).

Definition set_fs (f : FS) (w : World) : World := mkWorld f (log w) (host w).

(** Computations of the engine: they read and change the world and
    end with a value or with an exception. *)
Definition M (A : Type) : Type := World -> Result A * World.

Definition ret {A : Type} (a : A) : M A := fun w => (Ok a, w).

Definition bind {A B : Type} (m : M A) (k : A -> M B) : M B :=
  fun w =>
    match m w with
    | (Ok a, w') => k a w'
    | (Raise e, w') => (Raise e, w')
    end.

(** [try: body except Exception as e: handler(e)] *)
Definition try_except {A : Type} (body : M A) (handler : Exn -> M A) : M A :=
  fun w =>
    match body w with
    | (Ok a, w') => (Ok a, w')
    | (Raise e, w') => handler e w'
    end.

Definition fail {A : Type} (o : Origin) (e : Exn) : M A :=
  fun w => (Raise e, emit (Failed o e) w).

Notation "x <- m ;; k" := (bind m (fun x => k))
  (at level 100, m at next level, right associativity).
Notation "m ;;; k" := (bind m (fun _ => k))
  (at level 100, right associativity).

(** *** The file system calls *)

Fixpoint is_prefix (q p : Path) : bool :=
  match q, p with
  | [], _ => true
  | a :: q', b :: p' => String.eqb a b && is_prefix q' p'
  | _ :: _, [] => false
  end.

Definition path_eqb (p q : Path) : bool := is_prefix p q && is_prefix q p.

Definition is_dir (f : FS) (p : Path) : bool :=
  match f p with Some Dir => true | _ => false end.

Definition is_file (f : FS) (p : Path) : bool :=
  match f p with Some (File _) => true | _ => false end.

Definition fs_set (f : FS) (p : Path) (n : Node) : FS :=
  fun q => if path_eqb q p then Some n else f q.

(** [p.exists()] *)
Definition path_exists (p : Path) : M bool :=
  fun w =>
    match fs_stat (fs w) (fault (host w)) p with
    | Ok found => (Ok found, emit (Stat p) w)
    | Raise e => fail FromFile e (emit (Stat p) w)
    end.

(** [p.read_text(encoding='utf-8')] *)
Definition read_text (p : Path) : M string :=
  fun w =>
    match fs_read (fs w) (fault (host w)) p with
    | Ok content => (Ok content, emit (Read p) w)
    | Raise e => fail FromFile e (emit (Read p) w)
    end.

(** [p.write_text(content, encoding='utf-8')]: the file holds the
    content with the line ends of the system. *)
Definition write_text (p : Path) (content : string) : M unit :=
  fun w =>
    let w1 := emit (Write p content) w in
    match fault (host w) (OpWrite p) with
    | Some e => fail FromFile e w1
    | None =>
        if is_dir (fs w) p
        then fail FromFile (mkExn IsADirectoryError
                              ("[Errno 21] Is a directory: " +:+ PyPath.abs_str p)) w1
        else if is_dir (fs w) (PyPath.parent p)
        then (Ok tt,
              set_fs (fs_set (fs w) p (File (PyStr.os_newlines (os_is_nt (host w)) content))) w1)
        else fail FromFile (mkExn FileNotFoundError
                              ("[Errno 2] No such file or directory: " +:+ PyPath.abs_str p)) w1
    end.

(** The prefixes of a path, the path itself included. *)
Fixpoint prefixes (p : Path) : list Path :=
  match p with
  | [] => [[]]
  | a :: p' => [] :: map (cons a) (prefixes p')
  end.

(** [p.mkdir(parents=True, exist_ok=True)]: every missing directory on
    the way to [p] is made; a regular file on the way is an error. *)
Definition mkdir_parents (p : Path) : M unit :=
  fun w =>
    let w1 := emit (Mkdir p) w in
    match fault (host w) (OpMkdir p) with
    | Some e => fail FromFile e w1
    | None =>
        if existsb (is_file (fs w)) (prefixes p)
        then fail FromFile (mkExn FileExistsError
                              ("[Errno 17] File exists: " +:+ PyPath.abs_str p)) w1
        else (Ok tt,
              set_fs (fun q => if is_prefix q p
                               then match fs w q with None => Some Dir | x => x end
                               else fs w q) w1)
    end.

(** What [os.rename(src, dst)] leaves: the tree under [src] is gone
    and stands under [dst]. *)
Definition relocate (f : FS) (src dst : Path) : FS :=
  fun q =>
    if is_prefix src q then None
    else if is_prefix dst q then f (src ++ drop (length dst) q)%list
    else f q.

(** [os.rename(src, dst)] as [shutil.move] uses it, with the errors
    [shutil.move] makes of its failures. *)
Definition rename (src dst : Path) (w : World) : Result unit * World :=
  if path_eqb src dst then (Ok tt, w)
  else if is_dir (fs w) src && is_prefix src dst
  then fail FromFile (mkExn ShutilError
                        ("Cannot move a directory '" +:+ PyPath.abs_str src
                         +:+ "' into itself '" +:+ PyPath.abs_str dst +:+ "'.")) w
  else if is_dir (fs w) src && is_file (fs w) dst
  then fail FromFile (mkExn FileExistsError
                        ("[Errno 17] File exists: " +:+ PyPath.abs_str dst)) w
  else if negb (is_dir (fs w) (PyPath.parent dst))
  then fail FromFile (mkExn FileNotFoundError
                        ("[Errno 2] No such file or directory: " +:+ PyPath.abs_str dst)) w
  else (Ok tt, set_fs (relocate (fs w) src dst) w).

(** What is left when the environment fails [shutil.move] on its way:
    outside the two trees nothing has changed. *)
Definition wreck (h : Host) (src dst : Path) (f : FS) : FS :=
  fun q => if is_prefix src q || is_prefix dst q then move_residue h src dst f q else f q.

(** [shutil.move(src, dst)]: where [os.rename] is not to be had the
    tree is copied and the source deleted afterwards, and a failure
    of the environment can end that anywhere. *)
Definition shutil_move (src dst : Path) : M unit :=
  fun w =>
    let w1 := emit (Move src dst) w in
    let carry (real_dst : Path) :=
      match fault (host w) (OpMove src dst) with
      | Some e => fail FromFile e (set_fs (wreck (host w) src real_dst (fs w)) w1)
      | None => rename src real_dst w1
      end in
    if negb (fs_exists (fs w) src)
    then fail FromFile (mkExn FileNotFoundError
                          ("[Errno 2] No such file or directory: " +:+ PyPath.abs_str src)) w1
    else if is_dir (fs w) dst
    then
      if path_eqb src dst then (Ok tt, w1)
      else
        let real_dst := (dst ++ [PyPath.path_name src])%list in
        if fs_exists (fs w) real_dst
        then fail FromFile (mkExn ShutilError
                              ("Destination path '" +:+ PyPath.abs_str real_dst
                               +:+ "' already exists")) w1
        else carry real_dst
    else carry dst.

(** *** The text calls *)

(** [re.sub(pattern, repl, content)]: a replacement without backslash
    is inserted as it is; any other is up to the host. *)
Definition re_sub (r : Re.regex) (repl content : string) : M string :=
  fun w =>
    if PyStr.contains (String PyPath.backslash EmptyString) repl
    then match re_template (host w) repl with
         | Ok f => (Ok (Re.sub_with r f content), w)
         | Raise e => fail FromText e w
         end
    else (Ok (Re.sub r repl content), w).

(** *** The engine *)

Record Engine := mkEngine {
  workspace_root : Path;
  dry_run : bool;
  _cli_path : option Path
}.

Definition _find_cli_path (root : Path) : M (option Path) :=
  let deployed_cli := (root ++ ["tools"; "Deploy"; "bin"; "migration-tool-cli"])%list in
  let cli_project := (root ++ ["tools"; "src"; "PythonTools"; "MigrationTool.Cli"])%list in
  let development :=
    found <- path_exists cli_project ;;
    ret (if found then Some cli_project else None) in
  deployed <- path_exists deployed_cli ;;
  if deployed then
    fun w =>
      let exe_name :=
        if os_is_nt (host w) then "migration-tool-cli.exe" else "migration-tool-cli" in
      let exe_path := (deployed_cli ++ [exe_name])%list in
      (exe_found <- path_exists exe_path ;;
       if exe_found then ret (Some exe_path) else development) w
  else development.

(** [MigrationEngine(workspace_root, dry_run)] *)
Definition new_engine (root : Path) (dry : bool) : M Engine :=
  cli <- _find_cli_path root ;;
  ret (mkEngine root dry cli).

Definition move_folder (self : Engine) (source target : Path) : M MigrationResult :=
  let source_abs := (workspace_root self ++ source)%list in
  let target_abs := (workspace_root self ++ target)%list in
  source_exists <- path_exists source_abs ;;
  if negb source_exists
  then ret (mkResult false ("Source folder does not exist: " +:+ PyPath.rel_str source) None)
  else
    target_exists <- path_exists target_abs ;;
    if target_exists
    then ret (mkResult false ("Target folder already exists: " +:+ PyPath.rel_str target) None)
    else if dry_run self
    then ret (mkResult true ("[DRY RUN] Would move: " +:+ PyPath.rel_str source
                             +:+ " -> " +:+ PyPath.rel_str target) None)
    else
      try_except
        (mkdir_parents (PyPath.parent target_abs) ;;;
         shutil_move source_abs target_abs ;;;
         ret (mkResult true ("Moved: " +:+ PyPath.rel_str source
                             +:+ " -> " +:+ PyPath.rel_str target) None))
        (fun e => ret (mkResult false ("Failed to move folder: " +:+ exn_text e) None)).

Definition move_file (self : Engine) (source target : Path) : M MigrationResult :=
  let source_abs := (workspace_root self ++ source)%list in
  let target_abs := (workspace_root self ++ target)%list in
  source_exists <- path_exists source_abs ;;
  if negb source_exists
  then ret (mkResult false ("Source file does not exist: " +:+ PyPath.rel_str source) None)
  else
    target_exists <- path_exists target_abs ;;
    if target_exists
    then ret (mkResult false ("Target file already exists: " +:+ PyPath.rel_str target) None)
    else if dry_run self
    then ret (mkResult true ("[DRY RUN] Would move: " +:+ PyPath.rel_str source
                             +:+ " -> " +:+ PyPath.rel_str target) None)
    else
      try_except
        (mkdir_parents (PyPath.parent target_abs) ;;;
         shutil_move source_abs target_abs ;;;
         ret (mkResult true ("Moved: " +:+ PyPath.rel_str source
                             +:+ " -> " +:+ PyPath.rel_str target) None))
        (fun e => ret (mkResult false ("Failed to move file: " +:+ exn_text e) None)).

Definition update_project_reference
    (self : Engine) (project_path : Path) (old_ref new_ref : string) : M MigrationResult :=
  let project_abs := (workspace_root self ++ project_path)%list in
  project_exists <- path_exists project_abs ;;
  if negb project_exists
  then ret (mkResult false ("Project file does not exist: " +:+ PyPath.rel_str project_path) None)
  else if dry_run self
  then ret (mkResult true ("[DRY RUN] Would update reference in "
                           +:+ PyPath.rel_str project_path) None)
  else
    try_except
      (content <- read_text project_abs ;;
       let updated := PyStr.replace old_ref new_ref content in
       if negb (String.eqb content updated)
       then
         write_text project_abs updated ;;;
         ret (mkResult true ("Updated reference in " +:+ PyPath.rel_str project_path) None)
       else ret (mkResult true ("No changes needed in " +:+ PyPath.rel_str project_path) None))
      (fun e => ret (mkResult false ("Failed to update reference: " +:+ exn_text e) None)).

Definition update_solution_project_path
    (self : Engine) (solution_path : Path) (old_path new_path : string) : M MigrationResult :=
  let solution_abs := (workspace_root self ++ solution_path)%list in
  let bsl := String PyPath.backslash EmptyString in
  solution_exists <- path_exists solution_abs ;;
  if negb solution_exists
  then ret (mkResult false ("Solution file does not exist: "
                            +:+ PyPath.rel_str solution_path) None)
  else if dry_run self
  then ret (mkResult true ("[DRY RUN] Would update solution "
                           +:+ PyPath.rel_str solution_path) None)
  else
    try_except
      (content <- read_text solution_abs ;;
       let old_normalized := PyStr.replace "/" bsl old_path in
       let new_normalized := PyStr.replace "/" bsl new_path in
       let updated := PyStr.replace old_normalized new_normalized content in
       let updated :=
         if String.eqb content updated
         then
           let old_forward := PyStr.replace bsl "/" old_path in
           let new_forward := PyStr.replace bsl "/" new_path in
           PyStr.replace old_forward new_forward content
         else updated in
       if negb (String.eqb content updated)
       then
         write_text solution_abs updated ;;;
         ret (mkResult true ("Updated project path in " +:+ PyPath.rel_str solution_path) None)
       else ret (mkResult true ("No changes needed in " +:+ PyPath.rel_str solution_path) None))
      (fun e => ret (mkResult false ("Failed to update solution: " +:+ exn_text e) None)).

(** [subprocess.run(cmd, capture_output=True, text=True, cwd=..)] *)
Definition subprocess_run (cmd : list string) : M Completed :=
  fun w =>
    let w1 := emit (Spawn cmd) w in
    match run_process (host w) cmd (fs w) with
    | (Ok c, f) => (Ok c, set_fs f w1)
    | (Raise e, f) => fail FromDelegate e (set_fs f w1)
    end.

Definition _call_cli (self : Engine) (args : list string) : M MigrationResult :=
  match _cli_path self with
  | None => ret (mkResult false ".NET CLI not found" None)
  | Some cli =>
      try_except
        (let sfx := PyPath.suffix cli in
         let cmd :=
           if String.eqb sfx ".exe" || String.eqb sfx EmptyString
           then (PyPath.abs_str cli :: args)
           else (["dotnet"; "run"; "--project"; PyPath.abs_str cli; "--"] ++ args)%list in
         result <- subprocess_run cmd ;;
         if (returncode result =? 0)%Z
         then
           fun w =>
             match json_loads (host w) (stdout result) with
             | None => (Ok (mkResult true "CLI command succeeded" (Some (stdout result))), w)
             | Some e =>
                 match exn_class e with
                 | JSONDecodeError => (Ok (mkResult true (stdout result) None), w)
                 | _ => fail FromDelegate e w
                 end
             end
         else ret (mkResult false ("CLI error: " +:+ stderr result) None))
        (fun e => ret (mkResult false ("Failed to call CLI: " +:+ exn_text e) None))
  end.

(** The two patterns of the fallback: [namespace\s+OLD] and
    [using\s+OLD], with [OLD] escaped. *)
Definition keyword_pattern (kw old_namespace : string) : Re.regex :=
  Re.seqs [Re.Lit kw; Re.Plus Re.ws; Re.Lit old_namespace].

(** A namespace name as the patterns expect it: it does not begin
    with white space (and is not empty). *)
Definition starts_with_name_char (s : string) : bool :=
  match s with
  | String c _ => negb (PyStr.isspace c)
  | EmptyString => false
  end.

(** What the two substitutions do, without the patterns.
    [blank_run s] is the number of white-space characters that [s]
    begins with.  A text begins with an occurrence when it begins
    with the keyword, at least one white-space character and, after
    all the white space, the old name; [occurrence_at] is the length
    of the occurrence.  Nothing is asked of what follows it. *)
Fixpoint blank_run (s : string) : nat :=
  match s with
  | String c s' => if PyStr.isspace c then S (blank_run s') else 0
  | EmptyString => 0
  end.

Definition occurrence_at (kw old_namespace s : string) : option nat :=
  let after_keyword := PyStr.drop (String.length kw) s in
  let blanks := blank_run after_keyword in
  if PyStr.startswith kw s && (0 <? blanks)%nat
     && PyStr.startswith old_namespace (PyStr.drop blanks after_keyword)
  then Some (String.length kw + blanks + String.length old_namespace)
  else None.

(** The text is read from the left; an occurrence is replaced by
    [repl] and passed over ([skip] counts its characters still to be
    passed), every other character is kept. *)
Fixpoint rewrite_occurrences (kw old_namespace repl : string) (skip : nat) (s : string)
  : string :=
  match s with
  | EmptyString => EmptyString
  | String c s' =>
      match skip with
      | S k => rewrite_occurrences kw old_namespace repl k s'
      | O =>
          match occurrence_at kw old_namespace s with
          | Some n => repl +:+ rewrite_occurrences kw old_namespace repl (n - 1) s'
          | None => String c (rewrite_occurrences kw old_namespace repl 0 s')
          end
      end
  end.

(** The text fallback of [rename_namespace], from the [try] on. *)
Definition rename_fallback
    (file_path file_abs : Path) (old_namespace new_namespace : string) : M MigrationResult :=
  try_except
    (content <- read_text file_abs ;;
     updated <- re_sub (keyword_pattern "namespace" old_namespace)
                       ("namespace " +:+ new_namespace) content ;;
     updated <- re_sub (keyword_pattern "using" old_namespace)
                       ("using " +:+ new_namespace) updated ;;
     if negb (String.eqb content updated)
     then
       write_text file_abs updated ;;;
       ret (mkResult true ("Renamed namespace in " +:+ PyPath.rel_str file_path) None)
     else ret (mkResult true ("No changes needed in " +:+ PyPath.rel_str file_path) None))
    (fun e => ret (mkResult false ("Failed to rename namespace: " +:+ exn_text e) None)).

Definition rename_namespace
    (self : Engine) (file_path : Path) (old_namespace new_namespace : string)
  : M MigrationResult :=
  let file_abs := (workspace_root self ++ file_path)%list in
  file_exists <- path_exists file_abs ;;
  if negb file_exists
  then ret (mkResult false ("File does not exist: " +:+ PyPath.rel_str file_path) None)
  else if dry_run self
  then ret (mkResult true ("[DRY RUN] Would rename namespace in "
                           +:+ PyPath.rel_str file_path) None)
  else
    match _cli_path self with
    | Some _ =>
        result <- _call_cli self ["update-namespace"; "--file"; PyPath.abs_str file_abs;
                                  "--old"; old_namespace; "--new"; new_namespace] ;;
        if success result then ret result
        else rename_fallback file_path file_abs old_namespace new_namespace
    | None => rename_fallback file_path file_abs old_namespace new_namespace
    end.

(** *** The operations as one family

    A call of one of the five operations, as a step of a plan names it. *)
Inductive Operation :=
| MoveFolder (source target : Path)
| MoveFile (source target : Path)
| UpdateProjectReference (project_path : Path) (old_ref new_ref : string)
| UpdateSolutionProjectPath (solution_path : Path) (old_path new_path : string)
| RenameNamespace (file_path : Path) (old_namespace new_namespace : string).

Definition perform (self : Engine) (op : Operation) : M MigrationResult :=
  match op with
  | MoveFolder s t => move_folder self s t
  | MoveFile s t => move_file self s t
  | UpdateProjectReference p o n => update_project_reference self p o n
  | UpdateSolutionProjectPath p o n => update_solution_project_path self p o n
  | RenameNamespace p o n => rename_namespace self p o n
  end.

(** The two moves as one, for statements about both. *)
Inductive MoveKind := Folder | RegularFile.

Definition move (kind : MoveKind) : Engine -> Path -> Path -> M MigrationResult :=
  match kind with
  | Folder => move_folder
  | RegularFile => move_file
  end.

Definition noun (kind : MoveKind) : string :=
  match kind with
  | Folder => "folder"
  | RegularFile => "file"
  end.

(** The precondition of an operation fails: the source is missing or
    the target is there (moves), the file is missing (the others). *)
Definition precondition_fails (root : Path) (op : Operation) (f : FS) : bool :=
  match op with
  | MoveFolder s t | MoveFile s t =>
      negb (fs_exists f (root ++ s)%list) || fs_exists f (root ++ t)%list
  | UpdateProjectReference p _ _ | UpdateSolutionProjectPath p _ _ | RenameNamespace p _ _ =>
      negb (fs_exists f (root ++ p)%list)
  end.

(** The events a run added to the log. *)
Definition events_since (w w' : World) : list Event := drop (length (log w)) (log w').

Definition is_write (ev : Event) : bool :=
  match ev with
  | Write _ _ | Mkdir _ | Move _ _ | Spawn _ => true
  | _ => false
  end.


(** The paths whose existence an operation checks before its [try]
    block, and whether the environment answers each of these checks. *)
Definition checked_paths (root : Path) (op : Operation) : list Path :=
  match op with
  | MoveFolder s t | MoveFile s t => [(root ++ s)%list; (root ++ t)%list]
  | UpdateProjectReference p _ _ | UpdateSolutionProjectPath p _ _ | RenameNamespace p _ _ =>
      [(root ++ p)%list]
  end.

Definition stat_answers (h : Host) (p : Path) : bool :=
  match fault h (OpStat p) with None => true | Some _ => false end.

Definition checks_answer (root : Path) (op : Operation) (h : Host) : bool :=
  forallb (stat_answers h) (checked_paths root op).

Definition answering (root : Path) (op : Operation) (h : Host) : Prop :=
  checks_answer root op h = true.

(** *** Three properties of computations

    [sound m]: a failure of a file or text operation that [m] logs is
    the exception [m] ends with.  [quiet ok m]: on a host that is
    [ok], [m] returns, keeps the host and logs no failure but those of
    the external tool.  [guarded ok m]: on a host that is [ok], [m]
    returns a result, and a logged failure of a file or text operation
    makes it a failed result that carries the text of the exception. *)

Definition sound {A : Type} (m : M A) : Prop :=
  forall w, exists evs,
    log (snd (m w)) = (log w ++ evs)%list
    /\ forall o e, In (Failed o e) evs -> o <> FromDelegate -> fst (m w) = Raise e.

Definition quiet {A : Type} (ok : Host -> Prop) (m : M A) : Prop :=
  forall w, ok (host w) -> exists a evs,
    fst (m w) = Ok a
    /\ host (snd (m w)) = host w
    /\ log (snd (m w)) = (log w ++ evs)%list
    /\ forall o e, In (Failed o e) evs -> o = FromDelegate.

Definition guarded (ok : Host -> Prop) (m : M MigrationResult) : Prop :=
  forall w, ok (host w) -> exists r evs,
    fst (m w) = Ok r
    /\ log (snd (m w)) = (log w ++ evs)%list
    /\ forall o e, In (Failed o e) evs -> o <> FromDelegate ->
         success r = false /\ exists prefix, message r = prefix +:+ exn_text e.

(** The checks that stand before the dry-run gate, in the order and
    with the short cut of the code. *)
Definition precondition_checks (root : Path) (op : Operation) (f : FS) : list Event :=
  match op with
  | MoveFolder s t | MoveFile s t =>
      Stat (root ++ s)%list
      :: (if fs_exists f (root ++ s)%list then [Stat (root ++ t)%list] else [])
  | UpdateProjectReference p _ _ | UpdateSolutionProjectPath p _ _ | RenameNamespace p _ _ =>
      [Stat (root ++ p)%list]
  end.

End MigrationEngine.

(** ** Sample inputs *)

Module Samples.

Definition q : string := String SolutionParser.dquote EmptyString.
Definition nl : string := String Re.newline EmptyString.

(** One [Project(..) = .., .., ..] entry of a solution file. *)
Definition project_entry (type_guid nm rel project_guid : string) : string :=
  "Project(" +:+ q +:+ "{" +:+ type_guid +:+ "}" +:+ q +:+ ") = "
  +:+ q +:+ nm +:+ q +:+ ", " +:+ q +:+ rel +:+ q +:+ ", "
  +:+ q +:+ "{" +:+ project_guid +:+ "}" +:+ q +:+ nl +:+ "EndProject" +:+ nl.

Definition bs : string := String PyPath.backslash EmptyString.

(** A solution with a project, a solution folder (type identifier in
    lower case) and a second project. *)
Definition app_sln : string :=
  "Microsoft Visual Studio Solution File, Format Version 12.00" +:+ nl
  +:+ project_entry "FAE04EC0-301F-11D3-BF4B-00C04F79EFBC" "App.Core"
        ("src" +:+ bs +:+ "App.Core" +:+ bs +:+ "App.Core.csproj")
        "11111111-1111-1111-1111-111111111111"
  +:+ project_entry "2150e333-8fdc-42a3-9474-1a3956d46de8" "tests" "tests"
        "22222222-2222-2222-2222-222222222222"
  +:+ project_entry "9A19103F-16F7-4668-BE54-9A1E7A4F7556" "App.Tests"
        ("tests" +:+ bs +:+ "App.Tests" +:+ bs +:+ "App.Tests.csproj")
        "33333333-3333-3333-3333-333333333333".

(** A workspace [/ws] holding that solution and its two projects. *)
Definition app_fs : FS := fun p =>
  if decide (p = ["ws"; "App.sln"]) then Some (File app_sln)
  else if decide (p = ["ws"; "src"; "App.Core"; "App.Core.csproj"]) then Some (File "<Project/>")
  else if decide (p = ["ws"; "tests"; "App.Tests"; "App.Tests.csproj"]) then Some (File "<Project/>")
  else if decide (p ∈ [ []; ["ws"]; ["ws"; "src"]; ["ws"; "src"; "App.Core"];
                        ["ws"; "tests"]; ["ws"; "tests"; "App.Tests"] ]) then Some Dir
  else None.

Definition no_fault : IoOp -> option Exn := fun _ => None.

(** A host without faults and without the [dotnet] tool. *)
Definition plain_host : MigrationEngine.Host :=
  MigrationEngine.mkHost no_fault
    (fun _ f => (Raise (mkExn FileNotFoundError "[Errno 2] No such file or directory: 'dotnet'"), f))
    (fun _ => Some (mkExn JSONDecodeError "Expecting value: line 1 column 1 (char 0)"))
    (fun _ => Raise (mkExn ReError "bad escape (end of pattern) at position 0"))
    false
    (fun _ _ f => f).

Definition app_world : MigrationEngine.World := MigrationEngine.mkWorld app_fs [] plain_host.

(** A name of 256 characters, which no file system takes, and an
    environment that refuses to look at a path with such a name. *)
Definition long_name : string := string_of_list_ascii (repeat "a"%char 256).

Definition name_limit_fault : IoOp -> option Exn := fun op =>
  match op with
  | OpStat p =>
      if existsb (fun x => (255 <? String.length x)%nat) p
      then Some (mkExn OSError
                   ("[Errno 36] File name too long: '" +:+ PyPath.abs_str p +:+ "'"))
      else None
  | _ => None
  end.

Definition strict_host : MigrationEngine.Host :=
  MigrationEngine.mkHost name_limit_fault
    (fun _ f => (Raise (mkExn FileNotFoundError "[Errno 2] No such file or directory: 'dotnet'"), f))
    (fun _ => Some (mkExn JSONDecodeError "Expecting value: line 1 column 1 (char 0)"))
    (fun _ => Raise (mkExn ReError "bad escape (end of pattern) at position 0"))
    false
    (fun _ _ f => f).

Definition strict_world : MigrationEngine.World := MigrationEngine.mkWorld app_fs [] strict_host.



(** A development checkout: the source of the external tool is there,
    [dotnet] is not installed. *)
Definition cli_project : Path := ["ws"; "tools"; "src"; "PythonTools"; "MigrationTool.Cli"].

Definition dev_fs : FS := fun p =>
  if decide (p = ["ws"; "A.cs"]) then Some (File "namespace Old;")
  else if decide (p ∈ [ []; ["ws"]; ["ws"; "tools"]; ["ws"; "tools"; "src"];
                        ["ws"; "tools"; "src"; "PythonTools"]; cli_project ])
  then Some Dir
  else None.

Definition dev_world : MigrationEngine.World := MigrationEngine.mkWorld dev_fs [] plain_host.

(** A source file in which the old namespace is the beginning of longer
    names. *)
Definition prefix_fs : FS := fun p =>
  if decide (p = ["ws"; "B.cs"])
  then Some (File ("using OldExtra;" +:+ nl +:+ "namespace OldExtra;"))
  else if decide (p ∈ [ []; ["ws"] ]) then Some Dir
  else None.

Definition prefix_world : MigrationEngine.World :=
  MigrationEngine.mkWorld prefix_fs [] plain_host.

(** Build-description trees. *)
Definition leaf (t : string) (x : string) : ET.Element := ET.mkElement t ∅ (Some x) [].

(** [<Project Sdk="Microsoft.NET.Sdk"><ItemGroup>
      <PackageReference Include="Newtonsoft.Json"><Version>13.0.1</Version></PackageReference>
    </ItemGroup></Project>] *)
Definition sdk_nested_version : ET.Element :=
  ET.mkElement "Project" {[ "Sdk" := "Microsoft.NET.Sdk" ]} None
    [ ET.mkElement "ItemGroup" ∅ None
        [ ET.mkElement "PackageReference" {[ "Include" := "Newtonsoft.Json" ]} None
            [ leaf "Version" "13.0.1" ] ] ].

(** [<Project Sdk="Microsoft.NET.Sdk"><PropertyGroup>
      <TargetFramework> net8.0 </TargetFramework><OutputType>Exe</OutputType>
      <RootNamespace></RootNamespace>
    </PropertyGroup></Project>] *)
Definition sdk_console_project : ET.Element :=
  ET.mkElement "Project" {[ "Sdk" := "Microsoft.NET.Sdk" ]} None
    [ ET.mkElement "PropertyGroup" ∅ None
        [ leaf "TargetFramework" " net8.0 "; leaf "OutputType" "Exe";
          ET.mkElement "RootNamespace" ∅ None [] ] ].


(** A project file [/ws/App/App.csproj] with the given text, and an XML
    parser that knows two texts: the SDK-style rendering of
    [sdk_console_project] and its legacy rendering. *)
Definition csproj_fs (text : string) : FS := fun p =>
  if decide (p = ["ws"; "App"; "App.csproj"]) then Some (File text)
  else if decide (p ∈ [ []; ["ws"]; ["ws"; "App"] ]) then Some Dir
  else None.

Definition csproj_xml (text : string) : ET.Element + string :=
  if String.eqb text "sdk" then inl sdk_console_project
  else if String.eqb text "legacy" then inl (ProjectParser.qualify sdk_console_project)
  else inr "syntax error: line 1, column 0".

End Samples.

(** ** More of the program: the rest of the cited modules and their
    callers *)

(** *** [models/solution.py] and [models/file_info.py]: the derived
    properties of the data classes *)

Module DataModel.

(** The local set of [Project.is_test_project]. *)
Definition test_packages : list string :=
  ["xunit"; "nunit"; "mstest"; "Microsoft.NET.Test.Sdk"].

(** [pkg.name.lower() in [t.lower() for t in test_packages]] *)
Definition names_test_package (pkg : PackageReference) : bool :=
  existsb (String.eqb (PyStr.lower (pkg_name pkg))) (map PyStr.lower test_packages).

Definition is_test_type (t : ProjectType) : bool :=
  match t with TEST => true | _ => false end.

(** [Project.is_test_project] *)
Definition is_test_project (p : Project) : bool :=
  if is_test_type (project_type p) then true
  else existsb names_test_package (package_references p).

(** [Project.file_count] *)
Definition file_count (p : Project) : nat := length (source_files p).

(** [Solution.project_count], [test_projects], [source_projects] *)
Definition project_count (s : Solution) : nat := length (projects s).

Definition test_projects (s : Solution) : list Project :=
  List.filter is_test_project (projects s).

Definition source_projects (s : Solution) : list Project :=
  List.filter (fun p => negb (is_test_project p)) (projects s).

Definition path_eq (p q : Path) : bool := bool_decide (p = q).

(** [Solution.get_project_by_name], [get_project_by_path] *)
Definition get_project_by_name (s : Solution) (n : string) : option Project :=
  List.find (fun p => String.eqb (name p) n) (projects s).

Definition get_project_by_path (s : Solution) (p : Path) : option Project :=
  List.find (fun pr => path_eq (path pr) p
                       || path_eq (PyPath.resolve (path pr)) (PyPath.resolve p))
            (projects s).

(** [TestInfo.full_name], [ClassInfo.full_name] *)
Definition test_full_name (t : TestInfo) : string := class_name t +:+ "." +:+ ti_name t.

Definition class_full_name (c : ClassInfo) : string :=
  match ci_namespace c with
  | Some (String a ns) => String a ns +:+ "." +:+ ci_name c
  | _ => ci_name c
  end.

(** [ClassInfo.test_count], [is_test_class] *)
Definition class_test_count (c : ClassInfo) : nat := length (tests c).
Definition is_test_class (c : ClassInfo) : bool := (0 <? length (tests c))%nat.

Record FileInfo := mkFileInfo {
  fi_path : Path;
  fi_namespace : option string;
  classes : list ClassInfo;
  using_directives : gset string;
  line_count : nat
}.

(** [FileInfo(path=p)]: the defaults of the data class. *)
Definition empty_file_info (p : Path) : FileInfo := mkFileInfo p None [] ∅ 0.

(** [FileInfo.class_count], [test_count], [is_test_file] *)
Definition class_count (f : FileInfo) : nat := length (classes f).

Definition test_count (f : FileInfo) : nat :=
  fold_right Nat.add 0 (map class_test_count (classes f)).

Definition is_test_file (f : FileInfo) : bool := (0 <? test_count f)%nat.

(** [FileInfo.primary_class]: the first public class, else the first
    class. *)
Definition primary_class (f : FileInfo) : option ClassInfo :=
  match List.filter is_public (classes f) with
  | c :: _ => Some c
  | [] => head (classes f)
  end.

(** [FileInfo.get_class_by_name] *)
Definition get_class_by_name (f : FileInfo) (n : string) : option ClassInfo :=
  List.find (fun c => String.eqb (ci_name c) n) (classes f).

End DataModel.

(** *** [core/project_parser.py]: [enrich_project] *)

Module ProjectEnrich.

(** The project object is changed in place and returned; here the
    changed project is the value. *)
Definition enrich_project (fs : FS) (fault : IoOp -> option Exn)
    (xml : string -> ET.Element + string) (project : Project) : Result Project :=
  match fs_stat fs fault (path project) with
  | Raise e => Raise e
  | Ok false => Ok project
  | Ok true =>
      match ProjectParser.parse fs fault xml (path project) with
      | Raise e => Raise e
      | Ok parsed =>
          Ok (mkProject (name project) (path project) (guid project)
                (target_framework parsed) (project_type parsed)
                (project_references parsed) (package_references parsed)
                (source_files project)
                (root_namespace parsed) (output_type parsed))
      end
  end.

End ProjectEnrich.

(** *** [core/file_scanner.py]: namespaces, using directives and
    [scan_file]; [utils/file_utils.py]: [read_file_content] *)

Module FileScan.
Import Re FileScanner DataModel.

(** [[\w.]] *)
Definition name_char (c : ascii) : bool := PyStr.isword c || Ascii.eqb c PyPath.dot.

(** [^\s*namespace\s+([\w.]+)\s*[;{]] with [re.MULTILINE] *)
Definition NAMESPACE_PATTERN : regex :=
  seqs [ Bol; Star ws; Lit "namespace"; Plus ws; Grp 1 (Plus (Chr name_char)); Star ws;
         Chr (fun c => Ascii.eqb c (ch ";") || Ascii.eqb c (ch "{")) ].

(** [^\s*namespace\s+([\w.]+)\s*;] with [re.MULTILINE] *)
Definition FILE_SCOPED_NS_PATTERN : regex :=
  seqs [ Bol; Star ws; Lit "namespace"; Plus ws; Grp 1 (Plus (Chr name_char)); Star ws;
         Lit ";" ].

(** [^\s*using\s+(?:static\s+)?([\w.]+)\s*;] with [re.MULTILINE] *)
Definition USING_PATTERN : regex :=
  seqs [ Bol; Star ws; Lit "using"; Plus ws; Opt (Seq (Lit "static") (Plus ws));
         Grp 1 (Plus (Chr name_char)); Star ws; Lit ";" ].

Definition _extract_namespace (content : string) : option string :=
  match search FILE_SCOPED_NS_PATTERN content with
  | Some m => group m 1
  | None =>
      match search NAMESPACE_PATTERN content with
      | Some m => group m 1
      | None => None
      end
  end.

Definition _extract_usings (content : string) : gset string :=
  list_to_set (map (fun m => group_or_empty m 1) (finditer USING_PATTERN content)).

(** [read_file_content(path)]: the text, or [None] after any error. A
    decoding error is followed by a second attempt. *)
Definition read_file_content (fs : FS) (fault : IoOp -> option Exn) (p : Path)
  : option string :=
  match fs_read fs fault p with
  | Ok content => Some content
  | Raise e =>
      match exn_class e with
      | UnicodeDecodeError =>
          match fs_read fs fault p with
          | Ok content => Some content
          | Raise _ => None
          end
      | _ => None
      end
  end.

Definition scan_file (fs : FS) (fault : IoOp -> option Exn) (file_path : Path)
  : Result FileInfo :=
  match read_file_content fs fault file_path with
  | None => Ok (empty_file_info file_path)
  | Some content =>
      let line_count := PyStr.count_char newline content + 1 in
      let namespace := _extract_namespace content in
      let usings := _extract_usings content in
      match _extract_classes content namespace with
      | Raise e => Raise e
      | Ok classes => Ok (mkFileInfo file_path namespace classes usings line_count)
      end
  end.

End FileScan.

(** *** [utils/file_utils.py]: the calls that change files *)

Module FileUtils.
Import MigrationEngine.

(** [ensure_directory(path)] *)
Definition ensure_directory (p : Path) : M Path :=
  mkdir_parents p ;;; ret p.

(** [write_file_content(path, content)] *)
Definition write_file_content (p : Path) (content : string) : M bool :=
  try_except
    (ensure_directory (PyPath.parent p) ;;;
     write_text p content ;;;
     ret true)
    (fun _ => ret false).

(** [move_file(source, target, overwrite)] *)
Definition move_file (source target : Path) (overwrite : bool) : M bool :=
  source_exists <- path_exists source ;;
  if negb source_exists then ret false
  else
    target_exists <- path_exists target ;;
    if target_exists && negb overwrite then ret false
    else
      try_except
        (ensure_directory (PyPath.parent target) ;;;
         shutil_move source target ;;;
         ret true)
        (fun _ => ret false).

(** [path.relative_to(base)] *)
Definition relative_to (p base : Path) : Result Path :=
  if is_prefix base p then Ok (drop (length base) p)
  else Raise (mkExn ValueError
                ("'" +:+ PyPath.abs_str p +:+ "' is not in the subpath of '"
                 +:+ PyPath.abs_str base
                 +:+ "' OR one path is relative and the other is absolute.")).

(** [get_relative_path(path, base)] *)
Definition get_relative_path (p base : Path) : Path :=
  match relative_to p base with
  | Ok rel => rel
  | Raise _ => p
  end.

End FileUtils.

(** *** [core/migration_engine.py] and [migrate_tests.py]: the searches
    of the workspace

    [Path.rglob] walks the directory tree; the paths it yields are an
    argument of the searches here, in the order it yields them. *)

Module WorkspaceSearch.
Import MigrationEngine FileUtils.

(** A call that only computes: its exception leaves no trace in the
    log. *)
Definition lift {A : Type} (r : Result A) : M A := fun w => (r, w).

(** The body of the loop of both searches for one project file:
    [None] stands for a file that is passed over. *)
Definition visit (root : Path) (wanted : string -> bool) (csproj : Path) : M (option Path) :=
  try_except
    (content <- read_text csproj ;;
     if wanted content
     then rel <- lift (relative_to csproj root) ;; ret (Some rel)
     else ret None)
    (fun _ => ret None).

Fixpoint visit_all (root : Path) (wanted : string -> bool) (found : list Path)
  : M (list Path) :=
  match found with
  | [] => ret []
  | csproj :: rest =>
      hit <- visit root wanted csproj ;;
      hits <- visit_all root wanted rest ;;
      ret (match hit with Some rel => rel :: hits | None => hits end)
  end.

(** What a visit reports, read off the files: the relative path of a
    readable file whose text is wanted. *)
Definition reported (f : FS) (fault : IoOp -> option Exn) (root : Path)
    (wanted : string -> bool) (csproj : Path) : option Path :=
  match fs_read f fault csproj with
  | Ok content =>
      if wanted content
      then match relative_to csproj root with Ok rel => Some rel | Raise _ => None end
      else None
  | Raise _ => None
  end.

(** [MigrationEngine.find_affected_projects] *)
Definition find_affected_projects
    (self : Engine) (moved_project_path : Path) (rglob_csproj : list Path) : M (list Path) :=
  let project_name := PyPath.stem moved_project_path in
  visit_all (workspace_root self) (PyStr.contains project_name) rglob_csproj.

(** [MigrationEngine.find_solution_files] *)
Fixpoint relative_all (root : Path) (found : list Path) : M (list Path) :=
  match found with
  | [] => ret []
  | sln :: rest =>
      rel <- lift (relative_to sln root) ;;
      rels <- relative_all root rest ;;
      ret (rel :: rels)
  end.

Definition find_solution_files (self : Engine) (rglob_sln : list Path) : M (list Path) :=
  relative_all (workspace_root self) rglob_sln.

(** [calculate_reference_updates] of [migrate_tests.py]; [new_path] is
    not used. *)
Definition calculate_reference_updates
    (workspace : Path) (old_path new_path : string) (rglob_csproj : list Path)
  : M (list Path) :=
  let project_name := PyPath.path_name (PyPath.segments old_path) in
  visit_all workspace
    (fun content => PyStr.contains project_name content
                    && PyStr.contains (project_name +:+ ".csproj") content)
    rglob_csproj.

End WorkspaceSearch.

(** *** [ui/migration_planner.py]: the plan and its execution *)

Module Planner.
Import MigrationEngine.

Inductive MigrationAction :=
| MOVE_FILE | MOVE_FOLDER | CREATE_PROJECT | DELETE_PROJECT
| RENAME_NAMESPACE | ADD_REFERENCE | REMOVE_REFERENCE.

Inductive StepStatus := PENDING | IN_PROGRESS | COMPLETED | FAILED | SKIPPED.

Record MigrationStep := mkStep {
  step_id : nat;
  action : MigrationAction;
  source : string;
  target : string;
  status : StepStatus;
  error : option string;
  metadata : gmap string string
}.

Definition with_status (s : StepStatus) (step : MigrationStep) : MigrationStep :=
  mkStep (step_id step) (action step) (source step) (target step) s (error step)
         (metadata step).

Definition with_error (e : string) (step : MigrationStep) : MigrationStep :=
  mkStep (step_id step) (action step) (source step) (target step) (status step) (Some e)
         (metadata step).

(** [_add_migration_step(action, source, target, metadata)], on the plan
    of the session. *)
Definition _add_migration_step
    (plan : list MigrationStep) (a : MigrationAction) (src tgt : string)
    (md : option (gmap string string)) : list MigrationStep :=
  (plan ++ [mkStep (length plan + 1) a src tgt PENDING None (default ∅ md)])%list.

(** The remove button of a rendered step: [plan.pop(index)] for the
    index of a step of the plan. *)
Definition remove_step (plan : list MigrationStep) (index : nat) : list MigrationStep :=
  delete index plan.

Section Execute.

(** [_execute_step(step)]: it returns, or raises. *)
Variable _execute_step : MigrationStep -> M unit.

(** The loop of [_execute_migration_plan]: the steps as the loop leaves
    them, and [completed]. *)
Fixpoint run_steps (plan : list MigrationStep) (completed : nat)
  : M (list MigrationStep * nat) :=
  match plan with
  | [] => ret ([], completed)
  | step :: rest =>
      let step := with_status IN_PROGRESS step in
      outcome <- try_except (_execute_step step ;;; ret None) (fun e => ret (Some e)) ;;
      match outcome with
      | None =>
          r <- run_steps rest (completed + 1) ;;
          ret (with_status COMPLETED step :: fst r, snd r)
      | Some e =>
          ret (with_error (exn_text e) (with_status FAILED step) :: rest, completed)
      end
  end.

(** [_execute_migration_plan()]: the plan of the session afterwards,
    and whether the success notice is shown. *)
Definition _execute_migration_plan (plan : list MigrationStep)
  : M (list MigrationStep * bool) :=
  match plan with
  | [] => ret (plan, false)
  | _ =>
      r <- run_steps plan 0 ;;
      ret (fst r, (snd r =? length plan)%nat)
  end.

End Execute.

(** [runs_all exec steps w w']: from [w], each of the steps is
    executed in turn, with the status IN_PROGRESS, and returns; [w']
    is the world after the last of them. *)
Inductive runs_all (exec : MigrationStep -> M unit)
  : list MigrationStep -> World -> World -> Prop :=
| runs_none (w : World) : runs_all exec [] w w
| runs_next (step : MigrationStep) (steps : list MigrationStep) (w w1 w' : World) :
    exec (with_status IN_PROGRESS step) w = (Ok tt, w1) ->
    runs_all exec steps w1 w' ->
    runs_all exec (step :: steps) w w'.

End Planner.

(** *** [core/file_scanner.py]: the inheritance clause, part by part *)

Module Inheritance.
Import Re FileScanner.

(** The parts of the clause: [[p.strip() for p in inheritance.split(',')]],
    and none for a clause that is absent or empty. *)
Definition inheritance_parts (inheritance : option string) : list string :=
  match inheritance with
  | Some (String c i) => map PyStr.strip (PyStr.split (ch ",") (String c i))
  | _ => []
  end.

(** The test that makes a part an interface:
    [simple_name.startswith('I') and simple_name[1:2].isupper()]. *)
Definition names_interface (part : string) : bool :=
  let simple_name := PyStr.strip (sub GENERIC_ARGS EmptyString part) in
  PyStr.startswith "I" simple_name && PyStr.isupper (PyStr.take 1 (PyStr.drop 1 simple_name)).

End Inheritance.

(** *** Where a match can begin and end *)

Module ReShapes.
Import Re.

(** [t] is what is left of [s] after some of its beginning. *)
Definition suffix_of (t s : string) : Prop := exists pre, s = pre +:+ t.

(** A matcher hands on a position further on in the text it was given. *)
Definition advances (m : Matcher) : Prop :=
  forall st cs k res, m st cs k = Some res ->
    exists st' cs', k st' cs' = Some res /\ suffix_of (rest st') (rest st).

(** A continuation that never fails. *)
Definition total (k : Cont) : Prop := forall st cs, is_Some (k st cs).

End ReShapes.

(** *** What an operation can touch

    [confined keep allowed m]: a run of [m] leaves the host as it is,
    leaves every path that [keep] holds of as it is, and adds to the
    log only events that [allowed] holds of. *)

Module Confinement.
Import MigrationEngine.

Definition confined {A : Type} (keep : Path -> bool) (allowed : Event -> bool) (m : M A)
  : Prop :=
  forall w,
    host (snd (m w)) = host w
    /\ (forall q, keep q = true -> fs (snd (m w)) q = fs w q)
    /\ exists evs, log (snd (m w)) = (log w ++ evs)%list /\ forallb allowed evs = true.

(** Every path but [p]. *)
Definition other_than (p q : Path) : bool := negb (path_eqb q p).

(** The events of a text operation on the file [p]: checks, reads and
    writes of [p], and failures of the engine's own calls. *)
Definition on_file (p : Path) (ev : Event) : bool :=
  match ev with
  | Stat q | Read q | Write q _ => path_eqb q p
  | Failed FromFile _ | Failed FromText _ => true
  | _ => false
  end.

(** Every path that lies neither under [src] nor under [dst] and is
    not on the way to [dst]. *)
Definition apart_from (src dst q : Path) : bool :=
  negb (is_prefix src q) && negb (is_prefix dst q) && negb (is_prefix q dst).

(** The events of a move from [src] to [dst]. *)
Definition on_move (src dst : Path) (ev : Event) : bool :=
  match ev with
  | Stat q => path_eqb q src || path_eqb q dst
  | Mkdir q => path_eqb q (PyPath.parent dst)
  | Move a b => path_eqb a src && path_eqb b dst
  | Failed FromFile _ => true
  | _ => false
  end.


(** The file that a text operation names. *)
Definition edited_file (op : Operation) : option Path :=
  match op with
  | UpdateProjectReference p _ _ | UpdateSolutionProjectPath p _ _ | RenameNamespace p _ _ =>
      Some p
  | MoveFolder _ _ | MoveFile _ _ => None
  end.

(** The one case in which the engine turns to the external tool: a
    namespace rename of a live engine that found the tool. *)
Definition may_run_tool (self : Engine) (op : Operation) : bool :=
  match op, _cli_path self with
  | RenameNamespace _ _ _, Some _ => negb (dry_run self)
  | _, _ => false
  end.

End Confinement.

(** ** More sample inputs *)

Module MoreSamples.
Import Samples.

(** What the parser makes of [sdk_console_project] at
    [/ws/App/App.csproj]. *)
Definition parsed_console : Project :=
  mkProject "App" ["ws"; "App"; "App.csproj"] None (Some "net8.0") CONSOLE [] [] []
            (Some "App") (Some "Exe").

(** [<Project Sdk="Microsoft.NET.Sdk"><ItemGroup>
      <ProjectReference Include="..\Lib\Lib.csproj" />
      <ProjectReference Include="..\Gone\Gone.csproj" />
      <PackageReference Include="MSTest" Version="3.0" />
      <PackageReference Version="1.0" />
    </ItemGroup></Project>] *)
Definition sdk_with_references : ET.Element :=
  ET.mkElement "Project" {[ "Sdk" := "Microsoft.NET.Sdk" ]} None
    [ ET.mkElement "ItemGroup" ∅ None
        [ ET.mkElement "ProjectReference"
            {[ "Include" := ".." +:+ bs +:+ "Lib" +:+ bs +:+ "Lib.csproj" ]} None [];
          ET.mkElement "ProjectReference"
            {[ "Include" := ".." +:+ bs +:+ "Gone" +:+ bs +:+ "Gone.csproj" ]} None [];
          ET.mkElement "PackageReference"
            (<[ "Include" := "MSTest" ]> {[ "Version" := "3.0" ]}) None [];
          ET.mkElement "PackageReference" {[ "Version" := "1.0" ]} None [] ] ].

Definition references_fs : FS := fun p =>
  if decide (p = ["ws"; "App"; "App.csproj"]) then Some (File "refs")
  else if decide (p = ["ws"; "Lib"; "Lib.csproj"]) then Some (File "<Project/>")
  else if decide (p ∈ [ []; ["ws"]; ["ws"; "App"]; ["ws"; "Lib"] ]) then Some Dir
  else None.

Definition references_xml (text : string) : ET.Element + string :=
  if String.eqb text "refs" then inl sdk_with_references
  else inr "syntax error: line 1, column 0".

Definition parsed_with_references : Project :=
  mkProject "App" ["ws"; "App"; "App.csproj"] None None UNKNOWN
            [mkProjectReference "Lib" ["ws"; "Lib"; "Lib.csproj"]]
            [mkPackageReference "MSTest" (Some "3.0")] []
            (Some "App") None.

Definition reference_world : MigrationEngine.World :=
  MigrationEngine.mkWorld
    (fun p => if decide (p = ["ws"; "App"; "App.csproj"])
              then Some (File ("<ProjectReference Include=" +:+ q +:+ ".." +:+ bs +:+ "Lib"
                               +:+ bs +:+ "Lib.csproj" +:+ q +:+ " />"))
              else references_fs p)
    [] plain_host.

(** The project at [/ws/App/App.csproj] as a solution lists it, with
    the files a scan found, and what [enrich_project] makes of it. *)
Definition listed_core : Project :=
  mkProject "Core" ["ws"; "App"; "App.csproj"] (Some "11111111-1111-1111-1111-111111111111")
            None UNKNOWN [] [] [["ws"; "App"; "Program.cs"]] None None.

Definition enriched_core : Project :=
  mkProject "Core" ["ws"; "App"; "App.csproj"] (Some "11111111-1111-1111-1111-111111111111")
            (Some "net8.0") CONSOLE [] [] [["ws"; "App"; "Program.cs"]]
            (Some "App") (Some "Exe").

(** What the solution parser makes of [app_sln] in [app_fs]. *)
Definition parsed_app : Solution :=
  mkSolution "App" ["ws"; "App.sln"]
    [ SolutionParser.new_project "App.Core" ["ws"; "src"; "App.Core"; "App.Core.csproj"]
        "11111111-1111-1111-1111-111111111111";
      SolutionParser.new_project "App.Tests" ["ws"; "tests"; "App.Tests"; "App.Tests.csproj"]
        "33333333-3333-3333-3333-333333333333" ].

(** A plan of two steps, as two uses of the add button make it. *)
Definition two_steps : list Planner.MigrationStep :=
  Planner._add_migration_step
    (Planner._add_migration_step [] Planner.MOVE_FOLDER "src/App.Core" "lib/App.Core" None)
    Planner.MOVE_FILE "src/Program.cs" "lib/Program.cs" None.

(** An environment that fails every [shutil.move] on its way, after
    the copy and before the source is deleted. *)
Definition interrupted_host : MigrationEngine.Host :=
  MigrationEngine.mkHost
    (fun op =>
       match op with
       | OpMove _ _ => Some (mkExn PermissionError "[Errno 13] Permission denied: '/ws/src'")
       | _ => None
       end)
    (fun _ f => (Raise (mkExn FileNotFoundError "[Errno 2] No such file or directory: 'dotnet'"), f))
    (fun _ => Some (mkExn JSONDecodeError "Expecting value: line 1 column 1 (char 0)"))
    (fun _ => Raise (mkExn ReError "bad escape (end of pattern) at position 0"))
    false
    (fun src dst f q =>
       if MigrationEngine.is_prefix dst q then f (src ++ drop (length dst) q)%list else f q).

(** The project file of [references_fs] with the line ends of Windows. *)
Definition crlf_fs : FS := fun p =>
  if decide (p = ["ws"; "App"; "App.csproj"])
  then Some (File ("<ProjectReference Include=" +:+ q +:+ "..\Lib\Lib.csproj" +:+ q +:+ " />"
                   +:+ String PyStr.cr (String PyStr.lf EmptyString)))
  else references_fs p.

Definition crlf_world : MigrationEngine.World :=
  MigrationEngine.mkWorld crlf_fs [] plain_host.

Definition interrupted_world : MigrationEngine.World :=
  MigrationEngine.mkWorld app_fs [] interrupted_host.

End MoreSamples.

(* ================================================================== *)
(** * Part II: properties *)
(* ================================================================== *)

Module TextProps.
Import Re.

Lemma append_cons (c : ascii) (s x : string) : String c s +:+ x = String c (s +:+ x).
Proof. reflexivity. Qed.

Lemma append_nil (x : string) : EmptyString +:+ x = x.
Proof. reflexivity. Qed.

Lemma append_assoc (a b c : string) : (a +:+ b) +:+ c = a +:+ (b +:+ c).
Proof.
  induction a as [|x a IH]; [reflexivity|]. rewrite !append_cons, IH. reflexivity.
Qed.

Lemma length_append (a b : string) : String.length (a +:+ b) = String.length a + String.length b.
Proof.
  induction a as [|x a IH]; [reflexivity|]. rewrite append_cons. cbn [String.length].
  rewrite IH. reflexivity.
Qed.

Lemma take_append (a b : string) : PyStr.take (String.length a) (a +:+ b) = a.
Proof.
  induction a as [|x a IH]; [destruct b; reflexivity|].
  rewrite append_cons. cbn [String.length PyStr.take]. rewrite IH. reflexivity.
Qed.

Lemma consumed_append (b b' : bool) (a x : string) :
  consumed (mkPos b (a +:+ x)) (mkPos b' x) = a.
Proof.
  unfold consumed. cbn [rest]. rewrite length_append.
  replace (String.length a + String.length x - String.length x) with (String.length a) by lia.
  apply take_append.
Qed.


Lemma startswith_append (s t : string) : PyStr.startswith s (s +:+ t) = true.
Proof.
  induction s as [|c s IH]; simpl; [reflexivity|].
  rewrite Ascii.eqb_refl. exact IH.
Qed.

Lemma take_drop (i : nat) (s : string) : PyStr.take i s +:+ PyStr.drop i s = s.
Proof.
  revert i. induction s as [|c s IH]; intros [|i]; cbn [PyStr.take PyStr.drop];
    try reflexivity.
  rewrite append_cons, IH. reflexivity.
Qed.

Lemma startswith_split (b c : string) :
  PyStr.startswith b c = true -> exists post, c = b +:+ post.
Proof.
  revert c. induction b as [|x b IH]; intros c H; [exists c; reflexivity|].
  destruct c as [|y c]; cbn [PyStr.startswith] in H; [discriminate|].
  destruct (Ascii.eqb x y) eqn:E; [|discriminate]. apply Ascii.eqb_eq in E. subst y.
  apply IH in H as [post ->]. exists post. reflexivity.
Qed.

Lemma rmatch_Lit (s x : string) (b : bool) (cs : Caps) (k : Cont) :
  rmatch (Lit s) (mkPos b (s +:+ x)) cs k = k (mkPos (bol_after b s) x) cs.
Proof.
  revert b. induction s as [|c s IH]; intros b; cbn [Lit rmatch bol_after].
  - reflexivity.
  - cbn [rest]. rewrite append_cons. unfold is_char. rewrite Ascii.eqb_refl.
    unfold advance. apply IH.
Qed.

Lemma rmatch_Lit_inv (s : string) (st : Pos) (cs : Caps) (k : Cont) (res : Res) :
  rmatch (Lit s) st cs k = Some res ->
  exists x b, rest st = s +:+ x /\ k (mkPos b x) cs = Some res.
Proof.
  revert st. induction s as [|c s IH]; intros st H; cbn [Lit rmatch] in H.
  - exists (rest st), (at_bol st). split; [reflexivity|]. destruct st; exact H.
  - destruct (rest st) as [|d s'] eqn:E; [discriminate|].
    unfold is_char in H. destruct (Ascii.eqb c d) eqn:Ecd; [|discriminate].
    apply Ascii.eqb_eq in Ecd. subst d.
    apply IH in H as (x & b & Hrest & H). cbn [advance rest] in Hrest. subst s'.
    exists x, b. split; [reflexivity | exact H].
Qed.

Lemma rmatch_Alt_inv (a b : regex) (st : Pos) (cs : Caps) (k : Cont) (res : Res) :
  rmatch (Alt a b) st cs k = Some res ->
  rmatch a st cs k = Some res \/ rmatch b st cs k = Some res.
Proof.
  cbn [rmatch]. destruct (rmatch a st cs k) as [r|]; [intros [= ->]; left; reflexivity | auto].
Qed.

Lemma star_loop_keeps (i : nat) (m : Matcher) (fuel : nat) :
  keeps i m -> keeps i (star_loop m fuel).
Proof.
  intros Hm. induction fuel as [|fuel IH]; intros st cs k res H; cbn [star_loop] in H.
  - eauto.
  - match type of H with
    | match ?x with _ => _ end = _ => destruct x as [r|] eqn:E
    end.
    + injection H as ->. apply Hm in E as (st1 & cs1 & E & Hcs).
      destruct (String.length (rest st1) <? String.length (rest st))%nat; [|discriminate].
      apply IH in E as (st2 & cs2 & E & Hcs2). exists st2, cs2. split; [exact E | congruence].
    + eauto.
Qed.

Lemma rmatch_keeps (i : nat) (r : regex) : no_group i r = true -> keeps i (rmatch r).
Proof.
  induction r as [| p | | a IHa b IHb | a IHa b IHb | a IHa | j a IHa];
    cbn [no_group rmatch]; intros Hn st cs k res H.
  - eauto.
  - destruct (rest st) as [|c s']; [discriminate|]. destruct (p c); [eauto | discriminate].
  - destruct (at_bol st); [eauto | discriminate].
  - apply andb_prop in Hn as [Ha Hb].
    apply (IHa Ha) in H as (st1 & cs1 & H & Hcs1).
    apply (IHb Hb) in H as (st2 & cs2 & H & Hcs2). exists st2, cs2. split; [exact H | congruence].
  - apply andb_prop in Hn as [Ha Hb].
    destruct (rmatch a st cs k) as [r|] eqn:E.
    + injection H as ->. apply (IHa Ha) in E. exact E.
    + apply (IHb Hb) in H. exact H.
  - apply (star_loop_keeps i _ _ (IHa Hn)) in H. exact H.
  - apply andb_prop in Hn as [Hj Ha]. apply negb_true_iff in Hj.
    apply (IHa Ha) in H as (st1 & cs1 & H & Hcs1).
    eexists _, _. split; [exact H|]. cbn [lookup_group]. rewrite Hj. exact Hcs1.
Qed.

Lemma finditer_from_matches (r : regex) (s : string) (bol : bool) (idx skip : nat) :
  Forall (fun m => exists b i s', match_at r b i s' = Some m) (finditer_from r bol idx skip s).
Proof.
  revert bol idx skip. induction s as [|c s IH]; intros bol idx skip; cbn [finditer_from].
  - destruct skip; [|constructor].
    destruct (match_at r bol idx EmptyString) as [m|] eqn:E; constructor; eauto.
  - destruct skip; [|apply IH].
    destruct (match_at r bol idx (String c s)) as [m|] eqn:E; [constructor; eauto|apply IH].
Qed.

Lemma sub_from_skip (r : regex) (repl : string -> string) (x tail : string) (b : bool) :
  sub_from r repl b (String.length x) (x +:+ tail) = sub_from r repl (bol_after b x) 0 tail.
Proof.
  revert b. induction x as [|c x IH]; intros b; cbn [String.length bol_after].
  - reflexivity.
  - rewrite append_cons. cbn [sub_from]. apply IH.
Qed.

End TextProps.

Module ProjectParserProps.
Import ET ProjectParser TextProps Samples.

Example classify_exe : _determine_project_type (Some "Exe") [] = CONSOLE.
Proof. reflexivity. Qed.

Example classify_winexe : _determine_project_type (Some "WinExe") [] = WPF.
Proof. reflexivity. Qed.

Example classify_library : _determine_project_type (Some "Library") [] = CLASS_LIBRARY.
Proof. reflexivity. Qed.

Example classify_xunit_exe :
  _determine_project_type (Some "Exe") [mkPackageReference "XUnit" (Some "2.9.2")] = TEST.
Proof. reflexivity. Qed.

Lemma test_packages_xunit : "xunit" ∈ TEST_PACKAGES.
Proof. unfold TEST_PACKAGES. set_solver. Qed.

(** C6.  Whatever the output kind, a package list that holds a package
    whose name lower-cases to [xunit] is classified [TEST]: the
    test-package rule is tried before every output-kind rule. *)
Theorem xunit_package_overrides_output_kind
    (output_type : option string) (packages : list PackageReference)
    (p : PackageReference) :
  In p packages ->
  PyStr.lower (pkg_name p) = "xunit" ->
  _determine_project_type output_type packages = TEST.
Proof.
  intros Hin Hlow. unfold _determine_project_type.
  case_decide as Hne; [reflexivity|].
  exfalso.
  assert (Hx : "xunit" ∈
    (list_to_set (map (fun q => PyStr.lower (pkg_name q)) packages) : gset string)).
  { apply elem_of_list_to_set, list_elem_of_In.
    rewrite <- Hlow. apply (in_map (fun q => PyStr.lower (pkg_name q))), Hin. }
  pose proof test_packages_xunit as Ht.
  assert (Hboth : "xunit" ∈
    (list_to_set (map (fun q => PyStr.lower (pkg_name q)) packages) : gset string)
    ∩ TEST_PACKAGES) by (apply elem_of_intersection; split; assumption).
  rewrite Hne in Hboth. exact (not_elem_of_empty _ Hboth).
Qed.

Lemma xunit_package_overrides_output_kind_witness :
  _determine_project_type (Some "WinExe")
    [mkPackageReference "Serilog" None; mkPackageReference "xUnit" (Some "2.9.2")] = TEST.
Proof.
  apply (xunit_package_overrides_output_kind _ _ (mkPackageReference "xUnit" (Some "2.9.2"))).
  - simpl. right. left. reflexivity.
  - reflexivity.
Defined.

(** *** Package references with a nested version element *)

(** C3, on the code.  The version child is found, but an element
    without children of its own is falsy, so [find(..) or find(..)]
    discards it and goes on to the namespace-qualified name; the
    package is returned without a version. *)
Theorem nested_version_sdk_style_is_lost :
  _parse_package_references sdk_nested_version
    = [mkPackageReference "Newtonsoft.Json" None].
Proof. vm_compute. reflexivity. Qed.

(** The sibling path: with namespace-qualified names the first [find]
    returns [None] and the second operand of [or] is taken as it is. *)
Example nested_version_legacy_is_read :
  _parse_package_references (qualify sdk_nested_version)
    = [mkPackageReference "Newtonsoft.Json" (Some "13.0.1")].
Proof. vm_compute. reflexivity. Qed.

(** The general shape of the failure: any package element without a
    [Version] attribute whose first [Version] child is a leaf and that
    has no qualified [Version] child loses its version. *)
Lemma package_of_element_leaf_version (elem : Element) (n : string) (ve : Element) :
  get elem "Include" = Some n -> n <> "" ->
  get elem "Version" = None ->
  find elem "Version" = Some ve -> children ve = [] ->
  find elem (MSBUILD_NS +:+ "Version") = None ->
  package_of_element elem = Some (mkPackageReference n None).
Proof.
  intros Hn Hne Hv Hf Hleaf Hq. unfold package_of_element.
  rewrite Hn, Hv, Hf, Hq. unfold elem_or, elem_truthy. rewrite Hleaf.
  destruct n; [contradiction|reflexivity].
Qed.

(** *** The two dialects *)














Example sdk_console_target_framework :
  _get_property sdk_console_project "TargetFramework" = Some "net8.0".
Proof. vm_compute. reflexivity. Qed.






(** The trimmed values of the sample: the framework without its
    blanks, the name of the file for the empty root namespace. *)
Example sdk_console_trimmed_values :
  PyStr.py_or (trimmed_property sdk_console_project "TargetFramework")
              (trimmed_property sdk_console_project "TargetFrameworks") = Some "net8.0"
  /\ PyStr.py_or (trimmed_property sdk_console_project "RootNamespace") (Some "App")
     = Some "App"
  /\ trimmed_property sdk_console_project "OutputType" = Some "Exe".
Proof. vm_compute. repeat split; reflexivity. Qed.

Example sdk_console_parse :
  match parse (csproj_fs "legacy") no_fault csproj_xml ["ws"; "App"; "App.csproj"] with
  | Ok pr => (target_framework pr, root_namespace pr, output_type pr, project_type pr)
             = (Some "net8.0", Some "App", Some "Exe", CONSOLE)
  | Raise _ => False
  end.
Proof. vm_compute. reflexivity. Qed.

End ProjectParserProps.

Module SolutionParserProps.
Import Re SolutionParser Samples.

Example app_sln_matches :
  map (fun m => (group m 1, group m 2)) (finditer PROJECT_PATTERN app_sln)
  = [ (Some "FAE04EC0-301F-11D3-BF4B-00C04F79EFBC", Some "App.Core");
      (Some "2150e333-8fdc-42a3-9474-1a3956d46de8", Some "tests");
      (Some "9A19103F-16F7-4668-BE54-9A1E7A4F7556", Some "App.Tests") ].
Proof. vm_compute. reflexivity. Qed.

Example app_sln_projects :
  option_map (map (fun p => (name p, path p)))
    (match _parse_projects app_fs no_fault (Some ["ws"]) app_sln with
     | Ok projects => Some projects
     | Raise _ => None
     end)
  = Some [ ("App.Core", ["ws"; "src"; "App.Core"; "App.Core.csproj"]);
           ("App.Tests", ["ws"; "tests"; "App.Tests"; "App.Tests.csproj"]) ].
Proof. vm_compute. reflexivity. Qed.

(** An entry that steps back from a directory that is not there is
    not found, although the path without the step names a file. *)
Example entry_through_a_missing_directory :
  _resolve_project_path app_fs no_fault (Some ["ws"])
    ("missing" +:+ bs +:+ ".." +:+ bs +:+ "src" +:+ bs +:+ "App.Core" +:+ bs +:+ "App.Core.csproj")
  = Ok None
  /\ _resolve_project_path app_fs no_fault (Some ["ws"])
       ("tests" +:+ bs +:+ ".." +:+ bs +:+ "src" +:+ bs +:+ "App.Core" +:+ bs +:+ "App.Core.csproj")
     = Ok (Some ["ws"; "src"; "App.Core"; "App.Core.csproj"]).
Proof. vm_compute. split; reflexivity. Qed.

(** The three outcomes of the search for the file of an entry: it
    answers as the design says, or an existence check raises. *)
Lemma resolve_project_path_cases
    (fs : FS) (fault : IoOp -> option Exn) (dir : Path) (relative_path : string) :
  _resolve_project_path fs fault (Some dir) relative_path = Ok (located fs dir relative_path)
  \/ exists e q,
       fault (OpStat q) = Some e
       /\ _resolve_project_path fs fault (Some dir) relative_path = Raise e.
Proof.
  unfold _resolve_project_path, located, stat_raw. cbv zeta.
  match goal with
  | |- context [fault (OpStat ?q)] => destruct (fault (OpStat q)) as [e|] eqn:Hfirst
  end; [right; eauto|].
  match goal with
  | |- context [exists_raw fs ?q] => destruct (exists_raw fs q)
  end; [left; reflexivity|].
  match goal with
  | |- context [String.eqb ?a ?b] => destruct (String.eqb a b)
  end; [|left; reflexivity]. cbn [andb].
  match goal with
  | |- context [fault (OpStat ?q)] => destruct (fault (OpStat q)) as [e|] eqn:Hsecond
  end; [right; eauto|].
  match goal with
  | |- context [exists_raw fs ?q] => destruct (exists_raw fs q)
  end; left; reflexivity.
Qed.

Lemma project_of_match_cases
    (fs : FS) (fault : IoOp -> option Exn) (dir : Path) (m : Match) :
  project_of_match fs fault (Some dir) m = Ok (surviving_project fs dir m)
  \/ exists e q,
       fault (OpStat q) = Some e /\ project_of_match fs fault (Some dir) m = Raise e.
Proof.
  unfold project_of_match, surviving_project, is_solution_folder. cbv zeta.
  destruct (String.eqb (PyStr.upper (group_or_empty m 1)) SOLUTION_FOLDER_GUID);
    [left; reflexivity|].
  destruct (resolve_project_path_cases fs fault dir (group_or_empty m 3))
    as [->|(e & q & Hq & ->)]; [|right; eauto].
  left. destruct (located fs dir (group_or_empty m 3)); reflexivity.
Qed.

Lemma projects_of_matches_cases
    (fs : FS) (fault : IoOp -> option Exn) (dir : Path) (ms : list Match) :
  projects_of_matches fs fault (Some dir) ms = Ok (omap (surviving_project fs dir) ms)
  \/ exists e q,
       fault (OpStat q) = Some e /\ projects_of_matches fs fault (Some dir) ms = Raise e.
Proof.
  induction ms as [|m ms IH]; [left; reflexivity|].
  cbn [projects_of_matches]. simpl omap.
  destruct (project_of_match_cases fs fault dir m) as [->|(e & q & Hq & ->)];
    [|right; eauto].
  destruct IH as [->|(e & q & Hq & ->)]; [|right; eauto].
  left. destruct (surviving_project fs dir m); reflexivity.
Qed.






(** The surviving projects of the sample: the folder entry, written in
    lower case, is left out and the two projects keep their order. *)
Example app_sln_surviving :
  map name (surviving_projects app_fs ["ws"] app_sln) = ["App.Core"; "App.Tests"].
Proof. vm_compute. reflexivity. Qed.


Example app_sln_parse :
  match parse app_fs no_fault ["ws"; "App.sln"] with
  | Ok sol => map name (projects sol) = ["App.Core"; "App.Tests"]
  | Raise _ => False
  end.
Proof. vm_compute. reflexivity. Qed.

End SolutionParserProps.

Module ParseErrorProps.
Import Samples.

(** C10, as the code has it.  For a path that is not there and whose
    existence check answers, both parsers raise [FileNotFoundError],
    whatever the extension of the path: the check for existence comes
    first, so the [ValueError] of the extension check is never
    reached. *)
Theorem missing_path_raises_not_found
    (fs : FS) (fault : IoOp -> option Exn) (xml : string -> ET.Element + string) (p : Path) :
  fault (OpStat p) = None ->
  fs_exists fs p = false ->
  (exists msg, SolutionParser.parse fs fault p = Raise (mkExn FileNotFoundError msg))
  /\ (exists msg, ProjectParser.parse fs fault xml p = Raise (mkExn FileNotFoundError msg)).
Proof.
  intros Hanswer H. unfold SolutionParser.parse, ProjectParser.parse, fs_stat.
  rewrite Hanswer, H. split; eexists; reflexivity.
Qed.

Lemma missing_path_raises_not_found_witness :
  (exists msg, SolutionParser.parse app_fs no_fault ["ws"; "gone.txt"]
               = Raise (mkExn FileNotFoundError msg))
  /\ (exists msg, ProjectParser.parse app_fs no_fault (fun _ => inr "no element found")
                    ["ws"; "gone.txt"] = Raise (mkExn FileNotFoundError msg)).
Proof.
  apply (missing_path_raises_not_found app_fs no_fault _ ["ws"; "gone.txt"]);
    reflexivity.
Defined.

(** C10, as stated, fails: a path that is not there and whose name no
    file system takes makes the existence check itself raise, and
    both parsers end with its [OSError], which is no
    [FileNotFoundError]. *)
Lemma unexamined_path_raises_os_error :
  fs_exists app_fs ["ws"; long_name] = false
  /\ (exists msg, SolutionParser.parse app_fs name_limit_fault ["ws"; long_name]
                  = Raise (mkExn OSError msg))
  /\ (exists msg, ProjectParser.parse app_fs name_limit_fault (fun _ => inr "no element found")
                    ["ws"; long_name] = Raise (mkExn OSError msg)).
Proof. split; [|split; eexists]; vm_compute; reflexivity. Qed.

(** An existing file with the wrong extension is the [ValueError] case. *)
Example wrong_extension_is_value_error :
  exists msg, ProjectParser.parse app_fs no_fault (fun _ => inr "no element found")
                ["ws"; "App.sln"] = Raise (mkExn ValueError msg).
Proof. eexists. vm_compute. reflexivity. Qed.

End ParseErrorProps.

Module FileScannerProps.
Import Re FileScanner Samples TextProps.

Example scan_public_class :
  match _extract_classes ("namespace N;" +:+ nl +:+ "public class Foo : Base, IShape" +:+ nl +:+ "{" +:+ nl +:+ "}") (Some "N") with
  | Ok [ci] => (ci_name ci, base_class ci, interfaces ci, is_public ci, ci_line_number ci)
               = ("Foo", Some "Base", ["IShape"], true, 2)
  | _ => False
  end.
Proof. vm_compute. reflexivity. Qed.

Lemma kind_group_inv (st : Pos) (cs : Caps) (k : Cont) (res : Res) :
  rmatch (Grp 1 (alts (map Lit KINDS))) st cs k = Some res ->
  exists st' kw, In kw KINDS /\ k st' ((1, kw) :: cs) = Some res.
Proof.
  cbn [KINDS map alts fold_left]. intros H. change (rmatch (Grp 1 ?a) st cs k) with
    (rmatch a st cs (fun st' cs' => k st' ((1, consumed st st') :: cs'))) in H.
  repeat (apply rmatch_Alt_inv in H as [H|H]).
  all: apply rmatch_Lit_inv in H as (x & b & Hrest & H);
    destruct st as [b0 s0]; cbn [rest] in Hrest; subst s0;
    rewrite consumed_append in H;
    eexists _, _; (split; [|exact H]); cbn; tauto.
Qed.

Lemma type_pattern_kind (bol : bool) (idx : nat) (s : string) (m : Match) :
  match_at TYPE_PATTERN bol idx s = Some m ->
  exists kw, In kw KINDS /\ group m 1 = Some kw.
Proof.
  unfold match_at.
  destruct (rmatch TYPE_PATTERN (mkPos bol s) [] (fun st cs => Some (st, cs)))
    as [[st' cs]|] eqn:E; [|discriminate].
  intros [= <-]. unfold group. cbn [m_caps].
  unfold TYPE_PATTERN in E. cbn [seqs fold_right] in E.
  repeat match type of E with
         | rmatch (Seq (Grp 1 _) _) _ _ _ = _ => fail 1
         | rmatch (Seq ?a ?b) _ _ _ = _ =>
             change (rmatch (Seq a b)) with
               (fun st cs k => rmatch a st cs (fun st' cs' => rmatch b st' cs' k)) in E;
             cbv beta in E;
             apply (rmatch_keeps 1 a) in E as (? & ? & E & _); [|reflexivity]
         end.
  change (rmatch (Seq ?a ?b)) with
    (fun st cs k => rmatch a st cs (fun st' cs' => rmatch b st' cs' k)) in E.
  cbv beta in E.
  apply kind_group_inv in E as (st1 & kw & Hkw & E).
  apply rmatch_keeps with (i := 1) in E as (st2 & cs2 & E & Hcs); [|reflexivity].
  injection E as _ <-. exists kw. split; [exact Hkw|].
  rewrite Hcs. reflexivity.
Qed.

Lemma member_type_of_kind (kw : string) :
  In kw KINDS -> exists mt, member_type_of_value (PyStr.lower kw) = Ok mt.
Proof.
  cbn. intros H. repeat destruct H as [<-|H]; try contradiction; eexists; reflexivity.
Qed.

Lemma class_of_match_public (content : string) (ns : option string) (m : Match) :
  (exists b i s', match_at TYPE_PATTERN b i s' = Some m) ->
  exists ci, class_of_match content ns m = Ok ci
             /\ is_public ci = PyStr.contains "public" (m_text m).
Proof.
  intros (b & i & s' & Hm). apply type_pattern_kind in Hm as (kw & Hkw & Hg).
  unfold class_of_match, group_or_empty. rewrite Hg.
  destruct (member_type_of_kind kw Hkw) as [mt ->].
  destruct (parse_inheritance mt (group m 3)) as [base ifaces].
  eexists. split; reflexivity.
Qed.

Lemma collect_all {A B : Type} (f : A -> Result B) (R : A -> B -> Prop) (l : list A) :
  Forall (fun a => exists b, f a = Ok b /\ R a b) l ->
  exists bs, collect f l = Ok bs /\ Forall2 R l bs.
Proof.
  induction 1 as [|a l (b & Hb & HR) _ (bs & Hbs & HF)]; cbn [collect].
  - exists []. split; [reflexivity | constructor].
  - rewrite Hb, Hbs. exists (b :: bs). split; [reflexivity | constructor; assumption].
Qed.

(** What the code does for the flag.  The scan of a text always ends
    with one record for each match of the type pattern, in order, and
    a record is public exactly when the matched text contains the
    letters [public] somewhere: in a modifier, in the name of the type
    or in its inheritance clause. *)
Lemma is_public_is_a_substring_test (content : string) (ns : option string) :
  exists cs,
    _extract_classes content ns = Ok cs
    /\ Forall2 (fun m ci => is_public ci = PyStr.contains "public" (m_text m))
               (finditer TYPE_PATTERN content) cs.
Proof.
  unfold _extract_classes. apply collect_all.
  eapply Forall_impl; [apply finditer_from_matches|].
  intros m Hm. apply class_of_match_public. exact Hm.
Qed.

(** C9, on the code.  A declaration without access modifier whose
    name holds the letters [public] is recorded as public: the code
    looks for the letters anywhere in the matched text and not for the
    modifier, against its own remark that the default is internal. *)
Theorem unmodified_declaration_recorded_public :
  exists m ci,
    finditer TYPE_PATTERN ("class Republic" +:+ nl +:+ "{" +:+ nl +:+ "}") = [m]
    /\ m_text m = "class Republic"
    /\ has_access_modifier (m_text m) = false
    /\ _extract_classes ("class Republic" +:+ nl +:+ "{" +:+ nl +:+ "}") None = Ok [ci]
    /\ is_public ci = true.
Proof. eexists _, _. vm_compute. repeat split; reflexivity. Qed.

Example internal_class_is_not_public :
  match _extract_classes ("internal sealed class Helper" +:+ nl +:+ "{" +:+ nl +:+ "}") None with
  | Ok [ci] => (is_public ci, is_sealed ci, has_access_modifier "internal sealed class Helper")
               = (false, true, true)
  | _ => False
  end.
Proof. vm_compute. reflexivity. Qed.

Example scan_test_class :
  match _extract_classes
          ("public class MyTests" +:+ nl +:+ "{" +:+ nl
           +:+ "    [Fact]" +:+ nl
           +:+ "    public void Test1() { }" +:+ nl
           +:+ "    [Theory]" +:+ nl
           +:+ "    public void Test2(int x) { }" +:+ nl
           +:+ "    [Test]" +:+ nl
           +:+ "    public void Test3() { }" +:+ nl
           +:+ "}" +:+ nl +:+ "class After { [Fact] void No() {} }") None with
  | Ok [c1; c2] =>
      map (fun t => (ti_name t, framework t, is_theory t, ti_line_number t)) (tests c1)
      = [("Test1", XUNIT, false, 4); ("Test2", XUNIT, true, 6); ("Test3", NUNIT, false, 8)]
      /\ tests c2 = []
  | _ => False
  end.
Proof. vm_compute. split; reflexivity. Qed.

End FileScannerProps.

Module MigrationEngineProps.
Import MigrationEngine Samples TextProps.

Lemma events_since_app (w : World) (l evs : list Event) (f : FS) (h : Host) :
  l = log w -> events_since w (mkWorld f (l ++ evs) h) = evs.
Proof. intros ->. unfold events_since. simpl. apply drop_app_length. Qed.

(** Brings the log of the final world into the form [log w ++ evs]. *)
Ltac log_normal :=
  unfold emit, set_fs; cbn [log fs host];
  rewrite <- ?app_assoc; cbn [app];
  try (rewrite events_since_app by reflexivity).

Ltac run_engine :=
  unfold perform, move_folder, move_file, update_project_reference,
    update_solution_project_path, rename_namespace, precondition_checks,
    bind, try_except, ret, path_exists, fs_stat, fail, emit;
  cbn [workspace_root dry_run _cli_path negb fst snd fs log host].

Ltac split_checks :=
  repeat (cbn [negb fst snd orb andb fs log host] in *;
          match goal with
          | |- context [fault ?h (OpStat ?p)] => destruct (fault h (OpStat p)) eqn:?
          | |- context [fs_exists ?f ?p] => destruct (fs_exists f p) eqn:?
          end);
  cbn [negb fst snd orb andb fs log host] in *.

Lemma checks_answer_in (root : Path) (op : Operation) (h : Host) (p : Path) :
  checks_answer root op h = true -> In p (checked_paths root op) ->
  fault h (OpStat p) = None.
Proof.
  unfold checks_answer. rewrite forallb_forall. intros Hall Hin.
  specialize (Hall p Hin). unfold stat_answers in Hall.
  destruct (fault h (OpStat p)); [discriminate | reflexivity].
Qed.

(** Turns the hypothesis that the checks answer into the equations of
    the single checks and rewrites with them. *)
Ltac answered_checks H :=
  repeat (cbn [negb fst snd orb andb fs log host] in *;
          match goal with
          | |- context [fault ?h (OpStat ?p)] =>
              rewrite (checks_answer_in _ _ h p H) by (cbn [checked_paths In]; auto)
          | |- context [fs_exists ?f ?p] => destruct (fs_exists f p) eqn:?
          end);
  cbn [negb fst snd orb andb fs log host] in *.

(** A dry run leaves the files alone and logs no call that changes
    one, whatever its checks meet. *)
Lemma dry_run_keeps_files (root : Path) (cli : option Path) (op : Operation) (w : World) :
  fs (snd (perform (mkEngine root true cli) op w)) = fs w
  /\ filter (fun ev => is_write ev = true)
            (events_since w (snd (perform (mkEngine root true cli) op w))) = [].
Proof.
  destruct w as [f l h].
  destruct op; run_engine; split_checks; log_normal; split; reflexivity.
Qed.

(** When its checks answer, a dry run makes exactly the checks that
    stand before the gate. *)
Lemma dry_run_only_checks (root : Path) (cli : option Path) (op : Operation) (w : World) :
  checks_answer root op (host w) = true ->
  events_since w (snd (perform (mkEngine root true cli) op w))
  = precondition_checks root op (fs w).
Proof.
  destruct w as [f l h]. cbn [host fs]. intros Hanswer.
  destruct op; run_engine; answered_checks Hanswer; log_normal; reflexivity.
Qed.

(** C1, as the code has it.  When the precondition of an operation
    fails, the dry-run engine and the live engine do the same and
    leave the same world, and the dry run changes no file and logs no
    write.  When the existence checks answer, both return the same
    failed result (flag and message, hence category), and the only
    calls of the dry run to the file system are the checks that stand
    before the gate. *)
Theorem dry_run_agrees_on_failed_preconditions
    (root : Path) (cli : option Path) (op : Operation) (w : World) :
  precondition_fails root op (fs w) = true ->
  perform (mkEngine root true cli) op w = perform (mkEngine root false cli) op w
  /\ fs (snd (perform (mkEngine root true cli) op w)) = fs w
  /\ filter (fun ev => is_write ev = true)
            (events_since w (snd (perform (mkEngine root true cli) op w))) = []
  /\ (checks_answer root op (host w) = true ->
      (exists msg, fst (perform (mkEngine root false cli) op w) = Ok (mkResult false msg None))
      /\ events_since w (snd (perform (mkEngine root true cli) op w))
         = precondition_checks root op (fs w)).
Proof.
  intros Hpre.
  destruct (dry_run_keeps_files root cli op w) as [Hfs Hquiet].
  split; [|split; [exact Hfs|split; [exact Hquiet|]]].
  - clear Hfs Hquiet. destruct w as [f l h]. unfold precondition_fails in Hpre.
    destruct op; run_engine; split_checks; try discriminate; reflexivity.
  - intros Hanswer. split; [|apply dry_run_only_checks; exact Hanswer].
    clear Hfs Hquiet. destruct w as [f l h]. unfold precondition_fails in Hpre.
    cbn [host] in Hanswer.
    destruct op; run_engine; answered_checks Hanswer; try discriminate;
      eexists; reflexivity.
Qed.

(** C1, as stated, fails: the source of the move is missing, its name
    is one that no file system takes, and the existence check raises
    in both modes; neither engine returns a result. *)
Lemma unanswered_check_raises_in_both_modes :
  precondition_fails ["ws"] (MoveFile [long_name] ["b.txt"]) (fs strict_world) = true
  /\ (exists msg,
        fst (perform (mkEngine ["ws"] false None) (MoveFile [long_name] ["b.txt"]) strict_world)
        = Raise (mkExn OSError msg))
  /\ (exists msg,
        fst (perform (mkEngine ["ws"] true None) (MoveFile [long_name] ["b.txt"]) strict_world)
        = Raise (mkExn OSError msg)).
Proof. split; [|split; eexists]; vm_compute; reflexivity. Qed.

(** *** No exception leaves an operation *)

Ltac settle_events :=
  intros ? ? Hin ?; cbn [In] in Hin;
  repeat match type of Hin with
         | _ \/ _ => destruct Hin as [Hin|Hin]
         end;
  try contradiction; try discriminate;
  try (injection Hin as <- <-); try congruence; auto.

Ltac log_tail := cbn [log fst snd]; rewrite <- ?app_assoc; cbn [app]; try reflexivity.

Lemma sound_ret {A : Type} (a : A) : sound (ret a).
Proof. intros w. exists []. split; [cbn; rewrite app_nil_r; reflexivity | settle_events]. Qed.

Lemma sound_bind {A B : Type} (m : M A) (k : A -> M B) :
  sound m -> (forall a, sound (k a)) -> sound (bind m k).
Proof.
  intros Hm Hk w. unfold bind.
  destruct (Hm w) as (evs1 & Hlog1 & Hf1).
  destruct (m w) as [[a|e0] w1] eqn:E; cbn [fst snd] in *.
  - destruct (Hk a w1) as (evs2 & Hlog2 & Hf2).
    exists (evs1 ++ evs2)%list. split.
    + rewrite Hlog2, Hlog1, app_assoc. reflexivity.
    + intros o e Hin Hne. apply in_app_or in Hin as [Hin|Hin].
      * specialize (Hf1 o e Hin Hne). discriminate.
      * apply (Hf2 o e Hin Hne).
  - exists evs1. split; [exact Hlog1 |].
    intros o e Hin Hne. specialize (Hf1 o e Hin Hne). injection Hf1 as ->. reflexivity.
Qed.

Lemma sound_fail {A : Type} (o : Origin) (e : Exn) : sound (@fail A o e).
Proof. intros w. exists [Failed o e]. split; [reflexivity | settle_events]. Qed.

Lemma read_text_sound (p : Path) : sound (read_text p).
Proof.
  intros [f l h]. unfold read_text, fail, emit, fs_read, fs_read_bytes. cbn [fs log host].
  destruct (fault h (OpStat p));
    [|destruct (fault h (OpRead p)); [|destruct (f p) as [[c|]|]]];
    eexists; (split; [log_tail | settle_events]).
Qed.

Lemma write_text_sound (p : Path) (c : string) : sound (write_text p c).
Proof.
  intros [f l h]. unfold write_text, fail, emit, set_fs. cbn [fs log host].
  destruct (fault h (OpWrite p)); [|destruct (is_dir f p); [|destruct (is_dir f (PyPath.parent p))]];
    eexists; (split; [log_tail | settle_events]).
Qed.

Lemma mkdir_parents_sound (p : Path) : sound (mkdir_parents p).
Proof.
  intros [f l h]. unfold mkdir_parents, fail, emit, set_fs. cbn [fs log host].
  destruct (fault h (OpMkdir p)); [|destruct (existsb (is_file f) (prefixes p))];
    eexists; (split; [log_tail | settle_events]).
Qed.

Lemma rename_sound (src dst : Path) : sound (rename src dst).
Proof.
  intros [f l h]. unfold rename, fail, emit, set_fs. cbn [fs log host].
  destruct (path_eqb src dst); [|destruct (is_dir f src && is_prefix src dst);
    [|destruct (is_dir f src && is_file f dst); [|destruct (negb (is_dir f (PyPath.parent dst)))]]];
    eexists; (split; [log_tail; try (rewrite app_nil_r; reflexivity) | settle_events]).
Qed.

(** The move itself, once [shutil.move] has found where to put the
    source. *)
Lemma carry_sound (src dst real_dst : Path) (f : FS) (l : list Event) (h : Host) :
  exists evs,
    log (snd (match fault h (OpMove src dst) with
              | Some e =>
                  fail FromFile e
                    (set_fs (wreck h src real_dst f) (mkWorld f (l ++ [Move src dst]) h))
              | None => rename src real_dst (mkWorld f (l ++ [Move src dst]) h)
              end)) = (l ++ evs)%list
    /\ forall o e, In (Failed o e) evs -> o <> FromDelegate ->
         fst (match fault h (OpMove src dst) with
              | Some e =>
                  fail FromFile e
                    (set_fs (wreck h src real_dst f) (mkWorld f (l ++ [Move src dst]) h))
              | None => rename src real_dst (mkWorld f (l ++ [Move src dst]) h)
              end) = Raise e.
Proof.
  destruct (fault h (OpMove src dst)) as [e0|].
  - unfold fail, emit, set_fs. cbn [fs log host].
    eexists; (split; [log_tail | settle_events]).
  - destruct (rename_sound src real_dst (mkWorld f (l ++ [Move src dst])%list h))
      as (evs & Hlog & Hf).
    exists (Move src dst :: evs). split.
    + rewrite Hlog. log_tail.
    + intros o e [Hin|Hin] Hne; [discriminate | exact (Hf o e Hin Hne)].
Qed.

Lemma shutil_move_sound (src dst : Path) : sound (shutil_move src dst).
Proof.
  intros [f l h]. unfold shutil_move. cbv zeta. unfold emit at 1 2 3 4. cbn [fs log host].
  destruct (negb (fs_exists f src));
    [unfold fail, emit; cbn [fs log host]; eexists; (split; [log_tail | settle_events])|].
  destruct (is_dir f dst).
  - destruct (path_eqb src dst);
      [eexists; (split; [log_tail | settle_events])|].
    destruct (fs_exists f (dst ++ [PyPath.path_name src])%list);
      [unfold fail, emit; cbn [fs log host]; eexists; (split; [log_tail | settle_events])|].
    apply carry_sound.
  - apply carry_sound.
Qed.

Lemma re_sub_sound (r : Re.regex) (repl content : string) : sound (re_sub r repl content).
Proof.
  intros [f l h]. unfold re_sub, fail, emit. cbn [fs log host].
  destruct (PyStr.contains _ repl); [destruct (re_template h repl)|];
    eexists; (split; [log_tail; try (rewrite app_nil_r; reflexivity) | settle_events]).
Qed.

Lemma sound_if {A : Type} (b : bool) (m1 m2 : M A) : sound m1 -> sound m2 -> sound (if b then m1 else m2).
Proof. destruct b; auto. Qed.

Lemma quiet_path_exists (ok : Host -> Prop) (p : Path) :
  (forall h, ok h -> fault h (OpStat p) = None) -> quiet ok (path_exists p).
Proof.
  intros Hok w Hw. unfold path_exists, fs_stat, emit. rewrite (Hok _ Hw).
  eexists _, [Stat p].
  split; [reflexivity|]. split; [reflexivity|]. split; [reflexivity|].
  intros o e [Hin|[]]. discriminate.
Qed.

Lemma guarded_ret (ok : Host -> Prop) (r : MigrationResult) : guarded ok (ret r).
Proof.
  intros w _. exists r, []. cbn. rewrite app_nil_r.
  split; [reflexivity|]. split; [reflexivity|]. intros o e [].
Qed.

Lemma guarded_bind {A : Type} (ok : Host -> Prop) (m : M A) (k : A -> M MigrationResult) :
  quiet ok m -> (forall a, guarded ok (k a)) -> guarded ok (bind m k).
Proof.
  intros Hm Hk w Hw. unfold bind.
  destruct (Hm w Hw) as (a & evs1 & Hr & Hhost & Hlog1 & Hq).
  destruct (m w) as [r1 w1]; cbn [fst snd] in *. subst r1.
  rewrite <- Hhost in Hw.
  destruct (Hk a w1 Hw) as (r & evs2 & Hr2 & Hlog2 & Hg).
  exists r, (evs1 ++ evs2)%list. split; [exact Hr2|]. split.
  - rewrite Hlog2, Hlog1, app_assoc. reflexivity.
  - intros o e Hin Hne.
    apply in_app_or in Hin as [Hin|Hin]; [apply Hq in Hin; contradiction | apply (Hg o e Hin Hne)].
Qed.

Lemma guarded_try (ok : Host -> Prop) (body : M MigrationResult) (pre : string) :
  sound body ->
  guarded ok (try_except body (fun e => ret (mkResult false (pre +:+ exn_text e) None))).
Proof.
  intros Hb w _. unfold try_except, ret.
  destruct (Hb w) as (evs & Hlog & Hf).
  destruct (body w) as [[r|e0] w1]; cbn [fst snd] in *.
  - exists r, evs. split; [reflexivity|]. split; [exact Hlog|].
    intros o e Hin Hne. specialize (Hf o e Hin Hne). discriminate.
  - eexists _, evs. split; [reflexivity|]. split; [exact Hlog|].
    intros o e Hin Hne. specialize (Hf o e Hin Hne). injection Hf as ->.
    cbn. split; [reflexivity | eexists; reflexivity].
Qed.

Lemma guarded_if (ok : Host -> Prop) (b : bool) (m1 m2 : M MigrationResult) :
  guarded ok m1 -> guarded ok m2 -> guarded ok (if b then m1 else m2).
Proof. destruct b; auto. Qed.

Ltac only_delegate :=
  intros ? ? Hin; cbn [In] in Hin;
  repeat match type of Hin with
         | _ \/ _ => destruct Hin as [Hin|Hin]
         end;
  try contradiction; try discriminate; try (injection Hin as <- _; reflexivity).

Lemma quiet_call_cli (ok : Host -> Prop) (self : Engine) (args : list string) :
  quiet ok (_call_cli self args).
Proof.
  intros [f l h] _. unfold _call_cli.
  destruct (_cli_path self) as [cli|];
    [|eexists _, []; cbn; rewrite app_nil_r;
      (split; [reflexivity|]); (split; [reflexivity|]); (split; [reflexivity|]);
      intros o e []].
  unfold try_except, bind, subprocess_run, fail, ret, emit, set_fs. cbn [fs log host].
  match goal with |- context [run_process h ?c f] => destruct (run_process h c f) as [[c0|e0] f'] end.
  - destruct (returncode c0 =? 0)%Z.
    + cbn [host]. destruct (json_loads h (stdout c0)) as [e1|].
      * destruct (exn_class e1); eexists _, _; (split; [reflexivity|]);
          (split; [reflexivity|]); (split; [log_tail|]); only_delegate.
      * eexists _, _; (split; [reflexivity|]); (split; [reflexivity|]);
          (split; [log_tail|]); only_delegate.
    + eexists _, _; (split; [reflexivity|]); (split; [reflexivity|]);
        (split; [log_tail|]); only_delegate.
  - eexists _, _; (split; [reflexivity|]); (split; [reflexivity|]);
      (split; [log_tail|]); only_delegate.
Qed.

Create HintDb guard discriminated.
#[local] Hint Resolve sound_ret sound_fail read_text_sound write_text_sound mkdir_parents_sound
  shutil_move_sound re_sub_sound guarded_ret guarded_try quiet_call_cli : guard.

(** The existence check of an operation is one of the checks that are
    taken to answer. *)
Ltac check_answers :=
  apply quiet_path_exists;
  let h := fresh "h" in
  let Hh := fresh "Hh" in
  intros h Hh; apply (checks_answer_in _ _ h _ Hh); cbn [checked_paths In]; auto.

Ltac guarded_steps :=
  repeat first
    [ apply guarded_ret
    | apply guarded_if
    | apply guarded_try
    | apply guarded_bind; [solve [check_answers | auto with guard] | intros ?]
    | apply sound_bind; [solve [auto with guard] | intros ?]
    | apply sound_if
    | solve [auto with guard]
    | progress cbv zeta ].

Lemma move_folder_guarded (self : Engine) (s t : Path) :
  guarded (answering (workspace_root self) (MoveFolder s t)) (move_folder self s t).
Proof. unfold move_folder, answering. guarded_steps. Qed.

Lemma move_file_guarded (self : Engine) (s t : Path) :
  guarded (answering (workspace_root self) (MoveFile s t)) (move_file self s t).
Proof. unfold move_file, answering. guarded_steps. Qed.

Lemma update_project_reference_guarded (self : Engine) (p : Path) (o n : string) :
  guarded (answering (workspace_root self) (UpdateProjectReference p o n))
          (update_project_reference self p o n).
Proof. unfold update_project_reference, answering. guarded_steps. Qed.

Lemma update_solution_project_path_guarded (self : Engine) (p : Path) (o n : string) :
  guarded (answering (workspace_root self) (UpdateSolutionProjectPath p o n))
          (update_solution_project_path self p o n).
Proof. unfold update_solution_project_path, answering. guarded_steps. Qed.

Lemma rename_fallback_guarded (ok : Host -> Prop) (p a : Path) (o n : string) :
  guarded ok (rename_fallback p a o n).
Proof. unfold rename_fallback. guarded_steps. Qed.

Lemma rename_namespace_guarded (self : Engine) (p : Path) (o n : string) :
  guarded (answering (workspace_root self) (RenameNamespace p o n))
          (rename_namespace self p o n).
Proof.
  unfold rename_namespace, answering. pose proof rename_fallback_guarded.
  destruct (_cli_path self) eqn:E; guarded_steps; auto.
Qed.

(** C7, as the code has it.  The existence checks, which stand before
    the [try] blocks, being taken to answer, every operation returns a
    result and never raises; when a file or text operation of the
    engine itself raised, the result is a failure whose message ends
    with the text of the exception.  An exception of the call of the
    external tool is left out: [rename_namespace] goes on to the text
    fallback after it. *)
Theorem operations_never_raise (self : Engine) (op : Operation) (w : World) :
  checks_answer (workspace_root self) op (host w) = true ->
  exists r,
    fst (perform self op w) = Ok r
    /\ forall o e,
         In (Failed o e) (events_since w (snd (perform self op w))) ->
         o <> FromDelegate ->
         success r = false /\ exists prefix, message r = prefix +:+ exn_text e.
Proof.
  intros Hanswer.
  assert (Hg : guarded (answering (workspace_root self) op) (perform self op)).
  { destruct op; cbn [perform];
      auto using move_folder_guarded, move_file_guarded, update_project_reference_guarded,
        update_solution_project_path_guarded, rename_namespace_guarded. }
  destruct (Hg w Hanswer) as (r & evs & Hr & Hlog & Hf).
  exists r. split; [exact Hr|].
  unfold events_since. rewrite Hlog, drop_app_length. exact Hf.
Qed.

(** An exception that does leave an operation is that of one of its
    existence checks. *)
Lemma only_checks_raise (self : Engine) (op : Operation) (w : World) (e : Exn) :
  fst (perform self op w) = Raise e ->
  exists p,
    In p (checked_paths (workspace_root self) op) /\ fault (host w) (OpStat p) = Some e.
Proof.
  intros H. destruct (checks_answer (workspace_root self) op (host w)) eqn:Hanswer.
  { assert (Hg : guarded (answering (workspace_root self) op) (perform self op)).
    { destruct op; cbn [perform];
        auto using move_folder_guarded, move_file_guarded, update_project_reference_guarded,
          update_solution_project_path_guarded, rename_namespace_guarded. }
    destruct (Hg w Hanswer) as (r & evs & Hr & _). rewrite Hr in H. discriminate. }
  destruct w as [f l h]. destruct self as [root dry cli].
  unfold checks_answer, stat_answers in Hanswer.
  cbn [host workspace_root] in *.
  revert H Hanswer.
  destruct op; cbn [checked_paths forallb In]; run_engine; split_checks;
    intros H Hanswer;
    first [ discriminate
          | injection H as <-; eexists; split; [|eassumption]; auto ].
Qed.

Lemma operations_never_raise_witness :
  exists r,
    fst (perform (mkEngine ["ws"] false None) (MoveFolder ["src"] ["App.sln"; "src"]) app_world)
    = Ok r
    /\ forall o e,
         In (Failed o e)
            (events_since app_world
               (snd (perform (mkEngine ["ws"] false None)
                       (MoveFolder ["src"] ["App.sln"; "src"]) app_world))) ->
         o <> FromDelegate ->
         success r = false /\ exists prefix, message r = prefix +:+ exn_text e.
Proof.
  apply (operations_never_raise (mkEngine ["ws"] false None)
           (MoveFolder ["src"] ["App.sln"; "src"]) app_world).
  reflexivity.
Defined.

(** The move of the witness does fail inside its [try] block: a file
    stands where the directory of the target would have to be made. *)
Example move_under_a_file_fails :
  fst (perform (mkEngine ["ws"] false None) (MoveFolder ["src"] ["App.sln"; "src"]) app_world)
  = Ok (mkResult false "Failed to move folder: [Errno 17] File exists: /ws/App.sln" None).
Proof. vm_compute. reflexivity. Qed.

(** *** Dry run, continued *)

Lemma dry_run_agrees_on_failed_preconditions_witness :
  perform (mkEngine ["ws"] true None) (MoveFolder ["src"] ["tests"]) app_world
  = perform (mkEngine ["ws"] false None) (MoveFolder ["src"] ["tests"]) app_world
  /\ fs (snd (perform (mkEngine ["ws"] true None) (MoveFolder ["src"] ["tests"]) app_world))
     = fs app_world
  /\ filter (fun ev => is_write ev = true)
            (events_since app_world
               (snd (perform (mkEngine ["ws"] true None) (MoveFolder ["src"] ["tests"]) app_world)))
     = []
  /\ (checks_answer ["ws"] (MoveFolder ["src"] ["tests"]) (host app_world) = true ->
      (exists msg, fst (perform (mkEngine ["ws"] false None) (MoveFolder ["src"] ["tests"]) app_world)
                   = Ok (mkResult false msg None))
      /\ events_since app_world
           (snd (perform (mkEngine ["ws"] true None) (MoveFolder ["src"] ["tests"]) app_world))
         = precondition_checks ["ws"] (MoveFolder ["src"] ["tests"]) (fs app_world)).
Proof.
  apply (dry_run_agrees_on_failed_preconditions ["ws"] None (MoveFolder ["src"] ["tests"]) app_world).
  reflexivity.
Defined.

Example dry_run_collision_message :
  fst (perform (mkEngine ["ws"] true None) (MoveFolder ["src"] ["tests"]) app_world)
  = Ok (mkResult false "Target folder already exists: tests" None).
Proof. vm_compute. reflexivity. Qed.

Example dry_run_preview :
  fst (perform (mkEngine ["ws"] true None) (MoveFolder ["src"] ["lib"]) app_world)
  = Ok (mkResult true "[DRY RUN] Would move: src -> lib" None).
Proof. vm_compute. reflexivity. Qed.

(** *** The same move twice *)

Lemma is_prefix_refl (p : Path) : is_prefix p p = true.
Proof. induction p as [|a p IH]; simpl; [reflexivity|]. rewrite String.eqb_refl. exact IH. Qed.

Lemma path_eqb_eq (p q : Path) : path_eqb p q = true -> p = q.
Proof.
  unfold path_eqb. revert q. induction p as [|a p IH]; intros [|b q]; simpl.
  - reflexivity.
  - discriminate.
  - discriminate.
  - destruct (String.eqb a b) eqn:E; simpl; [|discriminate].
    apply String.eqb_eq in E. subst b. rewrite String.eqb_refl. simpl.
    intros H. f_equal. apply IH. exact H.
Qed.

Lemma rename_removes_source (src dst : Path) (w w' : World) (u : unit) :
  rename src dst w = (Ok u, w') -> path_eqb src dst = false ->
  fs_exists (fs w') src = false.
Proof.
  unfold rename, fail. intros H Hne. rewrite Hne in H.
  destruct (is_dir (fs w) src && is_prefix src dst); [discriminate|].
  destruct (is_dir (fs w) src && is_file (fs w) dst); [discriminate|].
  destruct (negb (is_dir (fs w) (PyPath.parent dst))); [discriminate|].
  injection H as _ <-. unfold set_fs, relocate, fs_exists. cbn [fs].
  rewrite is_prefix_refl. reflexivity.
Qed.

Lemma shutil_move_removes_source (src dst : Path) (w w' : World) (u : unit) :
  shutil_move src dst w = (Ok u, w') -> path_eqb src dst = false ->
  fs_exists (fs w') src = false.
Proof.
  unfold shutil_move, fail. cbv zeta. intros H Hne.
  destruct (fs_exists (fs w) src) eqn:Hsrc; cbn [negb] in H; [|discriminate].
  destruct (is_dir (fs w) dst).
  - rewrite Hne in H.
    destruct (fs_exists (fs w) (dst ++ [PyPath.path_name src])%list) eqn:Hreal; [discriminate|].
    destruct (fault (host w) (OpMove src dst)); [discriminate|].
    apply rename_removes_source in H; [exact H|].
    destruct (path_eqb src (dst ++ [PyPath.path_name src])%list) eqn:E; [|reflexivity].
    apply path_eqb_eq in E. rewrite <- E in Hreal. congruence.
  - destruct (fault (host w) (OpMove src dst)); [discriminate|].
    apply rename_removes_source in H; assumption.
Qed.

Lemma mkdir_parents_keeps (p q : Path) (w w' : World) (u : unit) :
  mkdir_parents p w = (Ok u, w') -> fs_exists (fs w) q = true -> fs_exists (fs w') q = true.
Proof.
  unfold mkdir_parents, fail. intros H Hq.
  destruct (fault (host w) (OpMkdir p)); [discriminate|].
  destruct (existsb (is_file (fs w)) (prefixes p)); [discriminate|].
  injection H as _ <-. unfold set_fs, fs_exists in *. cbn [fs].
  destruct (is_prefix q p); [|exact Hq]. destruct (fs w q); [reflexivity|discriminate].
Qed.

(** The host is the same after every call. *)
Lemma mkdir_parents_host (p : Path) (w w' : World) (r : Result unit) :
  mkdir_parents p w = (r, w') -> host w' = host w.
Proof.
  unfold mkdir_parents, fail. intros H.
  destruct (fault (host w) (OpMkdir p)); [injection H as _ <-; reflexivity|].
  destruct (existsb (is_file (fs w)) (prefixes p)); injection H as _ <-; reflexivity.
Qed.

Lemma rename_host (src dst : Path) (w w' : World) (r : Result unit) :
  rename src dst w = (r, w') -> host w' = host w.
Proof.
  unfold rename, fail. intros H.
  repeat match type of H with
         | (if ?b then _ else _) = _ => destruct b
         end;
    injection H as _ <-; reflexivity.
Qed.

Lemma shutil_move_host (src dst : Path) (w w' : World) (r : Result unit) :
  shutil_move src dst w = (r, w') -> host w' = host w.
Proof.
  unfold shutil_move, fail. cbv zeta. intros H.
  destruct (negb (fs_exists (fs w) src)); [injection H as _ <-; reflexivity|].
  destruct (is_dir (fs w) dst).
  - destruct (path_eqb src dst); [injection H as _ <-; reflexivity|].
    destruct (fs_exists (fs w) _); [injection H as _ <-; reflexivity|].
    destruct (fault (host w) (OpMove src dst)); [injection H as _ <-; reflexivity|].
    apply rename_host in H. exact H.
  - destruct (fault (host w) (OpMove src dst)); [injection H as _ <-; reflexivity|].
    apply rename_host in H. exact H.
Qed.

(** After a move of the live engine that succeeded the source is
    gone, and the check that found it answers again. *)
Lemma live_move_takes_the_source (kind : MoveKind) (root : Path) (cli : option Path)
    (source target : Path) (w w1 : World) (r1 : MigrationResult) :
  move kind (mkEngine root false cli) source target w = (Ok r1, w1) ->
  success r1 = true ->
  host w1 = host w
  /\ fault (host w) (OpStat (root ++ source)%list) = None
  /\ fs_exists (fs w1) (root ++ source)%list = false.
Proof.
  intros Hrun Hok. destruct w as [f l h].
  destruct kind; cbn [move] in Hrun; unfold move_folder, move_file in Hrun;
    unfold bind, try_except, ret, path_exists, fs_stat, fail, emit in Hrun;
    cbv beta iota delta [workspace_root dry_run fs log host] in Hrun;
    (destruct (fault h (OpStat (root ++ source)%list)) eqn:Hfs; cbv beta iota in Hrun;
      [discriminate|]);
    (destruct (fs_exists f (root ++ source)%list) eqn:Hs; cbn [negb] in Hrun;
      [|injection Hrun as <- _; discriminate]);
    (destruct (fault h (OpStat (root ++ target)%list)) eqn:Hft; cbv beta iota in Hrun;
      [discriminate|]);
    (destruct (fs_exists f (root ++ target)%list) eqn:Ht; cbv beta iota in Hrun;
      [injection Hrun as <- _; discriminate|]);
    (match type of Hrun with
     | context [mkdir_parents ?p ?w0] => destruct (mkdir_parents p w0) as [[u|e] w2] eqn:Hmk
     end; cbv beta iota in Hrun; [|injection Hrun as <- _; discriminate]);
    (match type of Hrun with
     | context [shutil_move ?a ?b ?w0] => destruct (shutil_move a b w0) as [[u'|e] w3] eqn:Hmv
     end; cbv beta iota in Hrun; [|injection Hrun as <- _; discriminate]);
    injection Hrun as _ <-;
    (split; [rewrite (shutil_move_host _ _ _ _ _ Hmv), (mkdir_parents_host _ _ _ _ Hmk);
             reflexivity|]);
    (split; [exact Hfs|]);
    (apply shutil_move_removes_source in Hmv; [exact Hmv|]);
    (destruct (path_eqb (root ++ source)%list (root ++ target)%list) eqn:E; [|reflexivity]);
    apply path_eqb_eq in E; rewrite E in Hs; congruence.
Qed.

(** C8, as the code has it.  After a move of the live engine that
    succeeded, the same move again fails and reports that the source
    does not exist. *)
Theorem repeated_move_reports_missing_source (kind : MoveKind) (root : Path) (cli : option Path)
    (source target : Path) (w w1 : World) (r1 : MigrationResult) :
  move kind (mkEngine root false cli) source target w = (Ok r1, w1) ->
  success r1 = true ->
  fst (move kind (mkEngine root false cli) source target w1)
  = Ok (mkResult false ("Source " +:+ noun kind +:+ " does not exist: "
                        +:+ PyPath.rel_str source) None).
Proof.
  intros Hrun Hok.
  destruct (live_move_takes_the_source kind root cli source target w w1 r1 Hrun Hok)
    as (Hhost & Hanswer & Hgone).
  destruct kind; cbn [move noun]; unfold move_folder, move_file, bind, ret, path_exists, fs_stat;
    cbn [workspace_root dry_run]; rewrite Hhost, Hanswer, Hgone; reflexivity.
Qed.

Lemma repeated_move_reports_missing_source_witness :
  fst (move Folder (mkEngine ["ws"] false None) ["src"] ["lib"; "src"]
         (snd (move Folder (mkEngine ["ws"] false None) ["src"] ["lib"; "src"] app_world)))
  = Ok (mkResult false "Source folder does not exist: src" None).
Proof.
  apply (repeated_move_reports_missing_source Folder ["ws"] None ["src"] ["lib"; "src"]
           app_world _ (mkResult true "Moved: src -> lib/src" None)).
  - vm_compute. reflexivity.
  - reflexivity.
Defined.

Example move_folder_relocates_the_tree :
  let w1 := snd (move_folder (mkEngine ["ws"] false None) ["src"] ["lib"; "src"] app_world) in
  fs w1 ["ws"; "lib"; "src"; "App.Core"; "App.Core.csproj"] = Some (File "<Project/>")
  /\ fs w1 ["ws"; "src"; "App.Core"; "App.Core.csproj"] = None
  /\ fs w1 ["ws"; "lib"] = Some Dir.
Proof. vm_compute. repeat split; reflexivity. Qed.

(** C8, as stated, fails: with source and target both present the
    first move fails on the target, and so does the second; its
    message does not speak of a missing source. *)
Lemma repeated_move_with_existing_target :
  fst (move_folder (mkEngine ["ws"] false None) ["src"] ["tests"]
         (snd (move_folder (mkEngine ["ws"] false None) ["src"] ["tests"] app_world)))
  = Ok (mkResult false "Target folder already exists: tests" None)
  /\ PyStr.contains "does not exist" "Target folder already exists: tests" = false.
Proof. vm_compute. split; reflexivity. Qed.

(** A dry run of a move succeeds as often as it is repeated. *)
Example repeated_dry_run_succeeds :
  fst (move_folder (mkEngine ["ws"] true None) ["src"] ["lib"]
         (snd (move_folder (mkEngine ["ws"] true None) ["src"] ["lib"] app_world)))
  = Ok (mkResult true "[DRY RUN] Would move: src -> lib" None).
Proof. vm_compute. reflexivity. Qed.

(** C7, as stated, fails for an error of the external tool: the call
    of [dotnet] raises, the text fallback runs, and the result is a
    success that does not carry the text of the exception. *)
Lemma delegate_failure_is_not_reported :
  fst (new_engine ["ws"] false dev_world) = Ok (mkEngine ["ws"] false (Some cli_project))
  /\ fst (rename_namespace (mkEngine ["ws"] false (Some cli_project)) ["A.cs"] "Old" "New" dev_world)
     = Ok (mkResult true "Renamed namespace in A.cs" None)
  /\ In (Failed FromDelegate
           (mkExn FileNotFoundError "[Errno 2] No such file or directory: 'dotnet'"))
        (events_since dev_world
           (snd (rename_namespace (mkEngine ["ws"] false (Some cli_project))
                   ["A.cs"] "Old" "New" dev_world))).
Proof. vm_compute. repeat split; auto. Qed.

(** *** The text fallback of the namespace rename *)

Import Re.

Lemma drop_append (a x : string) : PyStr.drop (String.length a) (a +:+ x) = x.
Proof. induction a as [|c a IH]; [destruct x; reflexivity | exact IH]. Qed.

Lemma rmatch_Lit_fails (s x : string) (b : bool) (cs : Caps) (k : Cont) :
  PyStr.startswith s x = false -> rmatch (Lit s) (mkPos b x) cs k = None.
Proof.
  intros Hs. destruct (rmatch (Lit s) (mkPos b x) cs k) as [res|] eqn:E; [|reflexivity].
  apply rmatch_Lit_inv in E as (y & b' & Hrest & _). cbn [rest] in Hrest.
  rewrite Hrest, startswith_append in Hs. discriminate.
Qed.

Lemma blank_run_le (s : string) : blank_run s <= String.length s.
Proof.
  induction s as [|c s IH]; cbn [blank_run String.length]; [lia|].
  destruct (PyStr.isspace c); lia.
Qed.

Lemma length_take (n : nat) (s : string) :
  n <= String.length s -> String.length (PyStr.take n s) = n.
Proof.
  revert n. induction s as [|c s IH]; intros [|n] H; cbn [PyStr.take String.length] in *;
    try lia. rewrite IH by lia. reflexivity.
Qed.

(** The greedy run of white space before a continuation that takes no
    white space: it passes the whole run, and there is nothing to go
    back to. *)
Lemma star_ws_run (k : Cont) :
  (forall b c s cs, PyStr.isspace c = true -> k (mkPos b (String c s)) cs = None) ->
  forall fuel x b cs,
    String.length x <= fuel ->
    star_loop (rmatch ws) fuel (mkPos b x) cs k
    = k (mkPos (bol_after b (PyStr.take (blank_run x) x)) (PyStr.drop (blank_run x) x)) cs.
Proof.
  intros Hk. induction fuel as [|fuel IH]; intros x b cs Hlen.
  - destruct x; [reflexivity | cbn in Hlen; lia].
  - cbn [star_loop]. unfold ws at 1. cbn [rmatch rest].
    destruct x as [|c x']; [reflexivity|].
    cbn [blank_run]. destruct (PyStr.isspace c) eqn:Hc; [|reflexivity].
    unfold advance. cbn [rest String.length PyStr.take PyStr.drop bol_after].
    replace (String.length x' <? S (String.length x'))%nat with true
      by (symmetry; apply Nat.ltb_lt; lia).
    rewrite IH by (cbn [String.length] in Hlen; lia).
    match goal with |- match ?v with _ => _ end = _ => destruct v as [r|] eqn:E end;
      [reflexivity|]. apply Hk. exact Hc.
Qed.

(** A name that does not begin with white space is not found where
    white space stands. *)
Lemma name_after_blank (old : string) (b : bool) (c : ascii) (s : string) (cs : Caps)
    (k : Cont) :
  starts_with_name_char old = true -> PyStr.isspace c = true ->
  rmatch (Lit old) (mkPos b (String c s)) cs k = None.
Proof.
  intros Hold Hc. destruct old as [|o old']; [discriminate|].
  cbn [starts_with_name_char] in Hold. apply negb_true_iff in Hold.
  cbn [Lit rmatch rest]. unfold is_char.
  destruct (Ascii.eqb o c) eqn:E; [|reflexivity].
  apply Ascii.eqb_eq in E. subst c. congruence.
Qed.

(** What an occurrence is made of. *)
Lemma occurrence_at_inv (kw old s : string) (n : nat) :
  occurrence_at kw old s = Some n ->
  exists c blanks tail,
    s = kw +:+ String c blanks +:+ old +:+ tail
    /\ PyStr.isspace c = true
    /\ n = String.length kw + S (String.length blanks) + String.length old.
Proof.
  unfold occurrence_at. cbv zeta.
  destruct (PyStr.startswith kw s) eqn:Hkw; [|discriminate]. cbn [andb].
  apply startswith_split in Hkw as [x ->]. rewrite drop_append.
  destruct x as [|c x']; [discriminate|]. cbn [blank_run].
  destruct (PyStr.isspace c) eqn:Hc; [|discriminate].
  cbn [Nat.ltb Nat.leb andb PyStr.drop].
  destruct (PyStr.startswith old (PyStr.drop (blank_run x') x')) eqn:Hold; [|discriminate].
  intros [= <-]. apply startswith_split in Hold as [tail Htail].
  exists c, (PyStr.take (blank_run x') x'), tail.
  rewrite length_take by apply blank_run_le.
  split; [|split; [exact Hc | reflexivity]].
  rewrite append_cons, <- Htail, take_drop. reflexivity.
Qed.

(** The pattern of the fallback matches exactly at the occurrences. *)
Lemma match_at_keyword (kw old s : string) (b : bool) (idx : nat) :
  starts_with_name_char old = true ->
  match_at (keyword_pattern kw old) b idx s
  = match occurrence_at kw old s with
    | Some n => Some (mkMatch idx (PyStr.take n s) [])
    | None => None
    end.
Proof.
  intros Hold. unfold match_at, keyword_pattern, seqs, occurrence_at. cbv zeta.
  cbn [fold_right]. cbn [rmatch].
  destruct (PyStr.startswith kw s) eqn:Hkw; cbn [andb];
    [|rewrite rmatch_Lit_fails by exact Hkw; reflexivity].
  apply startswith_split in Hkw as [x ->]. rewrite rmatch_Lit, drop_append.
  unfold Plus. cbn [rmatch]. unfold ws at 1. cbn [rmatch rest].
  destruct x as [|c x']; [reflexivity|]. cbn [blank_run].
  destruct (PyStr.isspace c) eqn:Hc; [|reflexivity].
  cbn [Nat.ltb Nat.leb andb PyStr.drop]. unfold advance. cbn [rest].
  rewrite (star_ws_run
             (fun st' cs' => rmatch (Lit old) st' cs'
                               (fun st'' cs'' => Some (st'', cs''))))
    by (first [ intros; apply name_after_blank; assumption | lia ]).
  destruct (PyStr.startswith old (PyStr.drop (blank_run x') x')) eqn:Hname;
    [|rewrite rmatch_Lit_fails by exact Hname; reflexivity].
  apply startswith_split in Hname as [tail Htail].
  rewrite Htail, rmatch_Lit.
  assert (Hs : kw +:+ String c x'
               = (kw +:+ String c (PyStr.take (blank_run x') x') +:+ old) +:+ tail).
  { rewrite <- (take_drop (blank_run x') x') at 1. rewrite Htail.
    repeat (rewrite append_assoc || rewrite append_cons). reflexivity. }
  rewrite Hs, consumed_append.
  replace (String.length kw + S (blank_run x') + String.length old)
    with (String.length (kw +:+ String c (PyStr.take (blank_run x') x') +:+ old)).
  - rewrite take_append. reflexivity.
  - rewrite !length_append. cbn [String.length].
    rewrite length_take by apply blank_run_le. lia.
Qed.

(** [re.sub] with the pattern of the fallback is the replacement of
    the occurrences. *)
Lemma sub_from_keyword (kw old repl : string) :
  starts_with_name_char old = true ->
  forall s b skip,
    sub_from (keyword_pattern kw old) (fun _ => repl) b skip s
    = rewrite_occurrences kw old repl skip s.
Proof.
  intros Hold. induction s as [|c s IH]; intros b skip.
  - cbn [sub_from rewrite_occurrences]. destruct skip; [|reflexivity].
    rewrite match_at_keyword by exact Hold.
    destruct (occurrence_at kw old EmptyString) as [n|] eqn:E; [|reflexivity].
    apply occurrence_at_inv in E as (c & blanks & tail & Hs & _).
    destruct kw; discriminate.
  - cbn [sub_from rewrite_occurrences]. destruct skip as [|k]; [|apply IH].
    rewrite match_at_keyword by exact Hold.
    destruct (occurrence_at kw old (String c s)) as [n|] eqn:E;
      [|rewrite IH; reflexivity].
    apply occurrence_at_inv in E as (c0 & blanks & tail & Hs & _ & ->).
    cbn [m_text]. rewrite Hs.
    replace (kw +:+ String c0 blanks +:+ old +:+ tail)
      with ((kw +:+ String c0 blanks +:+ old) +:+ tail)
      by (repeat (rewrite append_assoc || rewrite append_cons); reflexivity).
    replace (String.length kw + S (String.length blanks) + String.length old)
      with (String.length (kw +:+ String c0 blanks +:+ old))
      by (rewrite !length_append; cbn [String.length]; lia).
    rewrite take_append.
    destruct (String.length (kw +:+ String c0 blanks +:+ old)) as [|k] eqn:Hlen.
    + rewrite !length_append in Hlen. cbn [String.length] in Hlen. lia.
    + rewrite IH. cbn [Nat.sub]. rewrite Nat.sub_0_r. reflexivity.
Qed.

Lemma blank_run_app (blanks x : string) :
  blank_run blanks = String.length blanks ->
  blank_run (blanks +:+ x) = String.length blanks + blank_run x.
Proof.
  induction blanks as [|c blanks IH]; [reflexivity|].
  rewrite append_cons. cbn [blank_run String.length].
  destruct (PyStr.isspace c); [|discriminate].
  intros [= H]. rewrite IH by exact H. reflexivity.
Qed.

Lemma blank_run_name (old tail : string) :
  starts_with_name_char old = true -> blank_run (old +:+ tail) = 0.
Proof.
  destruct old as [|o old']; [discriminate|]. cbn [starts_with_name_char].
  intros H. apply negb_true_iff in H. rewrite append_cons. cbn [blank_run].
  rewrite H. reflexivity.
Qed.

(** Keyword, white space and name are an occurrence whatever follows
    the name. *)
Lemma occurrence_whatever_follows (kw old blanks tail : string) :
  starts_with_name_char old = true ->
  blanks <> EmptyString ->
  blank_run blanks = String.length blanks ->
  occurrence_at kw old (kw +:+ blanks +:+ old +:+ tail)
  = Some (String.length (kw +:+ blanks +:+ old)).
Proof.
  intros Hold Hne Hblanks. unfold occurrence_at. cbv zeta.
  rewrite startswith_append, drop_append, blank_run_app by exact Hblanks.
  rewrite blank_run_name by exact Hold. rewrite Nat.add_0_r.
  rewrite drop_append, startswith_append.
  destruct blanks as [|c blanks]; [contradiction|].
  cbn [String.length Nat.ltb Nat.leb andb]. rewrite !length_append.
  cbn [String.length]. f_equal. lia.
Qed.

Lemma contains_backslash_after (pre new : string) :
  PyStr.contains (String PyPath.backslash EmptyString) pre = false ->
  PyStr.contains (String PyPath.backslash EmptyString) (pre +:+ new)
  = PyStr.contains (String PyPath.backslash EmptyString) new.
Proof.
  induction pre as [|c pre IH]; [reflexivity|].
  rewrite append_cons. cbn [PyStr.contains PyStr.startswith].
  destruct (Ascii.eqb PyPath.backslash c); [discriminate|]. cbn [orb]. exact IH.
Qed.

(** C2, as the code has it.  On every text, each of the two
    substitutions of the fallback replaces the occurrences of the
    keyword, white space and the old name, found from the left and
    without overlap, by the keyword, one space and the new name, and
    keeps all other text; and keyword, white space and old name are
    an occurrence whatever follows the old name (here [tail]): no
    boundary is asked for after it. *)
Theorem fallback_rewrites_whatever_follows (old_ns new_ns content : string) (w : World) :
  starts_with_name_char old_ns = true ->
  PyStr.contains (String PyPath.backslash EmptyString) new_ns = false ->
  fst (re_sub (keyword_pattern "namespace" old_ns) ("namespace " +:+ new_ns) content w)
  = Ok (rewrite_occurrences "namespace" old_ns ("namespace " +:+ new_ns) 0 content)
  /\ fst (re_sub (keyword_pattern "using" old_ns) ("using " +:+ new_ns) content w)
     = Ok (rewrite_occurrences "using" old_ns ("using " +:+ new_ns) 0 content)
  /\ forall kw blanks tail,
       blanks <> EmptyString ->
       blank_run blanks = String.length blanks ->
       occurrence_at kw old_ns (kw +:+ blanks +:+ old_ns +:+ tail)
       = Some (String.length (kw +:+ blanks +:+ old_ns)).
Proof.
  intros Hold Hnew. unfold re_sub.
  rewrite (contains_backslash_after "namespace " new_ns) by reflexivity.
  rewrite (contains_backslash_after "using " new_ns) by reflexivity.
  rewrite Hnew. cbn [fst]. unfold sub, sub_with.
  rewrite !sub_from_keyword by exact Hold.
  split; [reflexivity|]. split; [reflexivity|].
  intros kw blanks tail Hne Hblanks.
  apply occurrence_whatever_follows; assumption.
Qed.

Lemma fallback_rewrites_whatever_follows_witness :
  fst (re_sub (keyword_pattern "namespace" "Old") ("namespace " +:+ "New")
         ("namespace  OldExtra; namespace Old.Sub;") app_world)
  = Ok (rewrite_occurrences "namespace" "Old" ("namespace " +:+ "New") 0
          "namespace  OldExtra; namespace Old.Sub;")
  /\ fst (re_sub (keyword_pattern "using" "Old") ("using " +:+ "New")
            ("namespace  OldExtra; namespace Old.Sub;") app_world)
     = Ok (rewrite_occurrences "using" "Old" ("using " +:+ "New") 0
             "namespace  OldExtra; namespace Old.Sub;")
  /\ forall kw blanks tail,
       blanks <> EmptyString ->
       blank_run blanks = String.length blanks ->
       occurrence_at kw "Old" (kw +:+ blanks +:+ "Old" +:+ tail)
       = Some (String.length (kw +:+ blanks +:+ "Old")).
Proof.
  apply (fallback_rewrites_whatever_follows "Old" "New"
           "namespace  OldExtra; namespace Old.Sub;" app_world); reflexivity.
Defined.

(** The replacement of the occurrences on a sample: both occurrences
    are rewritten, the blanks of the first become one space, and what
    follows the old name stays. *)
Example rewrite_occurrences_sample :
  rewrite_occurrences "namespace" "Old" "namespace New" 0
    "namespace  OldExtra; namespace Old.Sub;"
  = "namespace NewExtra; namespace New.Sub;".
Proof. vm_compute. reflexivity. Qed.

(** C2, as stated, fails: renaming [Old] to [New] in a file that only
    names [OldExtra] rewrites both lines. *)
Lemma longer_names_are_rewritten :
  fst (rename_namespace (mkEngine ["ws"] false None) ["B.cs"] "Old" "New" prefix_world)
  = Ok (mkResult true "Renamed namespace in B.cs" None)
  /\ fs prefix_world ["ws"; "B.cs"]
     = Some (File ("using OldExtra;" +:+ nl +:+ "namespace OldExtra;"))
  /\ fs (snd (rename_namespace (mkEngine ["ws"] false None) ["B.cs"] "Old" "New" prefix_world))
        ["ws"; "B.cs"]
     = Some (File ("using NewExtra;" +:+ nl +:+ "namespace NewExtra;")).
Proof. vm_compute. repeat split; reflexivity. Qed.

End MigrationEngineProps.

Module DataModelProps.
Import DataModel ProjectParser.

Lemma filter_split_perm {A : Type} (f : A -> bool) (l : list A) :
  Permutation (List.filter f l ++ List.filter (fun x => negb (f x)) l) l.
Proof.
  induction l as [|a l IH]; cbn [List.filter app]; [constructor|].
  destruct (f a); cbn [negb app].
  - constructor. exact IH.
  - rewrite <- Permutation_middle. constructor. exact IH.
Qed.

(** X1. Every project of a solution is listed by exactly one of
    [test_projects] and [source_projects]: together they are a
    rearrangement of [projects], and no project on the first list
    passes the test of the second. *)
Theorem test_and_source_projects_partition (s : Solution) :
  Permutation (test_projects s ++ source_projects s) (projects s)
  /\ length (test_projects s) + length (source_projects s) = project_count s
  /\ forall p, In p (test_projects s) -> In p (source_projects s) -> False.
Proof.
  unfold test_projects, source_projects, project_count.
  split; [apply filter_split_perm|]. split.
  - rewrite <- length_app. apply Permutation_length, filter_split_perm.
  - intros p Ht Hs. apply List.filter_In in Ht as [_ Ht], Hs as [_ Hs].
    rewrite Ht in Hs. discriminate.
Qed.

Lemma test_package_makes_test (output : option string) (pkgs : list PackageReference)
    (pkg : PackageReference) :
  In pkg pkgs -> PyStr.lower (pkg_name pkg) ∈ TEST_PACKAGES ->
  _determine_project_type output pkgs = TEST.
Proof.
  intros Hin Ht. unfold _determine_project_type. case_decide as Hne; [reflexivity|].
  exfalso.
  assert (Hx : PyStr.lower (pkg_name pkg) ∈
               (list_to_set (map (fun p => PyStr.lower (pkg_name p)) pkgs) : gset string)
               ∩ TEST_PACKAGES).
  { apply elem_of_intersection. split; [|exact Ht].
    apply elem_of_list_to_set, list_elem_of_In, in_map_iff. exists pkg.
    split; [reflexivity | exact Hin]. }
  rewrite Hne in Hx. apply not_elem_of_empty in Hx. exact Hx.
Qed.

(** X2. [_determine_project_type] answers [TEST] exactly when some
    package name, in lower case, is one of [TEST_PACKAGES]; the output
    type plays no part in that. *)
Theorem test_type_iff_test_package (output : option string) (pkgs : list PackageReference) :
  _determine_project_type output pkgs = TEST
  <-> exists pkg, In pkg pkgs /\ PyStr.lower (pkg_name pkg) ∈ TEST_PACKAGES.
Proof.
  split.
  - unfold _determine_project_type. case_decide as Hne.
    + intros _. apply set_choose_L in Hne as [x Hx].
      apply elem_of_intersection in Hx as [Hx Ht].
      apply elem_of_list_to_set, list_elem_of_In, in_map_iff in Hx as (pkg & <- & Hin).
      exists pkg. split; [exact Hin | exact Ht].
    + destruct output as [[|c o]|]; try discriminate.
      repeat (match goal with |- context [if ?b then _ else _] => destruct b end);
        discriminate.
  - intros (pkg & Hin & Ht). apply (test_package_makes_test output pkgs pkg Hin Ht).
Qed.

End DataModelProps.

Module ParsedProjectProps.
Import ET ProjectParser DataModel Samples MoreSamples.

Lemma take_nonempty (i : nat) (s : string) :
  0 < i -> 0 < String.length s -> PyStr.take i s <> EmptyString.
Proof.
  destruct i as [|i]; [lia|]. destruct s as [|c s]; cbn [String.length]; [lia|].
  intros _ _. cbn [PyStr.take]. discriminate.
Qed.

Lemma suffix_stem_nonempty (p : Path) :
  PyPath.suffix p <> EmptyString -> PyPath.stem p <> EmptyString.
Proof.
  unfold PyPath.suffix, PyPath.stem, PyPath.suffix_start.
  destruct (PyPath.rfind_dot (PyPath.path_name p)) as [i|]; [|congruence].
  destruct ((0 <? i)%nat && (i <? String.length (PyPath.path_name p) - 1)%nat) eqn:E;
    [|congruence].
  intros _. apply andb_prop in E as [H0 H1].
  apply Nat.ltb_lt in H0, H1. apply take_nonempty; lia.
Qed.

Lemma parse_inv (fs : FS) (fault : IoOp -> option Exn) (xml : string -> Element + string)
    (p : Path) (pr : Project) :
  parse fs fault xml p = Ok pr ->
  fs_stat fs fault p = Ok true
  /\ PyStr.lower (PyPath.suffix p) = ".csproj"
  /\ exists content root references,
       fs_read_bytes fs fault p = Ok content /\ xml content = inl root
       /\ _parse_project_references fs fault (Some (PyPath.parent p)) root = Ok references
       /\ pr = mkProject (PyPath.stem p) p None
                (PyStr.py_or (_get_property root "TargetFramework")
                             (_get_property root "TargetFrameworks"))
                (_determine_project_type (_get_property root "OutputType")
                                         (_parse_package_references root))
                references
                (_parse_package_references root) []
                (PyStr.py_or (_get_property root "RootNamespace") (Some (PyPath.stem p)))
                (_get_property root "OutputType").
Proof.
  unfold parse, et_parse.
  destruct (fs_stat fs fault p) as [[|]|e0]; [|discriminate|discriminate].
  destruct (String.eqb (PyStr.lower (PyPath.suffix p)) ".csproj") eqn:Es;
    cbn [negb]; [|discriminate].
  apply String.eqb_eq in Es.
  destruct (fs_read_bytes fs fault p) as [content|e]; [|discriminate].
  destruct (xml content) as [root|err] eqn:Ex; [|discriminate].
  destruct (_parse_project_references fs fault (Some (PyPath.parent p)) root)
    as [references|e] eqn:Er; [|discriminate].
  intros [= <-]. split; [reflexivity|]. split; [exact Es|].
  exists content, root, references. repeat (split; [first [reflexivity | assumption]|]).
  reflexivity.
Qed.

Lemma csproj_suffix_nonempty (p : Path) :
  PyStr.lower (PyPath.suffix p) = ".csproj" -> PyPath.suffix p <> EmptyString.
Proof. intros H E. rewrite E in H. discriminate. Qed.

(** X3. A project that [parse] returns carries the stem of the file
    name as its name, which is not empty, and the path it was asked
    about; it has no identifier and no source files; and its root
    namespace is always a non-empty text. *)
Theorem parsed_project_has_name_and_namespace
    (fs : FS) (fault : IoOp -> option Exn) (xml : string -> Element + string)
    (p : Path) (pr : Project)
    (Hparse : parse fs fault xml p = Ok pr) :
  name pr = PyPath.stem p /\ name pr <> EmptyString
  /\ path pr = p /\ guid pr = None /\ source_files pr = []
  /\ PyStr.truthy (root_namespace pr) = true.
Proof.
  apply parse_inv in Hparse as (_ & Hs & content & root & references & Hread & Hx & _ & ->).
  cbn [name path guid source_files root_namespace].
  pose proof (suffix_stem_nonempty p (csproj_suffix_nonempty p Hs)) as Hstem.
  repeat (split; [first [reflexivity | exact Hstem]|]).
  unfold PyStr.py_or. destruct (PyStr.truthy (_get_property root "RootNamespace")) eqn:E;
    [exact E|]. destruct (PyPath.stem p); [congruence | reflexivity].
Qed.

Lemma parsed_project_has_name_and_namespace_witness :
  name parsed_console = PyPath.stem ["ws"; "App"; "App.csproj"]
  /\ name parsed_console <> EmptyString
  /\ path parsed_console = ["ws"; "App"; "App.csproj"]
  /\ guid parsed_console = None /\ source_files parsed_console = []
  /\ PyStr.truthy (root_namespace parsed_console) = true.
Proof.
  apply (parsed_project_has_name_and_namespace (csproj_fs "sdk") no_fault csproj_xml
           ["ws"; "App"; "App.csproj"] parsed_console).
  vm_compute. reflexivity.
Defined.

Lemma reference_of_element_inv (fs : FS) (fault : IoOp -> option Exn) (dir : option Path)
    (elem : Element) (r : ProjectReference) :
  reference_of_element fs fault dir elem = Ok (Some r) ->
  fs_exists fs (pr_path r) = true /\ pr_name r = PyPath.stem (pr_path r).
Proof.
  unfold reference_of_element, _resolve_reference_path, fs_stat.
  destruct (get elem "Include") as [[|c i]|]; try discriminate.
  destruct dir as [dir|]; [|discriminate].
  destruct (fault (OpStat _)); [discriminate|].
  destruct (fs_exists fs _) eqn:E; [|discriminate].
  intros [= <-]. cbn [pr_path pr_name]. split; [exact E | reflexivity].
Qed.

Lemma references_of_elements_inv (fs : FS) (fault : IoOp -> option Exn) (dir : option Path)
    (elems : list Element) :
  forall references,
    references_of_elements fs fault dir elems = Ok references ->
    Forall (fun r => fs_exists fs (pr_path r) = true /\ pr_name r = PyPath.stem (pr_path r))
           references.
Proof.
  induction elems as [|elem elems IH]; intros references; cbn [references_of_elements].
  - intros [= <-]. constructor.
  - destruct (reference_of_element fs fault dir elem) as [found|e] eqn:Hel; [|discriminate].
    destruct (references_of_elements fs fault dir elems) as [rest|e]; [|discriminate].
    intros [= <-]. specialize (IH rest eq_refl).
    destruct found as [r|]; [|exact IH].
    constructor; [|exact IH]. apply (reference_of_element_inv _ _ _ _ _ Hel).
Qed.

Lemma package_of_element_inv (elem : Element) (pkg : PackageReference) :
  package_of_element elem = Some pkg ->
  get elem "Include" = Some (pkg_name pkg) /\ pkg_name pkg <> EmptyString.
Proof.
  unfold package_of_element.
  destruct (get elem "Include") as [[|c i]|]; try discriminate.
  intros [= <-]. cbn [pkg_name]. split; [reflexivity | discriminate].
Qed.

(** X4. In a project that [parse] returns, every project reference
    points to a path that exists and is named by the stem of that path,
    and every package reference has a non-empty name: references that
    do not resolve, and elements without [Include], are left out. *)
Theorem parsed_references_are_resolved
    (fs : FS) (fault : IoOp -> option Exn) (xml : string -> Element + string)
    (p : Path) (pr : Project)
    (Hparse : parse fs fault xml p = Ok pr) :
  Forall (fun r => fs_exists fs (pr_path r) = true /\ pr_name r = PyPath.stem (pr_path r))
         (project_references pr)
  /\ Forall (fun pkg => pkg_name pkg <> EmptyString) (package_references pr).
Proof.
  apply parse_inv in Hparse as (_ & _ & content & root & references & _ & _ & Hrefs & ->).
  cbn [project_references package_references]. split.
  - apply (references_of_elements_inv _ _ _ _ _ Hrefs).
  - apply List.Forall_forall. intros pkg Hin.
    unfold _parse_package_references in Hin.
    apply in_flat_map in Hin as (t & _ & Hin).
    apply list_elem_of_In, list_elem_of_omap in Hin as (elem & _ & Hel).
    apply (package_of_element_inv _ _ Hel).
Qed.

Lemma parsed_references_are_resolved_witness :
  Forall (fun r => fs_exists references_fs (pr_path r) = true
                   /\ pr_name r = PyPath.stem (pr_path r))
         (project_references parsed_with_references)
  /\ Forall (fun pkg => pkg_name pkg <> EmptyString)
            (package_references parsed_with_references).
Proof.
  apply (parsed_references_are_resolved references_fs no_fault references_xml
           ["ws"; "App"; "App.csproj"] parsed_with_references).
  vm_compute. reflexivity.
Defined.

(** X5. A parsed project counts as a test project exactly when its
    type is [TEST] or one of its packages is named [mstest] in some
    casing: the other names of the list of [is_test_project] already
    make the type [TEST]. *)
Theorem parsed_project_is_test_project
    (fs : FS) (fault : IoOp -> option Exn) (xml : string -> Element + string)
    (p : Path) (pr : Project)
    (Hparse : parse fs fault xml p = Ok pr) :
  is_test_project pr = true
  <-> (project_type pr = TEST
       \/ exists pkg, In pkg (package_references pr)
                     /\ PyStr.lower (pkg_name pkg) = "mstest").
Proof.
  apply parse_inv in Hparse as (_ & _ & content & root & references & _ & _ & _ & ->).
  unfold is_test_project. cbn [project_type package_references].
  set (pkgs := _parse_package_references root).
  set (out := _get_property root "OutputType").
  destruct (_determine_project_type out pkgs) eqn:Et; cbn [is_test_type];
    try (split; [intros _; left; reflexivity | reflexivity]).
  all: split.
  all: try (intros [Hd | (pkg & Hin & Hl)]; [discriminate|];
            apply existsb_exists; exists pkg; split; [exact Hin|];
            unfold names_test_package; rewrite Hl; reflexivity).
  all: intros Hex; right; apply existsb_exists in Hex as (pkg & Hin & Hn);
    exists pkg; split; [exact Hin|];
    unfold names_test_package in Hn;
    apply existsb_exists in Hn as (t & Ht & Heq); apply String.eqb_eq in Heq;
    cbn in Ht;
    destruct Ht as [<- | [<- | [<- | [<- | []]]]]; try exact Heq;
    exfalso;
    assert (Hx : _determine_project_type out pkgs = TEST)
      by (apply (DataModelProps.test_package_makes_test out pkgs pkg Hin);
          rewrite Heq; vm_compute; set_solver);
    congruence.
Qed.

Lemma parsed_project_is_test_project_witness :
  is_test_project parsed_with_references = true
  <-> (project_type parsed_with_references = TEST
       \/ exists pkg, In pkg (package_references parsed_with_references)
                     /\ PyStr.lower (pkg_name pkg) = "mstest").
Proof.
  apply (parsed_project_is_test_project references_fs no_fault references_xml
           ["ws"; "App"; "App.csproj"] parsed_with_references).
  vm_compute. reflexivity.
Defined.

End ParsedProjectProps.

Module EnrichProps.
Import ET ProjectParser ProjectEnrich DataModel Samples MoreSamples ParsedProjectProps.

(** X6. [enrich_project] keeps name, path, identifier and source files
    of the project it is given; a project whose path does not exist
    comes back as it is; and enriching the result again changes
    nothing. *)
Theorem enrich_project_keeps_identity
    (fs : FS) (fault : IoOp -> option Exn) (xml : string -> Element + string)
    (project enriched : Project)
    (Henrich : enrich_project fs fault xml project = Ok enriched) :
  name enriched = name project /\ path enriched = path project
  /\ guid enriched = guid project /\ source_files enriched = source_files project
  /\ (fs_exists fs (path project) = false -> enriched = project)
  /\ enrich_project fs fault xml enriched = Ok enriched.
Proof.
  unfold enrich_project in *.
  destruct (fs_stat fs fault (path project)) as [[|]|e0] eqn:Hstat; [| |discriminate].
  - destruct (parse fs fault xml (path project)) as [parsed|e] eqn:Hp; [|discriminate].
    injection Henrich as <-. cbn [name path guid source_files].
    repeat (split; [reflexivity|]). split.
    + intros Hgone. unfold fs_stat in Hstat.
      destruct (fault (OpStat (path project))); [discriminate|].
      rewrite Hgone in Hstat. discriminate.
    + rewrite Hstat, Hp. reflexivity.
  - injection Henrich as <-. repeat (split; [reflexivity|]).
    rewrite Hstat. reflexivity.
Qed.

Lemma enrich_project_keeps_identity_witness :
  name enriched_core = name listed_core /\ path enriched_core = path listed_core
  /\ guid enriched_core = guid listed_core
  /\ source_files enriched_core = source_files listed_core
  /\ (fs_exists (csproj_fs "sdk") (path listed_core) = false -> enriched_core = listed_core)
  /\ enrich_project (csproj_fs "sdk") no_fault csproj_xml enriched_core = Ok enriched_core.
Proof.
  apply (enrich_project_keeps_identity (csproj_fs "sdk") no_fault csproj_xml
           listed_core enriched_core).
  vm_compute. reflexivity.
Defined.

(** X7. A project that [parse] returned is left as it is by
    [enrich_project]. *)
Theorem enrich_after_parse_is_identity
    (fs : FS) (fault : IoOp -> option Exn) (xml : string -> Element + string)
    (p : Path) (pr : Project)
    (Hparse : parse fs fault xml p = Ok pr) :
  enrich_project fs fault xml pr = Ok pr.
Proof.
  pose proof (parse_inv _ _ _ _ _ Hparse)
    as (Hex & _ & content & root & references & _ & _ & _ & Hpr).
  assert (Hpath : path pr = p) by (rewrite Hpr; reflexivity).
  unfold enrich_project. rewrite Hpath, Hex, Hparse.
  rewrite <- Hpath. destruct pr; reflexivity.
Qed.

Lemma enrich_after_parse_is_identity_witness :
  enrich_project (csproj_fs "sdk") no_fault csproj_xml parsed_console = Ok parsed_console.
Proof.
  apply (enrich_after_parse_is_identity (csproj_fs "sdk") no_fault csproj_xml
           ["ws"; "App"; "App.csproj"] parsed_console).
  vm_compute. reflexivity.
Defined.

End EnrichProps.

Module ParsedSolutionProps.
Import Re SolutionParser DataModel Samples MoreSamples.

(** A path that the file system follows to the end is the resolved
    path. *)
Lemma follow_resolves (fs : FS) (l : list string) :
  forall here q, follow fs here l = Some q -> q = PyPath.normalize_onto here l.
Proof.
  induction l as [|x l IH]; intros here q; cbn [follow PyPath.normalize_onto].
  - intros [= <-]. reflexivity.
  - destruct (String.eqb x "..").
    + destruct (fs here) as [[|]|]; try discriminate. apply IH.
    + apply IH.
Qed.

Lemma exists_raw_resolved (fs : FS) (p : Path) :
  exists_raw fs p = true -> fs_exists fs (PyPath.resolve p) = true.
Proof.
  unfold exists_raw, PyPath.resolve.
  destruct (follow fs [] p) as [q|] eqn:E; [|discriminate].
  apply follow_resolves in E. subst q. auto.
Qed.

Lemma located_exists (fs : FS) (dir : Path) (rel : string) (p : Path) :
  located fs dir rel = Some p -> fs_exists fs p = true.
Proof.
  unfold located. cbv zeta.
  destruct (exists_raw fs (PyPath.join_raw dir _)) eqn:E1.
  - intros [= <-]. apply exists_raw_resolved. exact E1.
  - destruct (String.eqb _ EmptyString); cbn [andb]; [|discriminate].
    destruct (exists_raw fs (PyPath.with_suffix _ ".csproj")) eqn:E2; [|discriminate].
    intros [= <-]. apply exists_raw_resolved. exact E2.
Qed.

Lemma surviving_project_listed (fs : FS) (dir : Path) (m : Match) (pr : Project) :
  surviving_project fs dir m = Some pr ->
  fs_exists fs (path pr) = true
  /\ pr = new_project (name pr) (path pr) (group_or_empty m 4).
Proof.
  unfold surviving_project.
  destruct (is_solution_folder m); [discriminate|].
  destruct (located fs dir (group_or_empty m 3)) as [p|] eqn:E; [|discriminate].
  intros [= <-]. cbn [path name]. split; [|reflexivity].
  apply (located_exists _ _ _ _ E).
Qed.

Lemma parse_solution_inv (fs : FS) (fault : IoOp -> option Exn) (p : Path) (sol : Solution) :
  parse fs fault p = Ok sol ->
  exists content,
    fs_read fs fault p = Ok content
    /\ sol = mkSolution (PyPath.stem p) p (surviving_projects fs (PyPath.parent p) content).
Proof.
  unfold parse, _parse_projects.
  destruct (fs_stat fs fault p) as [[|]|e0]; [|discriminate|discriminate].
  destruct (String.eqb (PyStr.lower (PyPath.suffix p)) ".sln"); cbn [negb]; [|discriminate].
  destruct (fs_read fs fault p) as [content|e]; [|discriminate].
  destruct (SolutionParserProps.projects_of_matches_cases fs fault (PyPath.parent p)
              (finditer PROJECT_PATTERN content)) as [->|(e & q & _ & ->)]; [|discriminate].
  intros [= <-]. exists content. split; reflexivity.
Qed.

(** X8. Every project of a solution that [parse] returns has a path
    that exists and an identifier, and nothing else filled in: entries
    whose path cannot be found are left out, and type, framework and
    references wait for [enrich_project]. *)
Theorem parsed_solution_projects_exist
    (fs : FS) (fault : IoOp -> option Exn) (p : Path) (sol : Solution)
    (Hparse : parse fs fault p = Ok sol) :
  sln_name sol = PyPath.stem p /\ sln_path sol = p
  /\ Forall (fun pr => fs_exists fs (path pr) = true
                       /\ exists g, pr = new_project (name pr) (path pr) g)
            (projects sol).
Proof.
  apply parse_solution_inv in Hparse as (content & _ & ->).
  cbn [sln_name sln_path projects]. split; [reflexivity|]. split; [reflexivity|].
  apply List.Forall_forall. intros pr Hin. unfold surviving_projects in Hin.
  apply list_elem_of_In, list_elem_of_omap in Hin as (m & _ & Hm).
  apply surviving_project_listed in Hm as [Hex Hpr]. split; [exact Hex|]. eauto.
Qed.

Lemma parsed_solution_projects_exist_witness :
  sln_name parsed_app = PyPath.stem ["ws"; "App.sln"]
  /\ sln_path parsed_app = ["ws"; "App.sln"]
  /\ Forall (fun pr => fs_exists app_fs (path pr) = true
                       /\ exists g, pr = new_project (name pr) (path pr) g)
            (projects parsed_app).
Proof.
  apply (parsed_solution_projects_exist app_fs no_fault ["ws"; "App.sln"] parsed_app).
  vm_compute. reflexivity.
Defined.

(** X9. A solution as [parse] returns it has no test projects: its
    projects have neither type nor packages yet, so all of them are
    source projects, whatever their names. *)
Theorem parsed_solution_has_no_test_projects
    (fs : FS) (fault : IoOp -> option Exn) (p : Path) (sol : Solution)
    (Hparse : parse fs fault p = Ok sol) :
  test_projects sol = [] /\ source_projects sol = projects sol.
Proof.
  apply parse_solution_inv in Hparse as (content & _ & ->).
  unfold test_projects, source_projects. cbn [projects].
  assert (Hall : Forall (fun pr => is_test_project pr = false)
                        (surviving_projects fs (PyPath.parent p) content)).
  { apply List.Forall_forall. intros pr Hin. unfold surviving_projects in Hin.
    apply list_elem_of_In, list_elem_of_omap in Hin as (m & _ & Hm).
    apply surviving_project_listed in Hm as [_ ->]. reflexivity. }
  induction Hall as [|pr l Hpr _ [IH1 IH2]]; [split; reflexivity|].
  cbn [List.filter]. rewrite Hpr. cbn [negb]. split; [exact IH1 | f_equal; exact IH2].
Qed.

Lemma parsed_solution_has_no_test_projects_witness :
  test_projects parsed_app = [] /\ source_projects parsed_app = projects parsed_app.
Proof.
  apply (parsed_solution_has_no_test_projects app_fs no_fault ["ws"; "App.sln"] parsed_app).
  vm_compute. reflexivity.
Defined.

End ParsedSolutionProps.

Module ScanProps.
Import Re FileScanner FileScan DataModel Inheritance TextProps FileScannerProps.

Lemma class_of_match_fields (content : string) (ns : option string) (m : Match) :
  (exists b i s', match_at TYPE_PATTERN b i s' = Some m) ->
  exists ci, class_of_match content ns m = Ok ci
    /\ ci_name ci = group_or_empty m 2
    /\ ci_namespace ci = ns
    /\ ci_line_number ci = PyStr.count_char newline (PyStr.take (m_start m) content) + 1
    /\ tests ci = _extract_tests_for_class content (ci_name ci) (ci_line_number ci).
Proof.
  intros (b & i & s' & Hm). apply type_pattern_kind in Hm as (kw & Hkw & Hg).
  unfold class_of_match. unfold group_or_empty at 1. rewrite Hg.
  destruct (member_type_of_kind kw Hkw) as [mt ->].
  destruct (parse_inheritance mt (group m 3)) as [base ifaces].
  eexists. split; [reflexivity|]. cbn [ci_name ci_namespace ci_line_number tests].
  repeat split; reflexivity.
Qed.

Lemma extract_classes_fields (content : string) (ns : option string) :
  exists cs,
    _extract_classes content ns = Ok cs
    /\ Forall2 (fun m ci =>
                  ci_name ci = group_or_empty m 2
                  /\ ci_namespace ci = ns
                  /\ ci_line_number ci
                     = PyStr.count_char newline (PyStr.take (m_start m) content) + 1
                  /\ tests ci = _extract_tests_for_class content (ci_name ci)
                                  (ci_line_number ci))
               (finditer TYPE_PATTERN content) cs.
Proof.
  unfold _extract_classes. apply collect_all.
  eapply Forall_impl; [apply finditer_from_matches|].
  intros m Hm. apply class_of_match_fields. exact Hm.
Qed.

(** X10. [scan_file] always returns.  For a path that cannot be read
    the result is a record with the defaults.  Otherwise the record has
    one class for each match of the type pattern, in order, each with
    the name of its match and the namespace of the file, and the line
    count is the number of line breaks plus one. *)
Theorem scan_file_always_returns (fs : FS) (fault : IoOp -> option Exn) (p : Path) :
  exists fi,
    scan_file fs fault p = Ok fi
    /\ fi_path fi = p
    /\ match read_file_content fs fault p with
       | None => fi = empty_file_info p
       | Some content =>
           line_count fi = PyStr.count_char newline content + 1
           /\ fi_namespace fi = _extract_namespace content
           /\ using_directives fi = _extract_usings content
           /\ Forall2 (fun m ci => ci_name ci = group_or_empty m 2
                                   /\ ci_namespace ci = fi_namespace fi)
                      (finditer TYPE_PATTERN content) (classes fi)
       end.
Proof.
  unfold scan_file. destruct (read_file_content fs fault p) as [content|].
  - destruct (extract_classes_fields content (_extract_namespace content)) as (cs & -> & Hcs).
    eexists. split; [reflexivity|]. cbn [fi_path line_count fi_namespace classes using_directives].
    repeat (split; [reflexivity|]).
    eapply Forall2_impl; [exact Hcs|]. intros m ci (Hn & Hns & _). auto.
  - eexists. repeat split; reflexivity.
Qed.

(** The tests of a class. *)

Lemma scan_lines_after (nm : string) (class_line : nat) (lines : list string) :
  forall (line_num : nat) (in_class : bool) (brace_count : Z)
         (attrs : list (string * string)),
    (in_class = true -> class_line < line_num) ->
    Forall (fun t => class_name t = nm /\ class_line < ti_line_number t
                     /\ line_num <= ti_line_number t
                     /\ ti_line_number t < line_num + length lines)
           (scan_lines nm class_line line_num in_class brace_count attrs lines).
Proof.
  induction lines as [|line rest IH]; intros line_num in_class brace_count attrs Hin;
    cbn [scan_lines]; [constructor|].
  assert (Hweak : forall in_class' bc at',
             (in_class' = true -> class_line < S line_num) ->
             Forall (fun t => class_name t = nm /\ class_line < ti_line_number t
                              /\ line_num <= ti_line_number t
                              /\ ti_line_number t < line_num + length (line :: rest))
                    (scan_lines nm class_line (S line_num) in_class' bc at' rest)).
  { intros in_class' bc at' H. eapply Forall_impl; [apply IH; exact H|].
    cbn [length]. intros t (? & ? & ? & ?). repeat split; try assumption; lia. }
  destruct (line_num =? class_line)%nat eqn:E.
  - apply Nat.eqb_eq in E. apply Hweak. intros _. lia.
  - destruct in_class; cbn [negb].
    + specialize (Hin eq_refl).
      destruct (_ <? 0)%Z; [constructor|].
      destruct (search METHOD_PATTERN line) as [mm|].
      * destruct (attrs ++ attributes_of_line line)%list as [|a0 al] eqn:Ea.
        -- apply Hweak. intros _. lia.
        -- destruct (framework_of (a0 :: al)) as [fw theory]. constructor.
           ++ cbn [class_name ti_line_number length]. repeat split; try lia.
           ++ apply Hweak. intros _. lia.
      * apply Hweak. intros _. lia.
    + apply Hweak. intros H. discriminate.
Qed.

Lemma scan_lines_sorted (nm : string) (class_line : nat) (lines : list string) :
  forall (line_num : nat) (in_class : bool) (brace_count : Z)
         (attrs : list (string * string)),
    (in_class = true -> class_line < line_num) ->
    StronglySorted (fun a b => ti_line_number a < ti_line_number b)
                   (scan_lines nm class_line line_num in_class brace_count attrs lines).
Proof.
  induction lines as [|line rest IH]; intros line_num in_class brace_count attrs Hin;
    cbn [scan_lines]; [constructor|].
  destruct (line_num =? class_line)%nat eqn:E.
  - apply Nat.eqb_eq in E. apply IH. intros _. lia.
  - destruct in_class; cbn [negb].
    + specialize (Hin eq_refl).
      destruct (_ <? 0)%Z; [constructor|].
      destruct (search METHOD_PATTERN line) as [mm|].
      * destruct (attrs ++ attributes_of_line line)%list as [|a0 al] eqn:Ea.
        -- apply IH. intros _. lia.
        -- destruct (framework_of (a0 :: al)) as [fw theory]. constructor.
           ++ apply IH. intros _. lia.
           ++ eapply Forall_impl; [apply (scan_lines_after nm class_line rest (S line_num))|].
              ** intros _. lia.
              ** cbn [ti_line_number]. intros t (_ & _ & H & _). lia.
      * apply IH. intros _. lia.
    + apply IH. intros H. discriminate.
Qed.

Lemma split_length (sep : ascii) (s : string) :
  length (PyStr.split sep s) = PyStr.count_char sep s + 1.
Proof.
  induction s as [|c s IH]; [reflexivity|]. cbn [PyStr.split PyStr.count_char].
  rewrite (Ascii.eqb_sym sep c). destruct (Ascii.eqb c sep).
  - cbn [length]. rewrite IH. lia.
  - destruct (PyStr.split sep s) as [|w ws0]; cbn [length] in *; lia.
Qed.

(** X11. The tests found for a class carry the name of the class, lie
    on lines after the line of the class and not after the last line of
    the text, and come in the order of their lines. *)
Theorem tests_follow_their_class (content class_nm : string) (class_line : nat) :
  Forall (fun t => class_name t = class_nm
                   /\ class_line < ti_line_number t
                   /\ ti_line_number t <= PyStr.count_char newline content + 1)
         (_extract_tests_for_class content class_nm class_line)
  /\ StronglySorted (fun a b => ti_line_number a < ti_line_number b)
                    (_extract_tests_for_class content class_nm class_line).
Proof.
  unfold _extract_tests_for_class. split.
  - eapply Forall_impl; [apply scan_lines_after; discriminate|].
    intros t (Hn & Hl & _ & Hu). rewrite split_length in Hu.
    repeat split; try assumption. lia.
  - apply scan_lines_sorted. discriminate.
Qed.

(** The order of the classes. *)

Lemma match_at_start (r : regex) (b : bool) (i : nat) (s : string) (m : Match) :
  match_at r b i s = Some m -> m_start m = i.
Proof.
  unfold match_at. destruct (rmatch r _ _ _) as [[st cs]|]; [|discriminate].
  intros [= <-]. reflexivity.
Qed.

Lemma finditer_from_starts (r : regex) (s : string) :
  forall (bol : bool) (idx skip : nat),
    Forall (fun m => idx + skip <= m_start m /\ m_start m <= idx + String.length s)
           (finditer_from r bol idx skip s)
    /\ StronglySorted (fun a b => m_start a < m_start b) (finditer_from r bol idx skip s).
Proof.
  induction s as [|c s IH]; intros bol idx skip; cbn [finditer_from String.length].
  - destruct skip; [|split; constructor].
    destruct (match_at r bol idx EmptyString) as [m|] eqn:E; [|split; constructor].
    apply match_at_start in E. split; repeat constructor; lia.
  - assert (Hweak : forall b k,
               Forall (fun m => idx + S k <= m_start m /\ m_start m <= idx + S (String.length s))
                      (finditer_from r b (S idx) k s)).
    { intros b k. eapply Forall_impl; [apply (IH b (S idx) k)|].
      cbv beta. intros m [H1 H2]. lia. }
    destruct skip as [|k].
    + destruct (match_at r bol idx (String c s)) as [m|] eqn:E.
      * apply match_at_start in E. split.
        -- constructor; [lia|]. eapply Forall_impl; [apply (Hweak _ (String.length (m_text m) - 1))|].
           cbv beta. intros m' [H1 H2]. lia.
        -- constructor; [apply IH|].
           eapply Forall_impl; [apply (Hweak _ (String.length (m_text m) - 1))|].
           cbv beta. intros m' [H1 H2]. lia.
      * split; [|apply IH]. eapply Forall_impl; [apply (Hweak _ 0)|].
        cbv beta. intros m' [H1 H2]. lia.
    + split; [apply Hweak | apply IH].
Qed.

Lemma count_take_mono (c : ascii) (s : string) :
  forall n m, n <= m ->
    PyStr.count_char c (PyStr.take n s) <= PyStr.count_char c (PyStr.take m s).
Proof.
  induction s as [|d s IH]; intros [|n] [|m] H; cbn [PyStr.take PyStr.count_char]; try lia.
  specialize (IH n m). lia.
Qed.

Lemma take_all (s : string) : PyStr.take (String.length s) s = s.
Proof. induction s as [|c s IH]; cbn [String.length PyStr.take]; [reflexivity | f_equal; exact IH]. Qed.

Lemma count_take_le (c : ascii) (s : string) (n : nat) :
  PyStr.count_char c (PyStr.take n s) <= PyStr.count_char c s.
Proof.
  destruct (Nat.le_gt_cases n (String.length s)) as [H|H].
  - rewrite <- (take_all s) at 2. apply count_take_mono. exact H.
  - rewrite <- (take_all s) at 2. revert n H.
    induction s as [|d s IH]; intros [|n] H; cbn [String.length PyStr.take PyStr.count_char] in *;
      try lia.
    specialize (IH n). lia.
Qed.

Lemma sorted_through {A B : Type} (R : A -> B -> Prop) (P : A -> A -> Prop)
    (Q : B -> B -> Prop) (l : list A) (l' : list B) :
  (forall a1 a2 b1 b2, R a1 b1 -> R a2 b2 -> P a1 a2 -> Q b1 b2) ->
  Forall2 R l l' -> StronglySorted P l -> StronglySorted Q l'.
Proof.
  intros Hstep HF. induction HF as [|a b l l' Hab HF IH]; intros Hs; [constructor|].
  apply StronglySorted_inv in Hs as [Hs Hall]. constructor; [apply IH; exact Hs|].
  clear IH Hs. induction HF as [|a' b' l l' Hab' HF IH]; [constructor|].
  apply Forall_cons_1 in Hall as [Ha Hall].
  constructor; [apply (Hstep a a' b b'); assumption | apply IH; exact Hall].
Qed.

(** X12. The classes of a text are reported in the order of the text:
    their line numbers never decrease, and each lies between 1 and the
    number of lines of the text. *)
Theorem classes_are_in_text_order (content : string) (ns : option string) :
  exists cs,
    _extract_classes content ns = Ok cs
    /\ StronglySorted (fun a b => ci_line_number a <= ci_line_number b) cs
    /\ Forall (fun c => 1 <= ci_line_number c
                        /\ ci_line_number c <= PyStr.count_char newline content + 1) cs.
Proof.
  destruct (extract_classes_fields content ns) as (cs & Hcs & Hrel).
  exists cs. split; [exact Hcs|]. split.
  - eapply sorted_through; [|exact Hrel|apply (finditer_from_starts TYPE_PATTERN content)].
    cbv beta. intros m1 m2 c1 c2 (_ & _ & -> & _) (_ & _ & -> & _) Hlt.
    apply (proj1 (Nat.add_le_mono_r _ _ 1)). apply count_take_mono.
    apply Nat.lt_le_incl. exact Hlt.
  - clear Hcs. induction Hrel as [|m c ms cs (_ & _ & Hl & _) _ IH]; constructor; [|exact IH].
    rewrite Hl. split; [rewrite Nat.add_comm; apply Nat.le_add_r|].
    apply (proj1 (Nat.add_le_mono_r _ _ 1)). apply count_take_le.
Qed.

(** The inheritance clause. *)

Lemma classify_parts (mt : MemberType) (parts : list string) :
  forall (base : option string) (ifaces : list string),
    fold_left (classify_part mt) parts (base, ifaces)
    = (match base with
       | Some b => Some b
       | None => if is_class mt
                 then head (List.filter (fun p => negb (names_interface p)) parts)
                 else None
       end,
       (ifaces ++ List.filter names_interface parts)%list).
Proof.
  induction parts as [|part parts IH]; intros base ifaces; cbn [fold_left List.filter].
  - rewrite app_nil_r. destruct base; [reflexivity|]. destruct (is_class mt); reflexivity.
  - unfold classify_part at 2. fold (names_interface part).
    destruct (names_interface part); cbn [negb].
    + rewrite IH. rewrite <- app_assoc. reflexivity.
    + destruct base as [b|].
      * rewrite IH. reflexivity.
      * destruct (is_class mt) eqn:Ec; rewrite IH; try rewrite Ec; reflexivity.
Qed.

(** X13. Of the parts of an inheritance clause, those that pass the
    interface test are the interfaces, in order.  For a class the base
    is the first part that does not pass it; for every other kind of
    type there is no base, and such a part is dropped. *)
Theorem inheritance_is_split_by_the_interface_test
    (mt : MemberType) (inheritance : option string) :
  parse_inheritance mt inheritance
  = (if is_class mt
     then head (List.filter (fun p => negb (names_interface p)) (inheritance_parts inheritance))
     else None,
     List.filter names_interface (inheritance_parts inheritance)).
Proof.
  unfold parse_inheritance, inheritance_parts.
  destruct inheritance as [[|c i]|]; try (destruct (is_class mt); reflexivity).
  rewrite classify_parts. reflexivity.
Qed.

End ScanProps.

Module MatchProps.
Import Re ReShapes TextProps.

Lemma suffix_of_refl (s : string) : suffix_of s s.
Proof. exists EmptyString. reflexivity. Qed.

Lemma suffix_of_trans (a b c : string) : suffix_of a b -> suffix_of b c -> suffix_of a c.
Proof.
  intros [p ->] [q ->]. exists (q +:+ p). rewrite append_assoc. reflexivity.
Qed.

Lemma suffix_of_cons (c : ascii) (t s : string) : suffix_of t s -> suffix_of t (String c s).
Proof. intros [p ->]. exists (String c p). reflexivity. Qed.

Lemma star_loop_advances (m : Matcher) (fuel : nat) :
  advances m -> advances (star_loop m fuel).
Proof.
  intros Hm. induction fuel as [|fuel IH]; intros st cs k res H; cbn [star_loop] in H.
  - exists st, cs. split; [exact H | apply suffix_of_refl].
  - match type of H with
    | match ?x with _ => _ end = _ => destruct x as [r|] eqn:E
    end.
    + injection H as ->. apply Hm in E as (st1 & cs1 & E & Hs1).
      destruct (String.length (rest st1) <? String.length (rest st))%nat; [|discriminate].
      apply IH in E as (st2 & cs2 & E & Hs2). exists st2, cs2.
      split; [exact E | eapply suffix_of_trans; eassumption].
    + exists st, cs. split; [exact H | apply suffix_of_refl].
Qed.

Lemma rmatch_advances (r : regex) : advances (rmatch r).
Proof.
  induction r as [| p | | a IHa b IHb | a IHa b IHb | a IHa | j a IHa];
    cbn [rmatch]; intros st cs k res H.
  - exists st, cs. split; [exact H | apply suffix_of_refl].
  - destruct (rest st) as [|c s'] eqn:Er; [discriminate|].
    destruct (p c); [|discriminate].
    exists (advance c s'), cs. split; [exact H|]. cbn [advance rest].
    exists (String c EmptyString). reflexivity.
  - destruct (at_bol st); [|discriminate].
    exists st, cs. split; [exact H | apply suffix_of_refl].
  - apply IHa in H as (st1 & cs1 & H & Hs1).
    apply IHb in H as (st2 & cs2 & H & Hs2). exists st2, cs2.
    split; [exact H | eapply suffix_of_trans; eassumption].
  - destruct (rmatch a st cs k) as [r|] eqn:E.
    + injection H as ->. apply IHa in E. exact E.
    + apply IHb in H. exact H.
  - apply (star_loop_advances _ _ IHa) in H. exact H.
  - apply IHa in H as (st1 & cs1 & H & Hs1). eexists _, _. split; [exact H | exact Hs1].
Qed.

Lemma contains_here (a x : string) : PyStr.contains a (a +:+ x) = true.
Proof.
  destruct a as [|c a]; [destruct x; reflexivity|].
  rewrite append_cons. cbn [PyStr.contains].
  rewrite <- append_cons, startswith_append. reflexivity.
Qed.

Lemma contains_suffix (a t s : string) :
  suffix_of t s -> PyStr.contains a t = true -> PyStr.contains a s = true.
Proof.
  intros [pre ->] H. induction pre as [|c pre IH]; [exact H|].
  rewrite append_cons. cbn [PyStr.contains]. rewrite IH. apply orb_true_r.
Qed.

(** A match of a pattern that holds the literal [kw] after the parts
    [before] is a match in a text that contains [kw]. *)
Lemma literal_is_contained (before : list regex) (kw : string) (after : regex)
    (st : Pos) (cs : Caps) (k : Cont) (res : Res) :
  rmatch (fold_right Seq (Seq (Lit kw) after) before) st cs k = Some res ->
  PyStr.contains kw (rest st) = true.
Proof.
  revert st cs. induction before as [|r before IH]; intros st cs H; cbn [fold_right] in H.
  - cbn [rmatch] in H. apply rmatch_Lit_inv in H as (x & b & Hrest & _).
    rewrite Hrest. apply contains_here.
  - cbn [rmatch] in H. apply rmatch_advances in H as (st1 & cs1 & H & Hs).
    apply IH in H. eapply contains_suffix; eassumption.
Qed.

Lemma match_needs_literal (before : list regex) (kw : string) (after : regex)
    (b : bool) (i : nat) (s : string) (m : Match) :
  match_at (fold_right Seq (Seq (Lit kw) after) before) b i s = Some m ->
  PyStr.contains kw s = true.
Proof.
  unfold match_at.
  destruct (rmatch _ _ _ _) as [res|] eqn:E; [|discriminate]. intros _.
  apply literal_is_contained in E. exact E.
Qed.

Lemma finditer_from_suffixes (r : regex) (s : string) (bol : bool) (idx skip : nat) :
  Forall (fun m => exists b i t, suffix_of t s /\ match_at r b i t = Some m)
         (finditer_from r bol idx skip s).
Proof.
  revert bol idx skip. induction s as [|c s IH]; intros bol idx skip; cbn [finditer_from].
  - destruct skip; [|constructor].
    destruct (match_at r bol idx EmptyString) as [m|] eqn:E; constructor; [|constructor].
    exists bol, idx, EmptyString. split; [apply suffix_of_refl | exact E].
  - assert (Hweak : forall b i k,
               Forall (fun m => exists b i t, suffix_of t (String c s) /\ match_at r b i t = Some m)
                      (finditer_from r b i k s)).
    { intros b i k. eapply Forall_impl; [apply IH|]. cbv beta.
      intros m (b' & i' & t & Hs & Hm). exists b', i', t.
      split; [apply suffix_of_cons; exact Hs | exact Hm]. }
    destruct skip; [|apply Hweak].
    destruct (match_at r bol idx (String c s)) as [m|] eqn:E; [|apply Hweak].
    constructor; [|apply Hweak].
    exists bol, idx, (String c s). split; [apply suffix_of_refl | exact E].
Qed.

(** A text without the literal has no match of such a pattern. *)
Lemma finditer_needs_literal (before : list regex) (kw : string) (after : regex) (s : string) :
  PyStr.contains kw s = false ->
  finditer (fold_right Seq (Seq (Lit kw) after) before) s = [].
Proof.
  intros Hno. unfold finditer.
  pose proof (finditer_from_suffixes (fold_right Seq (Seq (Lit kw) after) before) s true 0 0)
    as Hall.
  destruct (finditer_from _ true 0 0 s) as [|m ms]; [reflexivity|].
  apply Forall_cons_1 in Hall as [(b & i & t & Hs & Hm) _].
  apply match_needs_literal in Hm. apply (contains_suffix _ _ _ Hs) in Hm. congruence.
Qed.

Lemma sub_from_no_match (r : regex) (repl : string -> string) (s : string) :
  (forall t b, suffix_of t s -> match_at r b 0 t = None) ->
  forall b, sub_from r repl b 0 s = s.
Proof.
  induction s as [|c s IH]; intros Hno b; cbn [sub_from].
  - rewrite (Hno EmptyString b (suffix_of_refl _)). reflexivity.
  - rewrite (Hno (String c s) b (suffix_of_refl _)). f_equal. apply IH.
    intros t b' Hs. apply Hno. apply suffix_of_cons. exact Hs.
Qed.

(** A substitution for such a pattern leaves a text without the
    literal as it is. *)
Lemma sub_needs_literal (before : list regex) (kw : string) (after : regex)
    (repl : string -> string) (s : string) :
  PyStr.contains kw s = false ->
  sub_with (fold_right Seq (Seq (Lit kw) after) before) repl s = s.
Proof.
  intros Hno. unfold sub_with. apply sub_from_no_match. intros t b Hs.
  destruct (match_at _ b 0 t) as [m|] eqn:E; [|reflexivity].
  apply match_needs_literal in E. apply (contains_suffix _ _ _ Hs) in E. congruence.
Qed.

End MatchProps.

Module ScanKeywordProps.
Import Re ReShapes FileScanner FileScan DataModel TextProps MatchProps.

Lemma no_namespace_match (content : string) :
  PyStr.contains "namespace" content = false ->
  finditer FILE_SCOPED_NS_PATTERN content = [] /\ finditer NAMESPACE_PATTERN content = [].
Proof.
  intros H. split.
  - exact (finditer_needs_literal [Bol; Star ws] "namespace"
             (seqs [Plus ws; Grp 1 (Plus (Chr name_char)); Star ws; Lit ";"]) content H).
  - exact (finditer_needs_literal [Bol; Star ws] "namespace"
             (seqs [Plus ws; Grp 1 (Plus (Chr name_char)); Star ws;
                    Chr (fun c => Ascii.eqb c (ch ";") || Ascii.eqb c (ch "{"))]) content H).
Qed.

Lemma no_using_match (content : string) :
  PyStr.contains "using" content = false -> finditer USING_PATTERN content = [].
Proof.
  intros H.
  exact (finditer_needs_literal [Bol; Star ws] "using"
           (seqs [Plus ws; Opt (Seq (Lit "static") (Plus ws));
                  Grp 1 (Plus (Chr name_char)); Star ws; Lit ";"]) content H).
Qed.

(** X14. A text in which the word [namespace] does not occur has no
    namespace, and a text in which the word [using] does not occur has
    no using directives. *)
Theorem namespace_and_usings_need_their_keywords (content : string) :
  (PyStr.contains "namespace" content = false -> _extract_namespace content = None)
  /\ (PyStr.contains "using" content = false -> _extract_usings content = ∅).
Proof.
  split; intros H.
  - apply no_namespace_match in H as [H1 H2].
    unfold _extract_namespace, search. rewrite H1, H2. reflexivity.
  - apply no_using_match in H. unfold _extract_usings. rewrite H. reflexivity.
Qed.

Lemma namespace_and_usings_need_their_keywords_witness :
  _extract_namespace "public class Lone { }" = None
  /\ _extract_usings "public class Lone { }" = ∅.
Proof.
  destruct (namespace_and_usings_need_their_keywords "public class Lone { }") as [H1 H2].
  split; [apply H1 | apply H2]; reflexivity.
Defined.

End ScanKeywordProps.

Module LeadingBlankProps.
Import Re ReShapes FileScanner FileScan DataModel TextProps FileScannerProps MatchProps ScanProps.

Lemma word_is_not_space (c : ascii) : PyStr.isword c = true -> PyStr.isspace c = false.
Proof.
  destruct c as [[] [] [] [] [] [] [] []]; vm_compute; congruence.
Qed.

Lemma alt_left (a b : regex) (st : Pos) (cs : Caps) (k : Cont) :
  is_Some (rmatch a st cs k) -> is_Some (rmatch (Alt a b) st cs k).
Proof. cbn [rmatch]. intros [r ->]. eauto. Qed.

Lemma alt_right (a b : regex) (st : Pos) (cs : Caps) (k : Cont) :
  rmatch a st cs k = None -> rmatch (Alt a b) st cs k = rmatch b st cs k.
Proof. cbn [rmatch]. intros ->. reflexivity. Qed.

Lemma opt_passes (a : regex) (st : Pos) (cs : Caps) (k : Cont) :
  is_Some (k st cs) -> is_Some (rmatch (Opt a) st cs k).
Proof.
  intros H. unfold Opt. cbn [rmatch]. destruct (rmatch a st cs k); [eauto | exact H].
Qed.

Lemma star_loop_passes (m : Matcher) (fuel : nat) (st : Pos) (cs : Caps) (k : Cont) :
  is_Some (k st cs) -> is_Some (star_loop m fuel st cs k).
Proof.
  intros H. destruct fuel; cbn [star_loop]; [exact H|].
  destruct (m st cs _); [eauto | exact H].
Qed.

Lemma star_loop_stays (m : Matcher) (fuel : nat) (st : Pos) (cs : Caps) (k : Cont) :
  (forall k', m st cs k' = None) -> star_loop m fuel st cs k = k st cs.
Proof.
  intros H. destruct fuel; cbn [star_loop]; [reflexivity|]. rewrite H. reflexivity.
Qed.

Lemma lit_mismatch (a c : ascii) (s r : string) (b : bool) (cs : Caps) (k : Cont) :
  Ascii.eqb a c = false -> rmatch (Lit (String a s)) (mkPos b (String c r)) cs k = None.
Proof. intros H. cbn [Lit rmatch rest]. unfold is_char. rewrite H. reflexivity. Qed.

Ltac lits_fail :=
  lazymatch goal with
  | |- rmatch (Alt _ _) _ _ _ = None =>
      rewrite alt_right; [apply lit_mismatch; reflexivity | lits_fail]
  | |- rmatch (Lit _) _ _ _ = None => apply lit_mismatch; reflexivity
  end.

Lemma star_ws_blanks (blanks : string) :
  forall (b : bool) (x : string) (cs : Caps) (k : Cont) (fuel : nat),
    PyStr.lstrip blanks = EmptyString ->
    String.length blanks <= fuel ->
    is_Some (star_loop (rmatch ws) (fuel - String.length blanks)
               (mkPos (bol_after b blanks) x) cs k) ->
    is_Some (star_loop (rmatch ws) fuel (mkPos b (blanks +:+ x)) cs k).
Proof.
  induction blanks as [|c blanks IH]; intros b x cs k fuel Hsp Hlen H.
  - cbn [String.length bol_after] in H. rewrite Nat.sub_0_r in H. exact H.
  - cbn [PyStr.lstrip] in Hsp. destruct (PyStr.isspace c) eqn:Ec; [|discriminate].
    cbn [String.length] in Hlen, H. destruct fuel as [|fuel]; [lia|].
    rewrite append_cons. cbn [star_loop]. unfold ws at 1. cbn [rmatch rest].
    rewrite Ec. unfold advance. cbn [rest String.length].
    rewrite (proj2 (Nat.ltb_lt _ _)) by lia.
    cbn [bol_after Nat.sub] in H.
    destruct (IH (Ascii.eqb c newline) x cs k fuel Hsp ltac:(lia) H) as [r ->]. eauto.
Qed.

Lemma star_ws_stops (b : bool) (c : ascii) (x : string) (cs : Caps) (k : Cont) (fuel : nat) :
  PyStr.isspace c = false ->
  star_loop (rmatch ws) fuel (mkPos b (String c x)) cs k = k (mkPos b (String c x)) cs.
Proof.
  intros H. apply star_loop_stays. intros k'. unfold ws. cbn [rmatch rest]. rewrite H.
  reflexivity.
Qed.

(** The type pattern matches at the start of a text that begins with
    blanks, the word [class], a blank and a name. *)
Lemma type_pattern_after_blanks (blanks name tail : string) (c : ascii) :
  PyStr.lstrip blanks = EmptyString ->
  PyStr.isword c = true ->
  is_Some (match_at TYPE_PATTERN true 0 (blanks +:+ "class " +:+ String c name +:+ tail)).
Proof.
  intros Hsp Hc. unfold match_at.
  match goal with
  | |- is_Some (match ?m with _ => _ end) =>
      cut (is_Some m); [intros [[st' cs] ->]; eauto|]
  end.
  unfold TYPE_PATTERN, seqs. cbn [fold_right].
  change (rmatch (Seq Bol ?r) ?st ?cs ?k) with (rmatch r st cs k).
  change (rmatch (Seq (Star ws) ?r) ?st ?cs ?k)
    with (star_loop (rmatch ws) (S (String.length (rest st))) st cs
            (fun st' cs' => rmatch r st' cs' k)).
  apply star_ws_blanks; [exact Hsp | cbn [rest]; rewrite length_append; lia |].
  change ("class " +:+ String c name +:+ tail)
    with (String "c" ("lass " +:+ String c name +:+ tail)).
  rewrite star_ws_stops by reflexivity.
  set (b0 := bol_after true blanks).
  set (body := "lass " +:+ String c name +:+ tail).
  (* no access modifier *)
  change (rmatch (Seq (Opt ?a) ?r) ?st ?cs ?k)
    with (rmatch (Alt a Eps) st cs (fun st' cs' => rmatch r st' cs' k)).
  rewrite alt_right.
  2:{ unfold ACCESS, alts. cbn [fold_left].
      change (rmatch (Seq ?a ?r) ?st ?cs ?k)
        with (rmatch a st cs (fun st' cs' => rmatch r st' cs' k)).
      lits_fail. }
  change (rmatch Eps ?st ?cs ?k) with (k st cs). cbv beta.
  (* no other modifier *)
  change (rmatch (Seq (Star ?a) ?r) ?st ?cs ?k)
    with (star_loop (rmatch a) (S (String.length (rest st))) st cs
            (fun st' cs' => rmatch r st' cs' k)).
  rewrite star_loop_stays.
  2:{ intros k'. unfold alts. cbn [fold_left].
      change (rmatch (Seq ?a ?r) ?st ?cs ?k)
        with (rmatch a st cs (fun st' cs' => rmatch r st' cs' k)).
      lits_fail. }
  (* the kind *)
  change (rmatch (Seq (Grp 1 ?a) ?r) ?st ?cs ?k)
    with (rmatch a st cs (fun st' cs' => rmatch r st' ((1, consumed st st') :: cs') k)).
  unfold alts. cbn [fold_left]. do 4 apply alt_left.
  unfold body. change (String "c" ("lass " +:+ String c name +:+ tail))
    with ("class" +:+ String " " (String c name +:+ tail)).
  rewrite rmatch_Lit.
  (* the blank and the name *)
  set (b1 := bol_after b0 "class").
  unfold Plus at 1.
  change (rmatch (Seq (Seq ws (Star ws)) ?r) ?st ?cs ?k)
    with (rmatch ws st cs
            (fun st1 cs1 =>
               star_loop (rmatch ws) (S (String.length (rest st1))) st1 cs1
                 (fun st' cs' => rmatch r st' cs' k))).
  unfold ws at 1. cbn [rmatch rest]. change (PyStr.isspace " ") with true. cbv iota.
  unfold advance. rewrite append_cons.
  rewrite star_ws_stops by (apply word_is_not_space; exact Hc).
  change (rmatch (Seq (Grp 2 ?a) ?r) ?st ?cs ?k)
    with (rmatch a st cs (fun st' cs' => rmatch r st' ((2, consumed st st') :: cs') k)).
  unfold Plus. unfold word at 1.
  change (rmatch (Seq (Chr ?p) (Star ?a)) ?st ?cs ?k)
    with (rmatch (Chr p) st cs
            (fun st1 cs1 => star_loop (rmatch a) (S (String.length (rest st1))) st1 cs1 k)).
  cbn [rmatch rest]. rewrite Hc.
  apply star_loop_passes.
  change (rmatch (Seq (Opt ?a) ?r) ?st ?cs ?k)
    with (rmatch (Opt a) st cs (fun st' cs' => rmatch r st' cs' k)).
  apply opt_passes.
  change (rmatch (Seq (Opt ?a) ?r) ?st ?cs ?k)
    with (rmatch (Opt a) st cs (fun st' cs' => rmatch r st' cs' k)).
  apply opt_passes. cbn [rmatch]. eauto.
Qed.

Lemma finditer_first (r : regex) (s : string) (m : Match) :
  match_at r true 0 s = Some m -> exists ms, finditer r s = m :: ms.
Proof.
  intros H. unfold finditer. destruct s as [|c s]; cbn [finditer_from]; rewrite H; eauto.
Qed.

(** X15. Blank lines before the first declaration of a text are not
    counted: a class that stands after any run of white space at the
    start of the text, line breaks included, is recorded on line 1. *)
Theorem leading_blank_lines_are_not_counted
    (blanks name tail : string) (c : ascii) (ns : option string) :
  PyStr.lstrip blanks = EmptyString ->
  PyStr.isword c = true ->
  exists ci cs,
    _extract_classes (blanks +:+ "class " +:+ String c name +:+ tail) ns = Ok (ci :: cs)
    /\ ci_line_number ci = 1.
Proof.
  intros Hsp Hc.
  destruct (type_pattern_after_blanks blanks name tail c Hsp Hc) as [m Hm].
  pose proof (match_at_start _ _ _ _ _ Hm) as Hstart.
  apply finditer_first in Hm as [ms Hms].
  destruct (extract_classes_fields (blanks +:+ "class " +:+ String c name +:+ tail) ns)
    as (cs & Hcs & Hrel).
  rewrite Hms in Hrel. inversion Hrel as [|m0 ci ms0 cs0 (_ & _ & Hline & _) Hrest]; subst.
  exists ci, cs0. split; [exact Hcs|]. rewrite Hline, Hstart. reflexivity.
Qed.

Lemma leading_blank_lines_are_not_counted_witness :
  exists ci cs,
    _extract_classes ((Samples.nl +:+ Samples.nl) +:+ "class " +:+ String "F" "oo" +:+ " { }") None
    = Ok (ci :: cs)
    /\ ci_line_number ci = 1.
Proof.
  apply (leading_blank_lines_are_not_counted (Samples.nl +:+ Samples.nl) "oo" " { }" "F" None);
    reflexivity.
Defined.

End LeadingBlankProps.

Module ConfinementProps.
Import MigrationEngine Confinement Samples TextProps MigrationEngineProps.
Local Open Scope list_scope.

Lemma is_prefix_spec (q p : Path) : is_prefix q p = true <-> exists r, p = (q ++ r)%list.
Proof.
  revert p. induction q as [|a q IH]; intros p; cbn [is_prefix].
  - split; [intros _; exists p; reflexivity | reflexivity].
  - destruct p as [|b p]; [split; [discriminate | intros [r Hr]; discriminate]|].
    rewrite andb_true_iff, IH. split.
    + intros [Hab [r ->]]. apply String.eqb_eq in Hab. subst b. exists r. reflexivity.
    + intros [r Hr]. injection Hr as -> ->. split; [apply String.eqb_refl | eauto].
Qed.

Lemma is_prefix_app (q r : Path) : is_prefix q (q ++ r)%list = true.
Proof. apply is_prefix_spec. eauto. Qed.

Lemma is_prefix_trans (a b c : Path) :
  is_prefix a b = true -> is_prefix b c = true -> is_prefix a c = true.
Proof.
  rewrite !is_prefix_spec. intros [r ->] [r' ->]. exists (r ++ r')%list.
  rewrite app_assoc. reflexivity.
Qed.

Lemma path_eqb_refl (p : Path) : path_eqb p p = true.
Proof. unfold path_eqb. rewrite is_prefix_refl. reflexivity. Qed.

Lemma path_eqb_neq (p q : Path) : p <> q -> path_eqb p q = false.
Proof.
  intros H. destruct (path_eqb p q) eqn:E; [|reflexivity].
  apply path_eqb_eq in E. contradiction.
Qed.

Lemma is_prefix_parent (p : Path) : is_prefix (PyPath.parent p) p = true.
Proof.
  unfold PyPath.parent. induction p as [|a p IH]; [reflexivity|].
  destruct p as [|b p]; [reflexivity|].
  change (removelast (a :: b :: p)) with (a :: removelast (b :: p)).
  cbn [is_prefix]. rewrite String.eqb_refl. exact IH.
Qed.

(** *** The rules of [confined] *)

Section Rules.
Context {keep : Path -> bool} {allowed : Event -> bool}.

Lemma confined_ret {A : Type} (a : A) : confined keep allowed (ret a).
Proof.
  intros w. split; [reflexivity|]. split; [reflexivity|].
  exists []. cbn. rewrite app_nil_r. split; reflexivity.
Qed.

Lemma confined_bind {A B : Type} (m : M A) (k : A -> M B) :
  confined keep allowed m -> (forall a, confined keep allowed (k a)) ->
  confined keep allowed (bind m k).
Proof.
  intros Hm Hk w. unfold bind.
  destruct (Hm w) as (Hh1 & Hf1 & evs1 & Hl1 & Ha1).
  destruct (m w) as [[a|e] w1]; cbn [fst snd] in *.
  - destruct (Hk a w1) as (Hh2 & Hf2 & evs2 & Hl2 & Ha2).
    split; [congruence|]. split.
    + intros q Hq. rewrite (Hf2 q Hq). apply Hf1. exact Hq.
    + exists (evs1 ++ evs2)%list. split.
      * rewrite Hl2, Hl1, app_assoc. reflexivity.
      * rewrite forallb_app, Ha1, Ha2. reflexivity.
  - split; [exact Hh1|]. split; [exact Hf1|]. exists evs1. split; assumption.
Qed.

Lemma confined_try {A : Type} (body : M A) (handler : Exn -> M A) :
  confined keep allowed body -> (forall e, confined keep allowed (handler e)) ->
  confined keep allowed (try_except body handler).
Proof.
  intros Hm Hk w. unfold try_except.
  destruct (Hm w) as (Hh1 & Hf1 & evs1 & Hl1 & Ha1).
  destruct (body w) as [[a|e] w1]; cbn [fst snd] in *.
  - split; [exact Hh1|]. split; [exact Hf1|]. exists evs1. split; assumption.
  - destruct (Hk e w1) as (Hh2 & Hf2 & evs2 & Hl2 & Ha2).
    split; [congruence|]. split.
    + intros q Hq. rewrite (Hf2 q Hq). apply Hf1. exact Hq.
    + exists (evs1 ++ evs2)%list. split.
      * rewrite Hl2, Hl1, app_assoc. reflexivity.
      * rewrite forallb_app, Ha1, Ha2. reflexivity.
Qed.

Lemma confined_if {A : Type} (b : bool) (m1 m2 : M A) :
  confined keep allowed m1 -> confined keep allowed m2 ->
  confined keep allowed (if b then m1 else m2).
Proof. destruct b; auto. Qed.

Lemma confined_path_exists (p : Path) :
  allowed (Stat p) = true -> (forall e, allowed (Failed FromFile e) = true) ->
  confined keep allowed (path_exists p).
Proof.
  intros Ha Hf w. unfold path_exists, fail, emit.
  destruct (fs_stat (fs w) (fault (host w)) p) as [found|e]; cbn [fst snd host fs log].
  - split; [reflexivity|]. split; [reflexivity|].
    exists [Stat p]. cbn [forallb]. rewrite Ha. split; reflexivity.
  - split; [reflexivity|]. split; [reflexivity|].
    exists [Stat p; Failed FromFile e]. cbn [forallb]. rewrite Ha, Hf, <- app_assoc.
    split; reflexivity.
Qed.

Lemma confined_read_text (p : Path) :
  allowed (Read p) = true -> (forall e, allowed (Failed FromFile e) = true) ->
  confined keep allowed (read_text p).
Proof.
  intros Ha Hf w. unfold read_text, fail, emit.
  destruct (fs_read (fs w) (fault (host w)) p) as [c|e]; cbn [fst snd host fs log].
  - split; [reflexivity|]. split; [reflexivity|].
    exists [Read p]. cbn [forallb]. rewrite Ha. split; reflexivity.
  - split; [reflexivity|]. split; [reflexivity|].
    exists [Read p; Failed FromFile e]. cbn [forallb]. rewrite Ha, Hf, <- app_assoc.
    split; reflexivity.
Qed.

Lemma confined_write_text (p : Path) (c : string) :
  allowed (Write p c) = true -> (forall e, allowed (Failed FromFile e) = true) ->
  (forall q, keep q = true -> path_eqb q p = false) ->
  confined keep allowed (write_text p c).
Proof.
  intros Ha Hf Hk w. unfold write_text, fail, emit, set_fs.
  assert (Hfail : forall e,
             exists evs, (log w ++ [Write p c]) ++ [Failed FromFile e] = log w ++ evs
                         /\ forallb allowed evs = true).
  { intros e. exists [Write p c; Failed FromFile e]. cbn [forallb].
    rewrite Ha, Hf, <- app_assoc. split; reflexivity. }
  destruct (fault (host w) (OpWrite p)) as [e|]; cbn [fst snd host fs log].
  { split; [reflexivity|]. split; [reflexivity|]. apply Hfail. }
  destruct (is_dir (fs w) p); cbn [fst snd host fs log].
  { split; [reflexivity|]. split; [reflexivity|]. apply Hfail. }
  destruct (is_dir (fs w) (PyPath.parent p)); cbn [fst snd host fs log].
  - split; [reflexivity|]. split.
    + intros q Hq. unfold fs_set. rewrite (Hk q Hq). reflexivity.
    + exists [Write p c]. cbn [forallb]. rewrite Ha. split; reflexivity.
  - split; [reflexivity|]. split; [reflexivity|]. apply Hfail.
Qed.

Lemma confined_re_sub (r : Re.regex) (repl content : string) :
  (forall e, allowed (Failed FromText e) = true) ->
  confined keep allowed (re_sub r repl content).
Proof.
  intros Hf w. unfold re_sub, fail, emit.
  assert (Hnone : exists evs, log w = log w ++ evs /\ forallb allowed evs = true).
  { exists []. rewrite app_nil_r. split; reflexivity. }
  destruct (PyStr.contains _ repl); cbn [fst snd host fs log].
  - destruct (re_template (host w) repl) as [f|e]; cbn [fst snd host fs log].
    + split; [reflexivity|]. split; [reflexivity|]. exact Hnone.
    + split; [reflexivity|]. split; [reflexivity|].
      exists [Failed FromText e]. cbn [forallb]. rewrite Hf. split; reflexivity.
  - split; [reflexivity|]. split; [reflexivity|]. exact Hnone.
Qed.

Lemma confined_mkdir_parents (p : Path) :
  allowed (Mkdir p) = true -> (forall e, allowed (Failed FromFile e) = true) ->
  (forall q, keep q = true -> is_prefix q p = false) ->
  confined keep allowed (mkdir_parents p).
Proof.
  intros Ha Hf Hk w. unfold mkdir_parents, fail, emit, set_fs.
  assert (Hfail : forall e,
             exists evs, (log w ++ [Mkdir p]) ++ [Failed FromFile e] = log w ++ evs
                         /\ forallb allowed evs = true).
  { intros e. exists [Mkdir p; Failed FromFile e]. cbn [forallb].
    rewrite Ha, Hf, <- app_assoc. split; reflexivity. }
  destruct (fault (host w) (OpMkdir p)) as [e|]; cbn [fst snd host fs log].
  { split; [reflexivity|]. split; [reflexivity|]. apply Hfail. }
  destruct (existsb (is_file (fs w)) (prefixes p)); cbn [fst snd host fs log].
  { split; [reflexivity|]. split; [reflexivity|]. apply Hfail. }
  split; [reflexivity|]. split.
  - intros q Hq. rewrite (Hk q Hq). reflexivity.
  - exists [Mkdir p]. cbn [forallb]. rewrite Ha. split; reflexivity.
Qed.

Lemma confined_rename (src dst : Path) :
  (forall e, allowed (Failed FromFile e) = true) ->
  (forall q, keep q = true -> is_prefix src q = false /\ is_prefix dst q = false) ->
  confined keep allowed (rename src dst).
Proof.
  intros Hf Hk w. unfold rename, fail, emit, set_fs.
  assert (Hnone : exists evs, log w = log w ++ evs /\ forallb allowed evs = true).
  { exists []. rewrite app_nil_r. split; reflexivity. }
  assert (Hfail : forall e,
             exists evs, log w ++ [Failed FromFile e] = log w ++ evs
                         /\ forallb allowed evs = true).
  { intros e. exists [Failed FromFile e]. cbn [forallb]. rewrite Hf. split; reflexivity. }
  destruct (path_eqb src dst); cbn [fst snd host fs log].
  { split; [reflexivity|]. split; [reflexivity|]. exact Hnone. }
  destruct (is_dir (fs w) src && is_prefix src dst); cbn [fst snd host fs log].
  { split; [reflexivity|]. split; [reflexivity|]. apply Hfail. }
  destruct (is_dir (fs w) src && is_file (fs w) dst); cbn [fst snd host fs log].
  { split; [reflexivity|]. split; [reflexivity|]. apply Hfail. }
  destruct (negb (is_dir (fs w) (PyPath.parent dst))); cbn [fst snd host fs log].
  { split; [reflexivity|]. split; [reflexivity|]. apply Hfail. }
  split; [reflexivity|]. split; [|exact Hnone].
  intros q Hq. unfold relocate. destruct (Hk q Hq) as [-> ->]. reflexivity.
Qed.

Lemma confined_shutil_move (src dst : Path) :
  allowed (Move src dst) = true -> (forall e, allowed (Failed FromFile e) = true) ->
  (forall q, keep q = true -> is_prefix src q = false /\ is_prefix dst q = false) ->
  confined keep allowed (shutil_move src dst).
Proof.
  intros Ha Hf Hk w. unfold shutil_move. cbv zeta.
  assert (Hstep : forall m : M unit, confined keep allowed m ->
            host (snd (m (emit (Move src dst) w))) = host w
            /\ (forall q, keep q = true -> fs (snd (m (emit (Move src dst) w))) q = fs w q)
            /\ exists evs, log (snd (m (emit (Move src dst) w))) = (log w ++ evs)%list
                           /\ forallb allowed evs = true).
  { intros m Hm. destruct (Hm (emit (Move src dst) w)) as (Hh & Hfs & evs & Hl & Hall).
    split; [exact Hh|]. split; [exact Hfs|]. exists (Move src dst :: evs).
    cbn [forallb]. rewrite Ha, Hall, Hl. unfold emit. cbn [log].
    rewrite <- app_assoc. split; reflexivity. }
  assert (Hfail : forall e, confined keep allowed (@fail unit FromFile e)).
  { intros e w0. unfold fail, emit. cbn [fst snd host fs log].
    split; [reflexivity|]. split; [reflexivity|].
    exists [Failed FromFile e]. cbn [forallb]. rewrite Hf. split; reflexivity. }
  assert (Hcarry : forall real_dst,
            (forall q, keep q = true -> is_prefix real_dst q = false) ->
            let r := match fault (host w) (OpMove src dst) with
                     | Some e =>
                         fail FromFile e
                           (set_fs (wreck (host w) src real_dst (fs w)) (emit (Move src dst) w))
                     | None => rename src real_dst (emit (Move src dst) w)
                     end in
            host (snd r) = host w
            /\ (forall q, keep q = true -> fs (snd r) q = fs w q)
            /\ exists evs, log (snd r) = (log w ++ evs)%list /\ forallb allowed evs = true).
  { intros real_dst Hreal. cbv zeta.
    destruct (fault (host w) (OpMove src dst)) as [e|].
    - unfold fail, emit, set_fs, wreck. cbn [fst snd host fs log].
      split; [reflexivity|]. split.
      + intros q Hq. destruct (Hk q Hq) as [H1 _]. rewrite H1, (Hreal q Hq). reflexivity.
      + exists [Move src dst; Failed FromFile e]. cbn [forallb].
        rewrite Ha, Hf, <- app_assoc. split; reflexivity.
    - apply Hstep, confined_rename; [exact Hf|].
      intros q Hq. split; [apply (Hk q Hq) | apply (Hreal q Hq)]. }
  destruct (negb (fs_exists (fs w) src)); [apply Hstep, Hfail|].
  destruct (is_dir (fs w) dst); [|apply Hcarry; intros q Hq; apply (Hk q Hq)].
  destruct (path_eqb src dst); [apply (Hstep (ret tt)), confined_ret|].
  destruct (fs_exists (fs w) _); [apply Hstep, Hfail|].
  apply Hcarry. intros q Hq. destruct (Hk q Hq) as [H1 H2].
  destruct (is_prefix (dst ++ [PyPath.path_name src]) q) eqn:E; [|reflexivity].
  rewrite <- H2. symmetry. eapply is_prefix_trans; [apply is_prefix_app | exact E].
Qed.

End Rules.

Lemma on_file_failed (p : Path) (e : Exn) : on_file p (Failed FromFile e) = true.
Proof. reflexivity. Qed.

Lemma on_file_failed_text (p : Path) (e : Exn) : on_file p (Failed FromText e) = true.
Proof. reflexivity. Qed.

Lemma other_than_neq (p q : Path) : other_than p q = true -> path_eqb q p = false.
Proof. unfold other_than. apply negb_true_iff. Qed.

Ltac confined_steps :=
  repeat first
    [ apply confined_ret
    | apply confined_if
    | apply confined_try; [|intros ?]
    | apply confined_bind; [|intros ?]
    | apply confined_path_exists
    | apply confined_read_text
    | apply confined_write_text
    | apply confined_re_sub
    | apply confined_mkdir_parents
    | apply confined_shutil_move
    | progress cbv zeta ].

Ltac on_file_conditions :=
  first [ apply on_file_failed | apply on_file_failed_text | apply other_than_neq
        | apply path_eqb_refl
        | (intros; reflexivity) ].

Lemma rename_fallback_confined (p a : Path) (o n : string) :
  confined (other_than a) (on_file a) (rename_fallback p a o n).
Proof. unfold rename_fallback. confined_steps; cbn [on_file]; on_file_conditions. Qed.

Lemma update_project_reference_confined (self : Engine) (p : Path) (o n : string) :
  confined (other_than (workspace_root self ++ p)) (on_file (workspace_root self ++ p))
           (update_project_reference self p o n).
Proof.
  unfold update_project_reference. confined_steps; cbn [on_file]; on_file_conditions.
Qed.

Lemma update_solution_project_path_confined (self : Engine) (p : Path) (o n : string) :
  confined (other_than (workspace_root self ++ p)) (on_file (workspace_root self ++ p))
           (update_solution_project_path self p o n).
Proof.
  unfold update_solution_project_path. confined_steps; cbn [on_file]; on_file_conditions.
Qed.

Lemma rename_without_tool_confined (self : Engine) (p : Path) (o n : string) :
  may_run_tool self (RenameNamespace p o n) = false ->
  confined (other_than (workspace_root self ++ p)) (on_file (workspace_root self ++ p))
           (rename_namespace self p o n).
Proof.
  intros Htool. unfold rename_namespace. unfold may_run_tool in Htool.
  apply confined_bind;
    [apply confined_path_exists; [apply path_eqb_refl | intros; reflexivity]|].
  intros ex.
  apply confined_if; [apply confined_ret|].
  destruct (dry_run self); [apply confined_ret|].
  destruct (_cli_path self); [discriminate|]. apply rename_fallback_confined.
Qed.

(** X16. An update of a project reference, an update of a solution
    path and a namespace rename that does not turn to the external
    tool touch one file only: every other path is left as it was, the
    host is left as it was, and the only calls made are checks, reads
    and writes of that file. *)
Theorem text_operations_touch_one_file (self : Engine) (op : Operation) (p : Path) :
  edited_file op = Some p ->
  may_run_tool self op = false ->
  confined (other_than (workspace_root self ++ p)) (on_file (workspace_root self ++ p))
           (perform self op).
Proof.
  intros Hp Htool. destruct op; cbn [edited_file] in Hp; try discriminate;
    injection Hp as ->; cbn [perform].
  - apply update_project_reference_confined.
  - apply update_solution_project_path_confined.
  - apply rename_without_tool_confined. exact Htool.
Qed.

Lemma text_operations_touch_one_file_witness :
  confined (other_than (["ws"] ++ ["App.sln"])) (on_file (["ws"] ++ ["App.sln"]))
           (perform (mkEngine ["ws"] false None)
                    (UpdateSolutionProjectPath ["App.sln"] "src/App.Core" "lib/App.Core")).
Proof.
  apply (text_operations_touch_one_file (mkEngine ["ws"] false None)
           (UpdateSolutionProjectPath ["App.sln"] "src/App.Core" "lib/App.Core") ["App.sln"]);
    reflexivity.
Defined.

Lemma apart_from_inv (src dst q : Path) :
  apart_from src dst q = true ->
  is_prefix src q = false /\ is_prefix dst q = false /\ is_prefix q dst = false.
Proof.
  unfold apart_from. rewrite !andb_true_iff, !negb_true_iff. tauto.
Qed.

Lemma apart_from_parent (src dst q : Path) :
  apart_from src dst q = true -> is_prefix q (PyPath.parent dst) = false.
Proof.
  intros H. apply apart_from_inv in H as (_ & _ & H).
  destruct (is_prefix q (PyPath.parent dst)) eqn:E; [|reflexivity].
  rewrite <- H. symmetry. eapply is_prefix_trans; [exact E | apply is_prefix_parent].
Qed.

Lemma apart_from_trees (src dst q : Path) :
  apart_from src dst q = true -> is_prefix src q = false /\ is_prefix dst q = false.
Proof. intros H. apply apart_from_inv in H. tauto. Qed.

Ltac on_move_conditions :=
  first [ apply apart_from_parent | apply apart_from_trees
        | (intros; reflexivity)
        | (rewrite !path_eqb_refl, ?orb_true_r; reflexivity) ].

Lemma move_folder_confined (self : Engine) (s t : Path) :
  confined (apart_from (workspace_root self ++ s) (workspace_root self ++ t))
           (on_move (workspace_root self ++ s) (workspace_root self ++ t))
           (move_folder self s t).
Proof. unfold move_folder. confined_steps; cbn [on_move]; on_move_conditions. Qed.

Lemma move_file_confined (self : Engine) (s t : Path) :
  confined (apart_from (workspace_root self ++ s) (workspace_root self ++ t))
           (on_move (workspace_root self ++ s) (workspace_root self ++ t))
           (move_file self s t).
Proof. unfold move_file. confined_steps; cbn [on_move]; on_move_conditions. Qed.

(** X17. A move, of a folder or of a file, changes nothing outside the
    tree of the source, the tree of the target and the directories on
    the way to the target; it leaves the host as it was; and its only
    calls are the two checks, the creation of the parent of the target
    and the move itself. *)
Theorem moves_touch_source_and_target_only
    (kind : MoveKind) (self : Engine) (s t : Path) :
  confined (apart_from (workspace_root self ++ s) (workspace_root self ++ t))
           (on_move (workspace_root self ++ s) (workspace_root self ++ t))
           (move kind self s t).
Proof.
  destruct kind; cbn [move].
  - apply move_folder_confined.
  - apply move_file_confined.
Qed.

Lemma confined_events {A : Type} (keep : Path -> bool) (allowed : Event -> bool) (m : M A)
    (w : World) (ev : Event) :
  confined keep allowed m -> In ev (events_since w (snd (m w))) -> allowed ev = true.
Proof.
  intros Hm Hin. destruct (Hm w) as (_ & _ & evs & Hl & Hall).
  unfold events_since in Hin. rewrite Hl, drop_app_length in Hin.
  rewrite forallb_forall in Hall. apply Hall. exact Hin.
Qed.

(** X18. The external tool is started only by a namespace rename of a
    live engine that found the tool: a run of any operation that
    starts a process is such a run. *)
Theorem only_a_live_rename_starts_the_tool
    (self : Engine) (op : Operation) (w : World) (cmd : list string)
    (Hspawn : In (Spawn cmd) (events_since w (snd (perform self op w)))) :
  may_run_tool self op = true.
Proof.
  destruct (may_run_tool self op) eqn:Htool; [reflexivity|]. exfalso.
  destruct op; cbn [perform] in Hspawn.
  - apply (confined_events _ _ _ _ _ (move_folder_confined self source target)) in Hspawn.
    discriminate.
  - apply (confined_events _ _ _ _ _ (move_file_confined self source target)) in Hspawn.
    discriminate.
  - apply (confined_events _ _ _ _ _
             (update_project_reference_confined self project_path old_ref new_ref))
      in Hspawn. discriminate.
  - apply (confined_events _ _ _ _ _
             (update_solution_project_path_confined self solution_path old_path new_path))
      in Hspawn. discriminate.
  - apply (confined_events _ _ _ _ _
             (rename_without_tool_confined self file_path old_namespace new_namespace Htool))
      in Hspawn. discriminate.
Qed.

Lemma only_a_live_rename_starts_the_tool_witness :
  may_run_tool (mkEngine ["ws"] false (Some cli_project)) (RenameNamespace ["A.cs"] "Old" "New")
  = true.
Proof.
  apply (only_a_live_rename_starts_the_tool (mkEngine ["ws"] false (Some cli_project))
           (RenameNamespace ["A.cs"] "Old" "New") dev_world
           ["dotnet"; "run"; "--project"; "/ws/tools/src/PythonTools/MigrationTool.Cli"; "--";
            "update-namespace"; "--file"; "/ws/A.cs"; "--old"; "Old"; "--new"; "New"]).
  vm_compute. auto.
Defined.

End ConfinementProps.

Module EngineSetupProps.
Import MigrationEngine Confinement Samples TextProps MigrationEngineProps ConfinementProps.
Local Open Scope list_scope.




(** The development checkout of the samples: the source of the tool is
    recorded after three checks; and a workspace whose name no file
    system takes: the first check raises. *)
Example new_engine_in_a_checkout :
  fst (new_engine ["ws"] false dev_world) = Ok (mkEngine ["ws"] false (Some cli_project)).
Proof. vm_compute. reflexivity. Qed.

Example new_engine_may_raise :
  exists msg, fst (new_engine [long_name] false strict_world) = Raise (mkExn OSError msg).
Proof. eexists. vm_compute. reflexivity. Qed.

End EngineSetupProps.

Module MoveProps.
Import MigrationEngine Confinement Samples MoreSamples TextProps MigrationEngineProps
       ConfinementProps.
Local Open Scope list_scope.

Lemma is_prefix_length (q p : Path) : is_prefix q p = true -> length q <= length p.
Proof. intros H. apply is_prefix_spec in H as [r ->]. rewrite length_app. lia. Qed.

Lemma is_prefix_app_same (r a b : Path) : is_prefix (r ++ a) (r ++ b) = is_prefix a b.
Proof.
  induction r as [|x r IH]; [reflexivity|]. cbn [app is_prefix].
  rewrite String.eqb_refl. exact IH.
Qed.

Lemma not_prefix_of_parent (p : Path) : p <> [] -> is_prefix p (PyPath.parent p) = false.
Proof.
  intros Hne. destruct (is_prefix p (PyPath.parent p)) eqn:E; [|reflexivity].
  apply is_prefix_length in E. unfold PyPath.parent in E.
  destruct (exists_last Hne) as (l & a & ->).
  rewrite removelast_last, length_app in E. cbn [length] in E. lia.
Qed.

Lemma prefix_of_parent (q p : Path) :
  is_prefix q p = true -> q <> p -> is_prefix q (PyPath.parent p) = true.
Proof.
  intros H Hne. apply is_prefix_spec in H as [r ->].
  destruct r as [|a r] using rev_ind; [rewrite app_nil_r in Hne; contradiction|].
  unfold PyPath.parent. rewrite app_assoc, removelast_last. apply is_prefix_app.
Qed.

Lemma prefix_in_prefixes (q p : Path) : is_prefix q p = true -> In q (prefixes p).
Proof.
  revert q. induction p as [|a p IH]; intros q H.
  - destruct q; [left; reflexivity | discriminate].
  - destruct q as [|b q]; [left; reflexivity|]. cbn [is_prefix] in H.
    apply andb_prop in H as [Hab H]. apply String.eqb_eq in Hab. subst b.
    right. apply in_map. apply IH. exact H.
Qed.

Lemma prefix_of_app_cases (a b r : Path) :
  is_prefix a (b ++ r) = true -> is_prefix a b = true \/ is_prefix b a = true.
Proof.
  revert b. induction a as [|x a IH]; intros b H; [left; reflexivity|].
  destruct b as [|y b]; [right; reflexivity|]. cbn [app is_prefix] in *.
  apply andb_prop in H as [Hxy H]. rewrite Hxy. apply String.eqb_eq in Hxy. subst y.
  rewrite String.eqb_refl. cbn [andb]. apply IH. exact H.
Qed.

Lemma mkdir_parents_ok (p : Path) (w w' : World) (u : unit) :
  mkdir_parents p w = (Ok u, w') ->
  existsb (is_file (fs w)) (prefixes p) = false
  /\ fs w' = (fun q => if is_prefix q p
                       then match fs w q with None => Some Dir | x => x end
                       else fs w q).
Proof.
  unfold mkdir_parents, fail. intros H.
  destruct (fault (host w) (OpMkdir p)); [discriminate|].
  destruct (existsb (is_file (fs w)) (prefixes p)); [discriminate|].
  injection H as _ <-. split; reflexivity.
Qed.

Lemma mkdir_parents_raise (p : Path) (w w' : World) (e : Exn) :
  mkdir_parents p w = (Raise e, w') -> fs w' = fs w.
Proof.
  unfold mkdir_parents, fail. intros H.
  destruct (fault (host w) (OpMkdir p)); [injection H as _ <-; reflexivity|].
  destruct (existsb (is_file (fs w)) (prefixes p)); [injection H as _ <-; reflexivity|].
  discriminate.
Qed.

Lemma rename_raise (src dst : Path) (w w' : World) (e : Exn) :
  rename src dst w = (Raise e, w') -> fs w' = fs w.
Proof.
  unfold rename, fail. intros H.
  repeat match type of H with
         | (if ?b then _ else _) = _ => destruct b
         end;
    try discriminate; injection H as _ <-; reflexivity.
Qed.

(** A [shutil.move] that raised has changed nothing, unless the
    environment failed it on its way: then the source and target
    trees hold what it left. *)
Lemma shutil_move_raise (src dst : Path) (w w' : World) (e : Exn) :
  shutil_move src dst w = (Raise e, w') ->
  fs w' = fs w
  \/ (fault (host w) (OpMove src dst) = Some e
      /\ exists real_dst,
           is_prefix dst real_dst = true
           /\ fs w' = wreck (host w) src real_dst (fs w)).
Proof.
  unfold shutil_move, fail. cbv zeta. intros H.
  destruct (negb (fs_exists (fs w) src)); [injection H as _ <-; left; reflexivity|].
  destruct (is_dir (fs w) dst).
  - destruct (path_eqb src dst); [discriminate|].
    destruct (fs_exists (fs w) _); [injection H as _ <-; left; reflexivity|].
    destruct (fault (host w) (OpMove src dst)) as [e0|].
    + injection H as <- <-. right. split; [reflexivity|].
      eexists. split; [apply is_prefix_app | reflexivity].
    + apply rename_raise in H. left. exact H.
  - destruct (fault (host w) (OpMove src dst)) as [e0|].
    + injection H as <- <-. right. split; [reflexivity|].
      eexists. split; [apply is_prefix_refl | reflexivity].
    + apply rename_raise in H. left. exact H.
Qed.

Lemma rename_ok (src dst : Path) (w w' : World) (u : unit) :
  rename src dst w = (Ok u, w') -> path_eqb src dst = false ->
  fs w' = relocate (fs w) src dst
  /\ (is_dir (fs w) src && is_prefix src dst) = false.
Proof.
  unfold rename, fail. intros H Hne. rewrite Hne in H.
  destruct (is_dir (fs w) src && is_prefix src dst); [discriminate|].
  destruct (is_dir (fs w) src && is_file (fs w) dst); [discriminate|].
  destruct (negb (is_dir (fs w) (PyPath.parent dst))); [discriminate|].
  injection H as _ <-. split; reflexivity.
Qed.

Lemma shutil_move_ok (src dst : Path) (w w' : World) (u : unit) :
  shutil_move src dst w = (Ok u, w') ->
  is_dir (fs w) dst = false -> path_eqb src dst = false ->
  fs w' = relocate (fs w) src dst
  /\ (is_dir (fs w) src && is_prefix src dst) = false.
Proof.
  unfold shutil_move, fail. cbv zeta. intros H Hd Hne.
  destruct (negb (fs_exists (fs w) src)); [discriminate|].
  rewrite Hd in H.
  destruct (fault (host w) (OpMove src dst)); [discriminate|].
  apply rename_ok in H; [|exact Hne]. exact H.
Qed.

(** The course of a move of the live engine that reports success. *)
Lemma live_move_inv (kind : MoveKind) (root : Path) (cli : option Path) (s t : Path)
    (w w' : World) (r : MigrationResult) :
  move kind (mkEngine root false cli) s t w = (Ok r, w') ->
  success r = true ->
  fs_exists (fs w) (root ++ s) = true
  /\ fs_exists (fs w) (root ++ t) = false
  /\ exists w0 w1 u u',
       fs w0 = fs w
       /\ mkdir_parents (PyPath.parent (root ++ t)) w0 = (Ok u, w1)
       /\ shutil_move (root ++ s) (root ++ t) w1 = (Ok u', w').
Proof.
  intros Hrun Hok. destruct w as [f l h].
  destruct kind; cbn [move] in Hrun; unfold move_folder, move_file in Hrun;
    unfold bind, try_except, ret, path_exists, fs_stat, fail, emit in Hrun;
    cbv beta iota delta [workspace_root dry_run fs log host] in Hrun;
    (destruct (fault h (OpStat (root ++ s))) eqn:Hfs; cbv beta iota in Hrun; [discriminate|]);
    (destruct (fs_exists f (root ++ s)) eqn:Hs; cbn [negb] in Hrun;
      [|injection Hrun as <- _; discriminate]);
    (destruct (fault h (OpStat (root ++ t))) eqn:Hft; cbv beta iota in Hrun; [discriminate|]);
    (destruct (fs_exists f (root ++ t)) eqn:Ht; cbv beta iota in Hrun;
      [injection Hrun as <- _; discriminate|]);
    (match type of Hrun with
     | context [mkdir_parents ?p ?w0] => destruct (mkdir_parents p w0) as [[u|e] w2] eqn:Hmk
     end; cbv beta iota in Hrun; [|injection Hrun as <- _; discriminate]);
    (match type of Hrun with
     | context [shutil_move ?a ?b ?w0] => destruct (shutil_move a b w0) as [[u'|e] w3] eqn:Hmv
     end; cbv beta iota in Hrun; [|injection Hrun as <- _; discriminate]);
    injection Hrun as _ <-; cbn [fs];
    (split; [exact Hs|]); (split; [exact Ht|]);
    eexists _, w2, u, u'; (split; [|split; [exact Hmk | exact Hmv]]); reflexivity.
Qed.

(** X20. After a move of the live engine that reports success, the
    tree that stood at the source stands at the target, entry for
    entry, and nothing is left at the source.  (The target is taken
    not to lie above the source, as it cannot in a tree in which every
    entry has its parent.) *)
Theorem live_move_carries_the_tree
    (kind : MoveKind) (root : Path) (cli : option Path) (s t : Path)
    (w w' : World) (r : MigrationResult) :
  move kind (mkEngine root false cli) s t w = (Ok r, w') ->
  success r = true ->
  is_prefix t s = false ->
  forall rest,
    fs w' (root ++ t ++ rest) = fs w (root ++ s ++ rest)
    /\ fs w' (root ++ s ++ rest) = None.
Proof.
  intros Hrun Hok Hts rest.
  apply live_move_inv in Hrun as (Hs & Ht & w0 & w1 & u & u' & Hw0 & Hmk & Hmv);
    [|exact Hok].
  rewrite !app_assoc. set (src := root ++ s) in *. set (dst := root ++ t) in *.
  assert (Hds : is_prefix dst src = false)
    by (unfold dst, src; rewrite is_prefix_app_same; exact Hts).
  assert (Hdst : dst <> []) by (intros E; rewrite E in Hds; discriminate).
  apply mkdir_parents_ok in Hmk as [Hfiles Hf1]. rewrite Hw0 in Hfiles, Hf1.
  assert (Hne : path_eqb src dst = false).
  { destruct (path_eqb src dst) eqn:E; [|reflexivity].
    apply path_eqb_eq in E. rewrite E in Hs. congruence. }
  assert (Hdir : is_dir (fs w1) dst = false).
  { unfold is_dir. rewrite Hf1, (not_prefix_of_parent dst Hdst).
    unfold fs_exists in Ht. destruct (fs w dst); [discriminate | reflexivity]. }
  apply shutil_move_ok in Hmv as [Hf2 Hnot]; [|exact Hdir|exact Hne].
  assert (Hsrc1 : fs w1 src = fs w src).
  { rewrite Hf1. destruct (is_prefix src (PyPath.parent dst)); [|reflexivity].
    unfold fs_exists in Hs. destruct (fs w src); [reflexivity | discriminate]. }
  assert (Hsd : is_prefix src dst = false).
  { destruct (is_prefix src dst) eqn:E; [|reflexivity]. exfalso.
    rewrite andb_true_r in Hnot. unfold is_dir in Hnot. rewrite Hsrc1 in Hnot.
    assert (Hin : In src (prefixes (PyPath.parent dst))).
    { apply prefix_in_prefixes, prefix_of_parent; [exact E|].
      intros Heq. rewrite Heq, path_eqb_refl in Hne. discriminate. }
    assert (Hfile : is_file (fs w) src = true).
    { unfold is_file. unfold fs_exists in Hs.
      destruct (fs w src) as [[c|]|]; try discriminate. reflexivity. }
    assert (Hex : existsb (is_file (fs w)) (prefixes (PyPath.parent dst)) = true)
      by (apply existsb_exists; eauto).
    congruence. }
  rewrite Hf2. unfold relocate. split.
  - destruct (is_prefix src (dst ++ rest)) eqn:E.
    { apply prefix_of_app_cases in E as [E|E]; congruence. }
    rewrite is_prefix_app, drop_app_length, Hf1.
    destruct (is_prefix (src ++ rest) (PyPath.parent dst)) eqn:E2; [|reflexivity].
    exfalso. assert (is_prefix src dst = true); [|congruence].
    eapply is_prefix_trans; [apply is_prefix_app|].
    eapply is_prefix_trans; [exact E2 | apply is_prefix_parent].
  - rewrite is_prefix_app. reflexivity.
Qed.

Lemma live_move_carries_the_tree_witness :
  fs (snd (move Folder (mkEngine ["ws"] false None) ["src"] ["lib"; "src"] app_world))
     (["ws"] ++ ["lib"; "src"] ++ ["App.Core"; "App.Core.csproj"])
  = fs app_world (["ws"] ++ ["src"] ++ ["App.Core"; "App.Core.csproj"])
  /\ fs (snd (move Folder (mkEngine ["ws"] false None) ["src"] ["lib"; "src"] app_world))
        (["ws"] ++ ["src"] ++ ["App.Core"; "App.Core.csproj"]) = None.
Proof.
  apply (live_move_carries_the_tree Folder ["ws"] None ["src"] ["lib"; "src"] app_world _
           (mkResult true "Moved: src -> lib/src" None)).
  - vm_compute. reflexivity.
  - reflexivity.
  - reflexivity.
Defined.

(** X21. A move that reports failure has lost nothing, unless the
    environment failed [shutil.move] itself on its way.  Every path
    holds what it held, or is a directory on the way to the target
    that was made where nothing was; or else the environment failed
    the move, and the path lies in the tree of the source or of the
    target. *)
Theorem failed_move_loses_nothing
    (kind : MoveKind) (self : Engine) (s t : Path) (w w' : World) (r : MigrationResult) :
  move kind self s t w = (Ok r, w') ->
  success r = false ->
  forall q,
    fs w' q = fs w q
    \/ (fs w q = None /\ fs w' q = Some Dir
        /\ is_prefix q (PyPath.parent (workspace_root self ++ t)) = true)
    \/ ((exists e, fault (host w)
                     (OpMove (workspace_root self ++ s) (workspace_root self ++ t)) = Some e)
        /\ (is_prefix (workspace_root self ++ s) q
            || is_prefix (workspace_root self ++ t) q) = true).
Proof.
  intros Hrun Hfail q. destruct w as [f l h]. destruct self as [root dry cli].
  assert (Hmade : forall l0 w2 u,
            mkdir_parents (PyPath.parent (root ++ t)) (mkWorld f l0 h) = (Ok u, w2) ->
            fs w2 q = f q
            \/ (f q = None /\ fs w2 q = Some Dir
                /\ is_prefix q (PyPath.parent (root ++ t)) = true)).
  { intros l0 w2 u Hmk. apply mkdir_parents_ok in Hmk as [_ Hf1].
    rewrite Hf1. cbn [fs].
    destruct (is_prefix q (PyPath.parent (root ++ t))); [|left; reflexivity].
    destruct (f q); [left; reflexivity | right; repeat split; reflexivity]. }
  destruct kind; cbn [move] in Hrun; unfold move_folder, move_file in Hrun;
    unfold bind, try_except, ret, path_exists, fs_stat, fail, emit in Hrun;
    cbv beta iota delta [workspace_root dry_run fs log host] in Hrun;
    (destruct (fault h (OpStat (root ++ s))) eqn:Hfs; cbv beta iota in Hrun; [discriminate|]);
    (destruct (fs_exists f (root ++ s)) eqn:Hs; cbn [negb] in Hrun;
      [|injection Hrun as _ <-; left; reflexivity]);
    (destruct (fault h (OpStat (root ++ t))) eqn:Hft; cbv beta iota in Hrun; [discriminate|]);
    (destruct (fs_exists f (root ++ t)) eqn:Ht; cbv beta iota in Hrun;
      [injection Hrun as _ <-; left; reflexivity|]);
    (destruct dry; [injection Hrun as <- _; discriminate|]);
    (match type of Hrun with
     | context [mkdir_parents ?p ?w0] => destruct (mkdir_parents p w0) as [[u|e] w2] eqn:Hmk
     end; cbv beta iota in Hrun;
     [|injection Hrun as _ <-; apply mkdir_parents_raise in Hmk; rewrite Hmk; left; reflexivity]);
    (match type of Hrun with
     | context [shutil_move ?a ?b ?w0] => destruct (shutil_move a b w0) as [[u'|e] w3] eqn:Hmv
     end; cbv beta iota in Hrun; [injection Hrun as <- _; discriminate|]);
    injection Hrun as _ <-; cbn [fs host workspace_root];
    pose proof (mkdir_parents_host _ _ _ _ Hmk) as Hhost; cbn [host] in Hhost;
    apply shutil_move_raise in Hmv as [Hmv | (Hfault & real_dst & Hreal & Hmv)];
    rewrite Hmv.
  1, 3: destruct (Hmade _ _ _ Hmk) as [H|H]; [left; exact H | right; left; exact H].
  all: unfold wreck;
    destruct (is_prefix (root ++ s) q || is_prefix real_dst q) eqn:E;
    [ right; right; rewrite Hhost in Hfault; split; [eauto|];
      apply orb_true_iff in E as [E|E]; [rewrite E; reflexivity|];
      rewrite (is_prefix_trans _ _ _ Hreal E); apply orb_true_r
    | destruct (Hmade _ _ _ Hmk) as [H|H]; [left; exact H | right; left; exact H] ].
Qed.

Lemma failed_move_loses_nothing_witness :
  fs (snd (move Folder (mkEngine ["ws"] false None) ["src"] ["lib"] interrupted_world))
     ["ws"; "lib"; "App.Core"; "App.Core.csproj"]
  = fs interrupted_world ["ws"; "lib"; "App.Core"; "App.Core.csproj"]
  \/ (fs interrupted_world ["ws"; "lib"; "App.Core"; "App.Core.csproj"] = None
      /\ fs (snd (move Folder (mkEngine ["ws"] false None) ["src"] ["lib"] interrupted_world))
            ["ws"; "lib"; "App.Core"; "App.Core.csproj"] = Some Dir
      /\ is_prefix ["ws"; "lib"; "App.Core"; "App.Core.csproj"]
            (PyPath.parent (workspace_root (mkEngine ["ws"] false None) ++ ["lib"])) = true)
  \/ ((exists e,
         fault (host interrupted_world)
           (OpMove (workspace_root (mkEngine ["ws"] false None) ++ ["src"])
                   (workspace_root (mkEngine ["ws"] false None) ++ ["lib"])) = Some e)
      /\ (is_prefix (workspace_root (mkEngine ["ws"] false None) ++ ["src"])
                    ["ws"; "lib"; "App.Core"; "App.Core.csproj"]
          || is_prefix (workspace_root (mkEngine ["ws"] false None) ++ ["lib"])
                       ["ws"; "lib"; "App.Core"; "App.Core.csproj"]) = true).
Proof.
  apply (failed_move_loses_nothing Folder (mkEngine ["ws"] false None) ["src"] ["lib"]
           interrupted_world _
           (mkResult false "Failed to move folder: [Errno 13] Permission denied: '/ws/src'" None)).
  - vm_compute. reflexivity.
  - reflexivity.
Defined.

(** The move of the witness was failed on its way: it reports the
    failure, the copy stands at the target and the source is still
    there. *)
Example interrupted_move_leaves_a_copy :
  let w' := snd (move Folder (mkEngine ["ws"] false None) ["src"] ["lib"] interrupted_world) in
  fs interrupted_world ["ws"; "lib"; "App.Core"; "App.Core.csproj"] = None
  /\ fs w' ["ws"; "lib"; "App.Core"; "App.Core.csproj"] = Some (File "<Project/>")
  /\ fs w' ["ws"; "src"; "App.Core"; "App.Core.csproj"] = Some (File "<Project/>").
Proof. vm_compute. repeat split; reflexivity. Qed.

End MoveProps.

Module TextUpdateProps.
Import MigrationEngine Confinement Samples MoreSamples TextProps MigrationEngineProps
       ConfinementProps
       MatchProps.
Local Open Scope list_scope.

(** What a read that succeeded says of the file. *)
Lemma fs_read_ok (f : FS) (fault : IoOp -> option Exn) (p : Path) (content : string) :
  fs_read f fault p = Ok content ->
  fault (OpStat p) = None
  /\ exists raw, f p = Some (File raw) /\ content = PyStr.universal_newlines raw.
Proof.
  unfold fs_read, fs_read_bytes.
  destruct (fault (OpStat p)); [discriminate|].
  destruct (fault (OpRead p)); [discriminate|].
  destruct (f p) as [[raw|]|]; try discriminate.
  intros [= <-]. split; [reflexivity|]. exists raw. split; reflexivity.
Qed.

Lemma read_text_ok (p : Path) (w w' : World) (content : string) :
  read_text p w = (Ok content, w') ->
  fs_read (fs w) (fault (host w)) p = Ok content /\ fs w' = fs w /\ host w' = host w.
Proof.
  unfold read_text, fail.
  destruct (fs_read (fs w) (fault (host w)) p) as [c|e]; [|discriminate].
  intros [= -> <-]. repeat split; reflexivity.
Qed.

Lemma write_text_ok (p : Path) (c : string) (w w' : World) (u : unit) :
  write_text p c w = (Ok u, w') ->
  fs w' p = Some (File (PyStr.os_newlines (os_is_nt (host w)) c)).
Proof.
  unfold write_text, fail.
  destruct (fault (host w) (OpWrite p)); [discriminate|].
  destruct (is_dir (fs w) p); [discriminate|].
  destruct (is_dir (fs w) (PyPath.parent p)); [|discriminate].
  intros [= _ <-]. unfold set_fs, fs_set. cbn [fs]. rewrite path_eqb_refl. reflexivity.
Qed.

Lemma path_exists_ok (p : Path) (w w' : World) (found : bool) :
  path_exists p w = (Ok found, w') -> fs w' = fs w /\ host w' = host w.
Proof.
  unfold path_exists, fail.
  destruct (fs_stat (fs w) (fault (host w)) p); [|discriminate].
  intros [= _ <-]. split; reflexivity.
Qed.

(** X22. After an update of a project reference by the live engine
    that reports success: in the text of the file, read with
    universal newlines, every occurrence of the old reference is
    replaced by the new one; when that changes the text the file
    holds the new text, written with the line ends of the system, and
    otherwise the file is as it was. *)
Theorem successful_update_replaces_every_occurrence
    (self : Engine) (p : Path) (old_ref new_ref : string) (w w' : World)
    (r : MigrationResult) :
  update_project_reference self p old_ref new_ref w = (Ok r, w') ->
  dry_run self = false ->
  success r = true ->
  exists raw,
    fs w (workspace_root self ++ p) = Some (File raw)
    /\ fs w' (workspace_root self ++ p)
       = Some (File
           (let content := PyStr.universal_newlines raw in
            let updated := PyStr.replace old_ref new_ref content in
            if String.eqb content updated then raw
            else PyStr.os_newlines (os_is_nt (host w)) updated)).
Proof.
  intros Hrun Hdry Hok. unfold update_project_reference in Hrun. rewrite Hdry in Hrun.
  unfold bind, try_except, ret in Hrun.
  destruct (path_exists (workspace_root self ++ p) w) as [[ex|e] w0] eqn:Hex;
    [|discriminate].
  apply path_exists_ok in Hex as [Hw0 Hh0].
  destruct ex; cbn [negb] in Hrun; [|injection Hrun as <- _; discriminate].
  destruct (read_text (workspace_root self ++ p) w0) as [[content|e] w1] eqn:Hread;
    [|injection Hrun as <- _; discriminate].
  apply read_text_ok in Hread as (Hfile & Hw1 & Hh1).
  apply fs_read_ok in Hfile as (_ & raw & Hfile & ->). rewrite Hw0 in Hfile.
  exists raw. split; [exact Hfile|]. cbv zeta.
  destruct (String.eqb (PyStr.universal_newlines raw)
              (PyStr.replace old_ref new_ref (PyStr.universal_newlines raw))) eqn:Eq;
    cbn [negb] in Hrun.
  - injection Hrun as _ <-. rewrite Hw1, Hw0. exact Hfile.
  - destruct (write_text _ _ w1) as [[u|e] w2] eqn:Hwrite;
      [|injection Hrun as <- _; discriminate].
    injection Hrun as _ <-. rewrite <- Hh0, <- Hh1. apply (write_text_ok _ _ _ _ _ Hwrite).
Qed.

Lemma successful_update_replaces_every_occurrence_witness :
  exists raw,
    fs crlf_world (workspace_root (mkEngine ["ws"] false None) ++ ["App"; "App.csproj"])
    = Some (File raw)
    /\ fs (snd (update_project_reference (mkEngine ["ws"] false None) ["App"; "App.csproj"]
                  "..\Lib\Lib.csproj" "..\Core\Lib.csproj" crlf_world))
          (workspace_root (mkEngine ["ws"] false None) ++ ["App"; "App.csproj"])
       = Some (File
           (let content := PyStr.universal_newlines raw in
            let updated := PyStr.replace "..\Lib\Lib.csproj" "..\Core\Lib.csproj" content in
            if String.eqb content updated then raw
            else PyStr.os_newlines (os_is_nt (host crlf_world)) updated)).
Proof.
  apply (successful_update_replaces_every_occurrence (mkEngine ["ws"] false None)
           ["App"; "App.csproj"] "..\Lib\Lib.csproj" "..\Core\Lib.csproj" crlf_world _
           (mkResult true "Updated reference in App/App.csproj" None)).
  - vm_compute. reflexivity.
  - reflexivity.
  - reflexivity.
Defined.

(** The file of the witness has the line ends of Windows; after the
    update on a POSIX host it has those of POSIX. *)
Example update_rewrites_the_line_ends :
  fs crlf_world ["ws"; "App"; "App.csproj"]
  = Some (File ("<ProjectReference Include=" +:+ q +:+ "..\Lib\Lib.csproj" +:+ q +:+ " />"
                +:+ String PyStr.cr (String PyStr.lf EmptyString)))
  /\ fs (snd (update_project_reference (mkEngine ["ws"] false None) ["App"; "App.csproj"]
                "..\Lib\Lib.csproj" "..\Core\Lib.csproj" crlf_world))
        ["ws"; "App"; "App.csproj"]
     = Some (File ("<ProjectReference Include=" +:+ q +:+ "..\Core\Lib.csproj" +:+ q +:+ " />"
                   +:+ String PyStr.lf EmptyString)).
Proof. vm_compute. split; reflexivity. Qed.

(** The separators of a path. *)

Lemma replace_char (a b : ascii) (s : string) :
  PyStr.replace (String a EmptyString) (String b EmptyString) s
  = PyStr.smap (fun c => if Ascii.eqb a c then b else c) s.
Proof.
  unfold PyStr.replace. induction s as [|c s IH]; [reflexivity|].
  cbn [PyStr.replace_from PyStr.startswith PyStr.smap String.length Nat.sub].
  destruct (Ascii.eqb a c).
  - destruct s; cbn [PyStr.startswith]; rewrite append_cons, append_nil, IH; reflexivity.
  - rewrite IH. reflexivity.
Qed.

Lemma smap_smap (f g : ascii -> ascii) (s : string) :
  PyStr.smap f (PyStr.smap g s) = PyStr.smap (fun c => f (g c)) s.
Proof. induction s as [|c s IH]; cbn [PyStr.smap]; [reflexivity | rewrite IH; reflexivity]. Qed.

Lemma smap_ext (f g : ascii -> ascii) (s : string) :
  (forall c, f c = g c) -> PyStr.smap f s = PyStr.smap g s.
Proof.
  intros H. induction s as [|c s IH]; cbn [PyStr.smap]; [reflexivity|]. rewrite H, IH.
  reflexivity.
Qed.

Lemma replace_char_twice (a b a' b' : ascii) (s : string) :
  (forall c, (if Ascii.eqb a (if Ascii.eqb a' c then b' else c) then b
              else (if Ascii.eqb a' c then b' else c))
             = (if Ascii.eqb a c then b else c)) ->
  PyStr.replace (String a EmptyString) (String b EmptyString)
    (PyStr.replace (String a' EmptyString) (String b' EmptyString) s)
  = PyStr.replace (String a EmptyString) (String b EmptyString) s.
Proof.
  intros H. rewrite !replace_char, smap_smap. apply smap_ext. exact H.
Qed.

Ltac separator_cases :=
  intros c;
  destruct (Ascii.eqb PyPath.slash c) eqn:E1; destruct (Ascii.eqb PyPath.backslash c) eqn:E2;
  try (apply Ascii.eqb_eq in E1; subst c); try (apply Ascii.eqb_eq in E2; subst c);
  try discriminate; try reflexivity;
  rewrite ?E1, ?E2; reflexivity.

(** X23. [update_solution_project_path] does the same whichever
    separator its caller writes the two paths with: with every [/]
    made a backslash, or every backslash made a [/], the run is the
    same run. *)
Theorem solution_update_ignores_the_separator
    (self : Engine) (p : Path) (old_path new_path : string) (w : World) :
  let bsl := String PyPath.backslash EmptyString in
  update_solution_project_path self p
    (PyStr.replace "/" bsl old_path) (PyStr.replace "/" bsl new_path) w
  = update_solution_project_path self p old_path new_path w
  /\ update_solution_project_path self p
       (PyStr.replace bsl "/" old_path) (PyStr.replace bsl "/" new_path) w
     = update_solution_project_path self p old_path new_path w.
Proof.
  cbv zeta. unfold update_solution_project_path.
  change "/" with (String PyPath.slash EmptyString).
  rewrite !(replace_char_twice PyPath.slash PyPath.backslash PyPath.slash PyPath.backslash)
    by separator_cases.
  rewrite !(replace_char_twice PyPath.backslash PyPath.slash PyPath.slash PyPath.backslash)
    by separator_cases.
  rewrite !(replace_char_twice PyPath.slash PyPath.backslash PyPath.backslash PyPath.slash)
    by separator_cases.
  rewrite !(replace_char_twice PyPath.backslash PyPath.slash PyPath.backslash PyPath.slash)
    by separator_cases.
  split; reflexivity.
Qed.

(** The fallback of the namespace rename on a text without the name. *)

Lemma re_sub_needs_name (kw pre old new content : string) (w : World) :
  PyStr.contains (String PyPath.backslash EmptyString) pre = false ->
  PyStr.contains (String PyPath.backslash EmptyString) new = false ->
  PyStr.contains old content = false ->
  re_sub (keyword_pattern kw old) (pre +:+ new) content w = (Ok content, w).
Proof.
  intros Hpre Hnew Hold. unfold re_sub.
  rewrite (contains_backslash_after pre new Hpre), Hnew.
  unfold Re.sub. unfold keyword_pattern, Re.seqs.
  change (fold_right Re.Seq Re.Eps [Re.Lit kw; Re.Plus Re.ws; Re.Lit old])
    with (fold_right Re.Seq (Re.Seq (Re.Lit old) Re.Eps) [Re.Lit kw; Re.Plus Re.ws]).
  rewrite sub_needs_literal by exact Hold. reflexivity.
Qed.

(** X24. A namespace rename by a live engine without the external
    tool, to a new name without backslash, leaves a readable file
    whose text does not contain the old name as it is: it reports
    that no changes were needed, and writes nothing. *)
Theorem rename_leaves_files_without_the_name
    (root p : Path) (old_namespace new_namespace content : string) (w : World) :
  fs_read (fs w) (fault (host w)) (root ++ p) = Ok content ->
  PyStr.contains old_namespace content = false ->
  PyStr.contains (String PyPath.backslash EmptyString) new_namespace = false ->
  rename_namespace (mkEngine root false None) p old_namespace new_namespace w
  = (Ok (mkResult true ("No changes needed in " +:+ PyPath.rel_str p) None),
     mkWorld (fs w) (log w ++ [Stat (root ++ p); Read (root ++ p)]) (host w)).
Proof.
  intros Hread Hold Hnew. destruct w as [f l h]. cbn [fs host log] in *.
  pose proof (fs_read_ok _ _ _ _ Hread) as (Hstat & raw & Hfile & _).
  unfold rename_namespace, rename_fallback, bind, try_except, ret, path_exists, fs_stat, emit.
  cbv beta iota delta [workspace_root dry_run _cli_path fs log host].
  rewrite Hstat. unfold fs_exists. rewrite Hfile. cbn [negb].
  unfold read_text, emit. cbv beta iota delta [fs log host].
  rewrite Hread.
  rewrite (re_sub_needs_name "namespace" "namespace " old_namespace new_namespace content)
    by (first [reflexivity | assumption]).
  rewrite (re_sub_needs_name "using" "using " old_namespace new_namespace content)
    by (first [reflexivity | assumption]).
  rewrite String.eqb_refl. cbn [negb]. rewrite <- app_assoc. reflexivity.
Qed.

Lemma rename_leaves_files_without_the_name_witness :
  rename_namespace (mkEngine ["ws"] false None) ["A.cs"] "Other" "New" dev_world
  = (Ok (mkResult true ("No changes needed in " +:+ PyPath.rel_str ["A.cs"]) None),
     mkWorld (fs dev_world) (log dev_world ++ [Stat (["ws"] ++ ["A.cs"]); Read (["ws"] ++ ["A.cs"])])
             (host dev_world)).
Proof.
  apply (rename_leaves_files_without_the_name ["ws"] ["A.cs"] "Other" "New" "namespace Old;"
           dev_world); reflexivity.
Defined.

(** With a backslash in the new name the replacement is up to [re],
    which may refuse it before it looks at the text: the rename of
    the same file then reports a failure. *)
Example rename_with_a_bad_escape_fails :
  fst (rename_namespace (mkEngine ["ws"] false None) ["A.cs"] "Other"
         (String PyPath.backslash EmptyString) dev_world)
  = Ok (mkResult false
          "Failed to rename namespace: bad escape (end of pattern) at position 0" None).
Proof. vm_compute. reflexivity. Qed.

End TextUpdateProps.

Module FileUtilsProps.
Import MigrationEngine FileUtils FileScan Samples TextProps MigrationEngineProps ConfinementProps
       MoveProps TextUpdateProps.
Local Open Scope list_scope.

Lemma write_text_host (p : Path) (c : string) (w w' : World) (u : unit) :
  write_text p c w = (Ok u, w') -> host w' = host w.
Proof.
  unfold write_text, fail. intros H.
  destruct (fault (host w) (OpWrite p)); [discriminate|].
  destruct (is_dir (fs w) p); [discriminate|].
  destruct (is_dir (fs w) (PyPath.parent p)); [|discriminate].
  injection H as _ <-. reflexivity.
Qed.

Lemma no_cr_cons (c : ascii) (s : string) :
  PyStr.contains (String PyStr.cr EmptyString) (String c s) = false ->
  Ascii.eqb c PyStr.cr = false
  /\ PyStr.contains (String PyStr.cr EmptyString) s = false.
Proof.
  cbn [PyStr.contains PyStr.startswith]. rewrite (Ascii.eqb_sym c PyStr.cr).
  destruct (Ascii.eqb PyStr.cr c); [discriminate|]. cbn [orb]. auto.
Qed.

(** A text without carriage return is read as it is, also after it
    was written with the line ends of Windows. *)
Lemma decode_without_cr (s : string) :
  PyStr.contains (String PyStr.cr EmptyString) s = false ->
  PyStr.decode_newlines false s = s.
Proof.
  induction s as [|c s IH]; [reflexivity|]. intros H.
  apply no_cr_cons in H as [Hc H]. cbn [PyStr.decode_newlines]. rewrite Hc, (IH H).
  destruct (Ascii.eqb c PyStr.lf) eqn:E; [|reflexivity].
  apply Ascii.eqb_eq in E. subst c. reflexivity.
Qed.

Lemma decode_encode_without_cr (s : string) :
  PyStr.contains (String PyStr.cr EmptyString) s = false ->
  PyStr.decode_newlines false (PyStr.encode_newlines s) = s.
Proof.
  induction s as [|c s IH]; [reflexivity|]. intros H.
  apply no_cr_cons in H as [Hc H]. cbn [PyStr.encode_newlines].
  destruct (Ascii.eqb c PyStr.lf) eqn:E.
  - apply Ascii.eqb_eq in E. subst c. cbn. rewrite (IH H). reflexivity.
  - cbn [PyStr.decode_newlines]. rewrite Hc, E, (IH H). reflexivity.
Qed.

Lemma written_text_is_read_as_it_is (nt : bool) (s : string) :
  PyStr.contains (String PyStr.cr EmptyString) s = false ->
  PyStr.universal_newlines (PyStr.os_newlines nt s) = s.
Proof.
  intros H. unfold PyStr.universal_newlines, PyStr.os_newlines.
  destruct nt; [apply decode_encode_without_cr | apply decode_without_cr]; exact H.
Qed.

(** X25. What [write_file_content] reports as written,
    [read_file_content] reads back from the same path, when neither
    the look at the path nor the reading is refused: it reads the
    text as written with the line ends of the system and read with
    universal newlines, which is the text itself when the text holds
    no carriage return. *)
Theorem written_content_is_read_back (p : Path) (content : string) (w w' : World) :
  write_file_content p content w = (Ok true, w') ->
  fault (host w) (OpStat p) = None ->
  fault (host w) (OpRead p) = None ->
  read_file_content (fs w') (fault (host w')) p
  = Some (PyStr.universal_newlines (PyStr.os_newlines (os_is_nt (host w)) content))
  /\ (PyStr.contains (String PyStr.cr EmptyString) content = false ->
      read_file_content (fs w') (fault (host w')) p = Some content).
Proof.
  intros Hrun Hstat Hfault. unfold write_file_content, ensure_directory in Hrun.
  unfold try_except, bind, ret in Hrun.
  destruct (mkdir_parents (PyPath.parent p) w) as [[u|e] w1] eqn:Hmk; [|discriminate].
  destruct (write_text p content w1) as [[u'|e] w2] eqn:Hwr; [|discriminate].
  injection Hrun as <-.
  pose proof (write_text_ok _ _ _ _ _ Hwr) as Hfile.
  apply write_text_host in Hwr. apply mkdir_parents_host in Hmk.
  assert (Hread : read_file_content (fs w2) (fault (host w2)) p
                  = Some (PyStr.universal_newlines
                            (PyStr.os_newlines (os_is_nt (host w)) content))).
  { unfold read_file_content, fs_read, fs_read_bytes.
    rewrite Hwr, Hmk, Hstat, Hfault, Hfile. rewrite Hmk. reflexivity. }
  split; [exact Hread|].
  intros Hcr. rewrite Hread, written_text_is_read_as_it_is by exact Hcr. reflexivity.
Qed.

Lemma written_content_is_read_back_witness :
  read_file_content
    (fs (snd (write_file_content ["ws"; "notes"; "plan.txt"]
                ("first step" +:+ nl +:+ "second step") app_world)))
    (fault (host (snd (write_file_content ["ws"; "notes"; "plan.txt"]
                         ("first step" +:+ nl +:+ "second step") app_world))))
    ["ws"; "notes"; "plan.txt"]
  = Some (PyStr.universal_newlines
            (PyStr.os_newlines (os_is_nt (host app_world))
               ("first step" +:+ nl +:+ "second step")))
  /\ (PyStr.contains (String PyStr.cr EmptyString) ("first step" +:+ nl +:+ "second step")
      = false ->
      read_file_content
        (fs (snd (write_file_content ["ws"; "notes"; "plan.txt"]
                    ("first step" +:+ nl +:+ "second step") app_world)))
        (fault (host (snd (write_file_content ["ws"; "notes"; "plan.txt"]
                             ("first step" +:+ nl +:+ "second step") app_world))))
        ["ws"; "notes"; "plan.txt"]
      = Some ("first step" +:+ nl +:+ "second step")).
Proof.
  apply (written_content_is_read_back ["ws"; "notes"; "plan.txt"]
           ("first step" +:+ nl +:+ "second step") app_world).
  - vm_compute. reflexivity.
  - reflexivity.
  - reflexivity.
Defined.

(** A carriage return that was written is read as a line feed. *)
Example written_carriage_return_is_read_as_line_feed :
  fst (write_file_content ["ws"; "notes"; "plan.txt"]
         ("a" +:+ String PyStr.cr EmptyString +:+ "b") app_world) = Ok true
  /\ read_file_content
       (fs (snd (write_file_content ["ws"; "notes"; "plan.txt"]
                   ("a" +:+ String PyStr.cr EmptyString +:+ "b") app_world)))
       no_fault ["ws"; "notes"; "plan.txt"]
     = Some ("a" +:+ nl +:+ "b").
Proof. vm_compute. split; reflexivity. Qed.

(** [get_relative_path] takes the base off a path that lies under
    it, so that joining the base and the result gives the path back;
    any other path comes back as it is. *)
Lemma relative_path_takes_the_base_off (base rel p : Path) :
  get_relative_path (base ++ rel) base = rel
  /\ (base ++ get_relative_path p base = p \/ get_relative_path p base = p).
Proof.
  unfold get_relative_path, relative_to. split.
  - rewrite is_prefix_app, drop_app_length. reflexivity.
  - destruct (is_prefix base p) eqn:E; [left | right; reflexivity].
    apply is_prefix_spec in E as [r ->]. rewrite drop_app_length. reflexivity.
Qed.

End FileUtilsProps.

Module WorkspaceSearchProps.
Import MigrationEngine FileUtils WorkspaceSearch Samples MoreSamples TextProps MatchProps
       MigrationEngineProps ConfinementProps MoveProps TextUpdateProps.
Local Open Scope list_scope.

Lemma visit_reports (root : Path) (wanted : string -> bool) (csproj : Path) (w : World) :
  exists evs,
    visit root wanted csproj w
    = (Ok (reported (fs w) (fault (host w)) root wanted csproj),
       mkWorld (fs w) (log w ++ evs) (host w)).
Proof.
  destruct w as [f l h]. unfold visit, reported, try_except, bind, ret, read_text, lift, fail, emit.
  cbv beta iota delta [fs log host].
  destruct (fs_read f (fault h) csproj) as [content|e]; cbv beta iota delta [fs log host].
  - destruct (wanted content).
    + destruct (relative_to csproj root); eexists; reflexivity.
    + eexists; reflexivity.
  - eexists. rewrite <- app_assoc. reflexivity.
Qed.

Lemma visit_all_reports (root : Path) (wanted : string -> bool) (found : list Path) :
  forall w, exists evs,
    visit_all root wanted found w
    = (Ok (omap (reported (fs w) (fault (host w)) root wanted) found),
       mkWorld (fs w) (log w ++ evs) (host w)).
Proof.
  induction found as [|csproj rest IH]; intros w; cbn [visit_all omap].
  - exists []. rewrite app_nil_r. destruct w; reflexivity.
  - unfold bind. destruct (visit_reports root wanted csproj w) as [evs1 ->].
    destruct (IH (mkWorld (fs w) (log w ++ evs1) (host w))) as [evs2 ->].
    cbn [fs log host]. exists (evs1 ++ evs2). rewrite <- app_assoc. unfold ret.
    destruct (reported (fs w) (fault (host w)) root wanted csproj) eqn:E;
      simpl; rewrite E; reflexivity.
Qed.


Lemma startswith_prefix (a x s : string) :
  PyStr.startswith (a +:+ x) s = true -> PyStr.startswith a s = true.
Proof.
  revert s. induction a as [|c a IH]; intros s H; [destruct s; reflexivity|].
  rewrite append_cons in H. destruct s as [|d s]; cbn [PyStr.startswith] in *; [discriminate|].
  destruct (Ascii.eqb c d); [apply IH; exact H | discriminate].
Qed.

Lemma contains_prefix (a x s : string) :
  PyStr.contains (a +:+ x) s = true -> PyStr.contains a s = true.
Proof.
  induction s as [|c s IH]; cbn [PyStr.contains]; intros H.
  - apply orb_true_iff in H as [H|H]; [|discriminate].
    apply startswith_prefix in H. rewrite H. reflexivity.
  - apply orb_true_iff in H as [H|H].
    + apply startswith_prefix in H. rewrite H. reflexivity.
    + rewrite (IH H). apply orb_true_r.
Qed.

Lemma stem_starts_the_name (p : Path) : exists x, PyPath.path_name p = PyPath.stem p +:+ x.
Proof.
  unfold PyPath.stem. destruct (PyPath.suffix_start (PyPath.path_name p)) as [i|].
  - exists (PyStr.drop i (PyPath.path_name p)). symmetry. apply take_drop.
  - exists EmptyString. induction (PyPath.path_name p) as [|c s IH]; [reflexivity|].
    rewrite append_cons, <- IH. reflexivity.
Qed.

Lemma omap_sublist_mono {A B : Type} (f g : A -> option B) (l : list A) :
  (forall x y, f x = Some y -> g x = Some y) -> sublist (omap f l) (omap g l).
Proof.
  intros H. induction l as [|a l IH]; simpl; [constructor|].
  destruct (f a) as [y|] eqn:E.
  - rewrite (H a y E). constructor. exact IH.
  - destruct (g a); [constructor|]; exact IH.
Qed.

(** X27. Every project file that [calculate_reference_updates] lists
    for a folder is also reported by [find_affected_projects] for a
    path with the same last name, in the same order: the first looks
    for the whole name, the second for its stem only. *)
Theorem reference_updates_are_among_the_affected
    (self : Engine) (old_path new_path : string) (moved : Path) (found : list Path)
    (w : World) :
  PyPath.path_name moved = PyPath.path_name (PyPath.segments old_path) ->
  exists updates affected,
    fst (calculate_reference_updates (workspace_root self) old_path new_path found w)
    = Ok updates
    /\ fst (find_affected_projects self moved found w) = Ok affected
    /\ sublist updates affected.
Proof.
  intros Hname. unfold calculate_reference_updates, find_affected_projects.
  destruct (visit_all_reports (workspace_root self)
              (fun content =>
                 PyStr.contains (PyPath.path_name (PyPath.segments old_path)) content
                 && PyStr.contains (PyPath.path_name (PyPath.segments old_path) +:+ ".csproj")
                      content) found w) as [evs1 ->].
  destruct (visit_all_reports (workspace_root self) (PyStr.contains (PyPath.stem moved))
              found w) as [evs2 ->].
  eexists _, _. split; [reflexivity|]. split; [reflexivity|].
  apply omap_sublist_mono. intros csproj rel. unfold reported.
  destruct (fs_read (fs w) (fault (host w)) csproj) as [content|]; [|discriminate].
  destruct (PyStr.contains (PyPath.path_name (PyPath.segments old_path)) content) eqn:E;
    [|discriminate].
  destruct (stem_starts_the_name moved) as [x Hx]. rewrite <- Hname, Hx in E.
  apply contains_prefix in E. rewrite E. cbn [andb].
  match goal with
  | |- (if ?b then _ else _) = _ -> _ => destruct b
  end; [auto | discriminate].
Qed.

Lemma reference_updates_are_among_the_affected_witness :
  exists updates affected,
    fst (calculate_reference_updates (workspace_root (mkEngine ["ws"] false None))
           "Lib" "Core/Lib" [["ws"; "App"; "App.csproj"]; ["ws"; "Lib"; "Lib.csproj"]]
           reference_world)
    = Ok updates
    /\ fst (find_affected_projects (mkEngine ["ws"] false None) ["ws"; "Lib"]
              [["ws"; "App"; "App.csproj"]; ["ws"; "Lib"; "Lib.csproj"]] reference_world)
       = Ok affected
    /\ sublist updates affected.
Proof.
  apply (reference_updates_are_among_the_affected (mkEngine ["ws"] false None)
           "Lib" "Core/Lib" ["ws"; "Lib"]).
  reflexivity.
Defined.

Lemma contains_split (b c : string) :
  PyStr.contains b c = true -> exists pre post, c = pre +:+ b +:+ post.
Proof.
  induction c as [|x c IH]; cbn [PyStr.contains]; intros H.
  - apply orb_true_iff in H as [H|H]; [|discriminate].
    apply startswith_split in H as [post ->]. exists EmptyString, post. reflexivity.
  - apply orb_true_iff in H as [H|H].
    + apply startswith_split in H as [post ->]. exists EmptyString, post. reflexivity.
    + apply IH in H as (pre & post & ->). exists (String x pre), post. reflexivity.
Qed.

Lemma contains_trans (a b c : string) :
  PyStr.contains a b = true -> PyStr.contains b c = true -> PyStr.contains a c = true.
Proof.
  intros Hab Hbc. apply contains_split in Hab as (p & q & ->).
  apply contains_split in Hbc as (pre & post & ->).
  apply (contains_suffix a (a +:+ q +:+ post)); [|apply contains_here].
  exists (pre +:+ p). rewrite !append_assoc. reflexivity.
Qed.

Lemma replace_absent (old new s : string) :
  PyStr.contains old s = false -> PyStr.replace old new s = s.
Proof.
  destruct old as [|o old]; [destruct s; discriminate|].
  unfold PyStr.replace. induction s as [|c s IH]; [reflexivity|].
  intros H. change (PyStr.contains (String o old) (String c s))
    with (PyStr.startswith (String o old) (String c s) || PyStr.contains (String o old) s) in H.
  apply orb_false_iff in H as [H1 H2].
  change (PyStr.replace_from (String o old) new 0 (String c s))
    with (if PyStr.startswith (String o old) (String c s)
          then new +:+ PyStr.replace_from (String o old) new
                         (String.length (String o old) - 1) s
          else String c (PyStr.replace_from (String o old) new 0 s)).
  rewrite H1, (IH H2). reflexivity.
Qed.

(** X28. A project file that the walk yields and that can be read, but
    that [find_affected_projects] does not report for a moved path,
    needs no update: for an old reference that contains the stem of
    the moved path, [update_project_reference] of the live engine
    reports that no changes were needed. *)
Theorem unreported_projects_need_no_update
    (self : Engine) (moved : Path) (found : list Path) (w w1 : World)
    (affected : list Path) (rel : Path) (content old_ref new_ref : string) :
  find_affected_projects self moved found w = (Ok affected, w1) ->
  In (workspace_root self ++ rel) found ->
  ~ In rel affected ->
  fs_read (fs w) (fault (host w)) (workspace_root self ++ rel) = Ok content ->
  PyStr.contains (PyPath.stem moved) old_ref = true ->
  dry_run self = false ->
  fst (update_project_reference self rel old_ref new_ref w1)
  = Ok (mkResult true ("No changes needed in " +:+ PyPath.rel_str rel) None).
Proof.
  intros Hfind Hin Hnot Hread Hstem Hdry. destruct w as [f l h]. cbn [fs host] in Hread.
  unfold find_affected_projects in Hfind.
  destruct (visit_all_reports (workspace_root self) (PyStr.contains (PyPath.stem moved))
              found (mkWorld f l h)) as [evs Hall].
  cbn [fs log host] in Hall. rewrite Hall in Hfind. injection Hfind as <- <-.
  assert (Hno : PyStr.contains (PyPath.stem moved) content = false).
  { destruct (PyStr.contains (PyPath.stem moved) content) eqn:E; [|reflexivity].
    exfalso. apply Hnot. apply list_elem_of_In, list_elem_of_omap.
    exists (workspace_root self ++ rel). split; [apply list_elem_of_In; exact Hin|].
    unfold reported, relative_to. rewrite Hread, E, is_prefix_app, drop_app_length.
    reflexivity. }
  assert (Hold : PyStr.contains old_ref content = false).
  { destruct (PyStr.contains old_ref content) eqn:E; [|reflexivity].
    rewrite (contains_trans _ _ _ Hstem E) in Hno. discriminate. }
  pose proof (fs_read_ok _ _ _ _ Hread) as (Hstat & raw & Hfile & _).
  unfold update_project_reference, bind, try_except, ret, path_exists, fs_stat, emit.
  cbv beta iota delta [fs log host]. rewrite Hdry, Hstat. unfold fs_exists. rewrite Hfile.
  cbv beta iota delta [negb].
  unfold read_text, emit. cbv beta iota delta [fs log host].
  rewrite Hread.
  rewrite (replace_absent _ _ _ Hold), String.eqb_refl. reflexivity.
Qed.

Lemma unreported_projects_need_no_update_witness :
  fst (update_project_reference (mkEngine ["ws"] false None) ["Lib"; "Lib.csproj"]
         "Core.csproj" "Kernel.csproj"
         (snd (find_affected_projects (mkEngine ["ws"] false None) ["ws"; "Core"]
                 [["ws"; "App"; "App.csproj"]; ["ws"; "Lib"; "Lib.csproj"]] reference_world)))
  = Ok (mkResult true ("No changes needed in " +:+ PyPath.rel_str ["Lib"; "Lib.csproj"]) None).
Proof.
  apply (unreported_projects_need_no_update (mkEngine ["ws"] false None) ["ws"; "Core"]
           [["ws"; "App"; "App.csproj"]; ["ws"; "Lib"; "Lib.csproj"]] reference_world _
           [] ["Lib"; "Lib.csproj"] "<Project/>" "Core.csproj" "Kernel.csproj").
  - vm_compute. reflexivity.
  - right. left. reflexivity.
  - intros [].
  - reflexivity.
  - reflexivity.
  - reflexivity.
Defined.

End WorkspaceSearchProps.

Module PlannerProps.
Import MigrationEngine Planner Samples MoreSamples.
Local Open Scope list_scope.

Lemma run_steps_shape (exec : MigrationStep -> M unit) (plan : list MigrationStep) :
  forall (completed : nat) (w : World),
  exists done rest w_mid,
    plan = done ++ rest
    /\ runs_all exec done w w_mid
    /\ match rest with
       | [] =>
           run_steps exec plan completed w
           = (Ok (map (with_status COMPLETED) done, completed + length done), w_mid)
       | step :: later =>
           exists e w',
             exec (with_status IN_PROGRESS step) w_mid = (Raise e, w')
             /\ run_steps exec plan completed w
                = (Ok (map (with_status COMPLETED) done
                       ++ with_error (exn_text e)
                            (with_status FAILED (with_status IN_PROGRESS step)) :: later,
                       completed + length done), w')
       end.
Proof.
  induction plan as [|step plan IH]; intros completed w.
  - exists [], [], w. cbn [app map run_steps length]. unfold ret.
    rewrite Nat.add_0_r. split; [reflexivity|]. split; [constructor | reflexivity].
  - cbn [run_steps]. unfold bind at 1. unfold try_except, bind, ret.
    destruct (exec (with_status IN_PROGRESS step) w) as [[[]|e] w1] eqn:Hexec.
    + destruct (IH (completed + 1) w1) as (done & rest & w_mid & Hplan & Hdone & Hrun).
      exists (step :: done), rest, w_mid. split; [rewrite Hplan; reflexivity|].
      split; [econstructor; [exact Hexec | exact Hdone]|].
      replace (completed + length (step :: done)) with (completed + 1 + length done)
        by (cbn [length]; lia).
      destruct rest as [|failed later].
      * rewrite Hrun. reflexivity.
      * destruct Hrun as (e & w' & Hfail & Hrun). exists e, w'.
        split; [exact Hfail|]. rewrite Hrun. reflexivity.
    + exists [], (step :: plan), w. split; [reflexivity|]. split; [constructor|].
      exists e, w1. split; [exact Hexec|]. cbn [app map length]. rewrite Nat.add_0_r.
      reflexivity.
Qed.

(** X29. The execution of a plan never raises.  It executes the
    steps in order, each with the status IN_PROGRESS, as long as the
    execution of a step returns, and marks these steps COMPLETED.  At
    the first step whose execution raises it stops: that step is
    FAILED and carries the text of the exception it raised, the steps
    after it are as they were and are not executed, and no success
    notice is shown.  When every step returned the notice is shown,
    unless the plan is empty. *)
Theorem execution_stops_at_the_first_failure
    (exec : MigrationStep -> M unit) (plan : list MigrationStep) (w : World) :
  exists done rest w_mid,
    plan = done ++ rest
    /\ runs_all exec done w w_mid
    /\ match rest with
       | [] =>
           _execute_migration_plan exec plan w
           = (Ok (map (with_status COMPLETED) done,
                  match plan with [] => false | _ => true end), w_mid)
       | step :: later =>
           exists e w',
             exec (with_status IN_PROGRESS step) w_mid = (Raise e, w')
             /\ _execute_migration_plan exec plan w
                = (Ok (map (with_status COMPLETED) done
                       ++ with_error (exn_text e)
                            (with_status FAILED (with_status IN_PROGRESS step)) :: later,
                       false), w')
       end.
Proof.
  destruct plan as [|first plan].
  - exists [], [], w. split; [reflexivity|]. split; [constructor | reflexivity].
  - destruct (run_steps_shape exec (first :: plan) 0 w)
      as (done & rest & w_mid & Hplan & Hdone & Hrun).
    exists done, rest, w_mid. split; [exact Hplan|]. split; [exact Hdone|].
    unfold _execute_migration_plan, bind, ret.
    destruct rest as [|step later].
    + rewrite Hrun. cbn [fst snd]. rewrite app_nil_r in Hplan. rewrite <- Hplan.
      rewrite Nat.eqb_refl. reflexivity.
    + destruct Hrun as (e & w' & Hfail & Hrun). exists e, w'. split; [exact Hfail|].
      rewrite Hrun. cbn [fst snd]. rewrite Hplan, length_app. cbn [length Nat.add].
      replace (length done =? length done + S (length later))%nat with false
        by (symmetry; apply Nat.eqb_neq; lia).
      reflexivity.
Qed.

(** Two steps of which the second raises: the first is executed and
    completed, the second has failed with the text of its exception,
    and the notice is not shown. *)
Example second_step_fails :
  match _execute_migration_plan
          (fun step w =>
             if (step_id step =? 2)%nat
             then fail FromFile (mkExn PermissionError "[Errno 13] Permission denied") w
             else (Ok tt, emit (Mkdir [source step]) w))
          two_steps app_world with
  | (Ok (steps, notice), w') =>
      map status steps = [COMPLETED; FAILED]
      /\ map error steps = [None; Some "[Errno 13] Permission denied"]
      /\ notice = false
      /\ events_since app_world w'
         = [Mkdir ["src/App.Core"];
            Failed FromFile (mkExn PermissionError "[Errno 13] Permission denied")]
  | _ => False
  end.
Proof. vm_compute. repeat split; reflexivity. Qed.

Lemma seq_snoc (start len : nat) : seq start (S len) = seq start len ++ [start + len].
Proof. rewrite <- Nat.add_1_r, seq_app. reflexivity. Qed.

Lemma delete_app_l {A : Type} (l l' : list A) :
  forall index, index < length l -> delete index (l ++ l') = delete index l ++ l'.
Proof.
  induction l as [|x l IH]; intros [|index] H; cbn [length] in H; try lia; [reflexivity|].
  cbn. f_equal. apply IH. lia.
Qed.

(** X30. Steps are numbered by the length of the plan.  A plan that
    was only added to carries the numbers 1, 2, .. in order; but after
    a step other than the last has been removed, the next step added
    gets the number of the last one, and two steps share a number. *)
Theorem step_numbers_repeat_after_a_removal
    (plan : list MigrationStep) (a : MigrationAction) (src tgt : string)
    (md : option (gmap string string)) :
  map step_id plan = seq 1 (length plan) ->
  map step_id (_add_migration_step plan a src tgt md) = seq 1 (length plan + 1)
  /\ forall index, S index < length plan ->
       ~ NoDup (map step_id (_add_migration_step (remove_step plan index) a src tgt md)).
Proof.
  intros Hids. unfold _add_migration_step. split.
  - rewrite map_app, Hids, Nat.add_1_r, seq_snoc. reflexivity.
  - intros index Hlt Hnd. unfold remove_step in Hnd.
    destruct plan as [|s0 plan _] using rev_ind; [cbn in Hlt; lia|].
    rewrite length_app in Hlt, Hids. cbn [length] in Hlt, Hids.
    rewrite Nat.add_1_r, seq_snoc, map_app in Hids. cbn [map] in Hids.
    apply app_inj_tail in Hids as [_ Hlast].
    rewrite delete_app_l in Hnd by lia.
    rewrite length_app, map_app, map_app in Hnd. cbn [length map step_id] in Hnd.
    rewrite length_delete in Hnd by (apply lookup_lt_is_Some; lia).
    replace (length plan - 1 + 1 + 1) with (1 + length plan) in Hnd by lia.
    rewrite Hlast in Hnd.
    apply NoDup_app in Hnd as (_ & Hdisj & _).
    apply (Hdisj (1 + length plan)).
    + apply elem_of_app. right. apply list_elem_of_In. left. reflexivity.
    + apply list_elem_of_In. left. reflexivity.
Qed.

Lemma step_numbers_repeat_after_a_removal_witness :
  map step_id (_add_migration_step two_steps RENAME_NAMESPACE "Old" "New" None)
  = seq 1 (length two_steps + 1)
  /\ ~ NoDup (map step_id (_add_migration_step (remove_step two_steps 0)
                             RENAME_NAMESPACE "Old" "New" None)).
Proof.
  destruct (step_numbers_repeat_after_a_removal two_steps RENAME_NAMESPACE "Old" "New" None)
    as [Hadd Hremove]; [reflexivity|].
  split; [exact Hadd|]. apply Hremove. cbn. lia.
Defined.

End PlannerProps.
